(** * The syntax-tree node of the JavaScript parser module ([Node.py])

    [Node] is a Python 2 class deriving from [list]: an instance is at the
    same time the sequence of its children and an object with dynamically
    attached attributes ([type], [line], [start], [end], [tokenizer],
    [parent], [rel], one attribute per relation name, ...).

    The embedding keeps what the methods rely on:
    - objects live in a store and are referred to by their identity, since
      [append] and [replace] mutate the node, the child and the replacement,
      which may alias;
    - the attributes of an instance are a finite map from names to values;
    - values are dynamically typed;
    - a method returns a value, raises an exception, or does not return
      (the recursion is bounded by a step index). *)

From Stdlib Require Import ZArith String Ascii List Lia.
From stdpp Require Import base option list gmap strings sorting pretty.
Import ListNotations.

#[local] Set Warnings "-register-all".
#[local] Open Scope string_scope.
#[local] Open Scope Z_scope.

(** ** Values and objects *)

(** Identity of a [Node] instance: its index in the store. *)
Abbreviation loc := nat.

(** Python values that reach the methods of [Node].  [VInt] stands for both
    [int] and [long]; [float] is left out.  [VStr] is a text ([str] or
    [unicode]) whose characters are code points below 256.  [VObj] is an
    instance of a class defined elsewhere (a tokenizer, a token, a comment),
    seen through its attributes only. *)
Inductive value :=
| VNone
| VBool (b : bool)
| VInt (z : Z)
| VStr (s : string)
| VList (l : list value)
| VNode (r : loc)
| VObj (fields : list (string * value)).

(** Modelled from the spec: the tokenizer and its tokens are instances of
    classes defined outside this module.  A tokenizer exposes its current
    token (or [None]), its current line, the source text and the file name;
    a token exposes its type, its line and its start and end offsets. *)
Definition token_object (type : string) (line start end_ : Z) : value :=
  VObj [("type", VStr type); ("line", VInt line);
        ("start", VInt start); ("end", VInt end_)].

Definition tokenizer_object (token : value) (line : Z) (source filename : string)
  : value :=
  VObj [("token", token); ("line", VInt line);
        ("source", VStr source); ("filename", VStr filename)].

(** An instance of [Node]: the instance dictionary and the list contents. *)
Record node := mkNode {
  attrs : gmap string value;
  kids : list value
}.

Abbreviation heap := (list node).

(** Exceptions the methods raise, with the data their message is built from. *)
Inductive exn :=
| AttributeError (name : string)
| NameError (name : string)
| TypeError
| ValueError
| IndexError
| InvalidKid (kid : value)
| InvalidAttributeListChild (name : string)
| IrritatedByNonRelated (child_type parent_type child_rel : value).

(** Result of running a method.  [OutOfFuel] and [Unmodelled] are limits of
    the embedding, never Python exceptions: the first marks a recursion cut
    by the step index, the second an operation on values whose Python
    behaviour is not described here. *)
Inductive outcome (A : Type) :=
| Ok (a : A)
| Raise (e : exn)
| OutOfFuel
| Unmodelled.
Arguments Ok {A} a.
Arguments Raise {A} e.
Arguments OutOfFuel {A}.
Arguments Unmodelled {A}.

#[global] Instance outcome_ret : MRet outcome := fun _ a => Ok a.
#[global] Instance outcome_bind : MBind outcome := fun _ _ f m =>
  match m with
  | Ok a => f a
  | Raise e => Raise e
  | OutOfFuel => OutOfFuel
  | Unmodelled => Unmodelled
  end.

(** ** Python primitives *)

Module Py.

(** [bool(v)].  A [Node] is true by [Node.__nonzero__], whatever its length;
    an instance of a foreign class is true by default. *)
Definition truthy (v : value) : bool :=
  match v with
  | VNone => false
  | VBool b => b
  | VInt z => negb (z =? 0)
  | VStr s => negb (String.eqb s "")
  | VList l => match l with [] => false | _ => true end
  | VNode _ => true
  | VObj _ => true
  end.

(** [isinstance(v, Node)]. *)
Definition isNode (v : value) : bool :=
  match v with VNode _ => true | _ => false end.

Fixpoint assoc (name : string) (fields : list (string * value)) : option value :=
  match fields with
  | [] => None
  | (k, v) :: rest => if String.eqb k name then Some v else assoc name rest
  end.

(** [getattr(v, name)] for a [name] that no built-in type and no method of
    the class defines ([start], [end], [rel], [tokenizer], [type], ...). *)
Definition getattr (h : heap) (v : value) (name : string) : outcome value :=
  match v with
  | VNode r =>
      match h !! r with
      | Some nd =>
          match attrs nd !! name with
          | Some x => Ok x
          | None => Raise (AttributeError name)
          end
      | None => Unmodelled
      end
  | VObj fields =>
      match assoc name fields with
      | Some x => Ok x
      | None => Raise (AttributeError name)
      end
  | _ => Raise (AttributeError name)
  end.

(** [getattr(v, name, default)]. *)
Definition getattr_default (h : heap) (v : value) (name : string) (d : value) : value :=
  match getattr h v name with
  | Ok x => x
  | _ => d
  end.

(** [hasattr(v, name)]: true when the lookup returns. *)
Definition hasattr (h : heap) (v : value) (name : string) : bool :=
  match getattr h v name with
  | Ok _ => true
  | _ => false
  end.

(** The callee [v.name] of a call [v.name(...)] on a node, for a [name]
    that the class defines as a method ([index], [toXml], [export]).  The
    instance dictionary is searched before the class, so an attribute of
    that name on the instance (one that [setattr(self, rel, kid)] put there,
    for example) takes the place of the method; no value of this model can
    be called, and calling one raises [TypeError].  The result is [Ok ()]
    when the method itself is reached. *)
Definition method (h : heap) (r : loc) (name : string) : outcome unit :=
  match h !! r with
  | Some nd =>
      match attrs nd !! name with
      | None => Ok ()
      | Some (VObj _) => Unmodelled
      | Some _ => Raise TypeError
      end
  | None => Unmodelled
  end.

(** Names whose assignment on an instance goes through a descriptor of
    [object] that refuses a value of this model. *)
Definition setattr_refused (name : string) : option exn :=
  if String.eqb name "__class__" then Some TypeError
  else if String.eqb name "__dict__" then Some TypeError
  else if String.eqb name "__weakref__" then Some (AttributeError name)
  else None.

(** [setattr(target, name, v)] with [name] a string. *)
Definition setattr (h : heap) (target : value) (name : string) (v : value) : outcome heap :=
  match target with
  | VNode r =>
      match h !! r with
      | Some nd =>
          match setattr_refused name with
          | Some e => Raise e
          | None => Ok (<[r := mkNode (<[name := v]> (attrs nd)) (kids nd)]> h)
          end
      | None => Unmodelled
      end
  | VObj _ => Unmodelled
  | _ => Raise (AttributeError name)
  end.

(** [setattr(target, name, v)] with [name] any value: the name must be a
    string. *)
Definition setattr_dyn (h : heap) (target : value) (name : value) (v : value) : outcome heap :=
  match name with
  | VStr s => setattr h target s v
  | _ => Raise TypeError
  end.

Definition number (v : value) : option Z :=
  match v with
  | VInt z => Some z
  | VBool b => Some (if b then 1 else 0)
  | _ => None
  end.

(** [a < b] in Python 2 on offsets: [None] is smaller than every other
    value, numbers compare by value ([bool] is a number). *)
Definition lt (a b : value) : outcome bool :=
  match a, b with
  | VNone, VNone => Ok false
  | VNone, _ => Ok true
  | _, VNone => Ok false
  | _, _ =>
      match number a, number b with
      | Some x, Some y => Ok (x <? y)
      | _, _ => Unmodelled
      end
  end.

(** [v != None]. *)
Definition is_not_None (v : value) : bool :=
  match v with VNone => false | _ => true end.

(** [list.append(self, v)]: extends the list in place. *)
Definition list_append (h : heap) (self : loc) (v : value) : outcome heap :=
  match h !! self with
  | Some nd => Ok (<[self := mkNode (attrs nd) (kids nd ++ [v])]> h)
  | None => Unmodelled
  end.

(** [self[i] = v] for an index [i] that [self.index] returned. *)
Definition list_setitem (h : heap) (self : loc) (i : nat) (v : value) : outcome heap :=
  match h !! self with
  | Some nd => Ok (<[self := mkNode (attrs nd) (<[i := v]> (kids nd))]> h)
  | None => Unmodelled
  end.

(** Items of a list or of a [Node] (which is a list). *)
Definition items (h : heap) (v : value) : option (list value) :=
  match v with
  | VList l => Some l
  | VNode r => kids <$> h !! r
  | _ => None
  end.

Definition same_object (a b : value) : bool :=
  match a, b with
  | VNode p, VNode q => Nat.eqb p q
  | _, _ => false
  end.

(** Element-wise comparison of two lists of equal length, stopping at the
    first pair that differs. *)
Fixpoint eq_items (cmp : value → value → outcome bool) (la lb : list value)
  : outcome bool :=
  match la, lb with
  | x :: la', y :: lb' =>
      b ← cmp x y;
      if b : bool then eq_items cmp la' lb' else Ok false
  | _, _ => Ok true
  end.

(** [a == b], with the identity shortcut of the containment and index
    operations.  [Node] inherits the comparison of [list]: two nodes are
    equal when their child sequences are, whatever their attributes. *)
Fixpoint eq (fuel : nat) (h : heap) (a b : value) : outcome bool :=
  match a, b with
  | VObj _, _ | _, VObj _ => Unmodelled
  | VNone, VNone => Ok true
  | (VBool _ | VInt _), (VBool _ | VInt _) =>
      match number a, number b with
      | Some x, Some y => Ok (x =? y)
      | _, _ => Ok false
      end
  | VStr s, VStr t => Ok (String.eqb s t)
  | (VList _ | VNode _), (VList _ | VNode _) =>
      if same_object a b then Ok true
      else
        match items h a, items h b with
        | Some la, Some lb =>
            if negb (Nat.eqb (length la) (length lb)) then Ok false
            else
              match fuel with
              | O => OutOfFuel
              | S fuel => eq_items (eq fuel h) la lb
              end
        | _, _ => Unmodelled
        end
  | _, _ => Ok false
  end.

(** [l.index(v)], counting from [i]: the position of the first item equal
    to [v]; [ValueError] when there is none. *)
Fixpoint list_index (fuel : nat) (h : heap) (l : list value) (v : value) (i : nat)
  : outcome nat :=
  match l with
  | [] => Raise ValueError
  | x :: l' =>
      b ← eq fuel h x v;
      if b : bool then Ok i else list_index fuel h l' v (S i)
  end.

(** [v in l]. *)
Fixpoint list_contains (fuel : nat) (h : heap) (l : list value) (v : value)
  : outcome bool :=
  match l with
  | [] => Ok false
  | x :: l' =>
      b ← eq fuel h v x;
      if b : bool then Ok true else list_contains fuel h l' v
  end.

(** [len(v)]. *)
Definition len (h : heap) (v : value) : outcome Z :=
  match v with
  | VStr s => Ok (Z.of_nat (String.length s))
  | VList l => Ok (Z.of_nat (length l))
  | VNode r =>
      match h !! r with
      | Some nd => Ok (Z.of_nat (length (kids nd)))
      | None => Unmodelled
      end
  | VObj _ => Unmodelled
  | _ => Raise TypeError
  end.

Fixpoint chars (s : string) : list value :=
  match s with
  | EmptyString => []
  | String c s' => VStr (String c EmptyString) :: chars s'
  end.

(** The items [for x in v] visits. *)
Definition iter (h : heap) (v : value) : outcome (list value) :=
  match v with
  | VStr s => Ok (chars s)
  | VList l => Ok l
  | VNode r =>
      match h !! r with
      | Some nd => Ok (kids nd)
      | None => Unmodelled
      end
  | VObj _ => Unmodelled
  | _ => Raise TypeError
  end.

(** A slice bound on a sequence of length [n]: a negative bound counts from
    the end, and bounds are clipped to the sequence. *)
Definition clip (n : Z) (z : Z) : Z :=
  if z <? 0 then Z.max 0 (z + n) else Z.min z n.

Definition slice_bound (n : Z) (default : Z) (v : value) : outcome Z :=
  match v with
  | VNone => Ok default
  | VInt z => Ok (clip n z)
  | VBool b => Ok (clip n (if b then 1 else 0))
  | _ => Raise TypeError
  end.

(** [src[lo:hi]] on a text. *)
Definition getslice (src : value) (lo hi : value) : outcome value :=
  match src with
  | VStr s =>
      let n := Z.of_nat (String.length s) in
      a ← slice_bound n 0 lo;
      b ← slice_bound n n hi;
      Ok (VStr (substring (Z.to_nat a) (Z.to_nat (b - a)) s))
  | _ => Unmodelled
  end.

(** [str(v)], also what [%s] formats. *)
Definition str (v : value) : outcome string :=
  match v with
  | VNone => Ok "None"
  | VBool b => Ok (if b then "True" else "False")
  | VInt z => Ok (pretty z)
  | VStr s => Ok s
  | _ => Unmodelled
  end.

(** [s * n] on a text. *)
Fixpoint repeat_string (s : string) (n : nat) : string :=
  match n with
  | O => ""
  | S n => s +:+ repeat_string s n
  end.

Definition times (s : string) (n : Z) : string := repeat_string s (Z.to_nat n).

(** [sep.join(l)] on texts. *)
Fixpoint join (sep : string) (l : list string) : string :=
  match l with
  | [] => ""
  | [s] => s
  | s :: l' => s +:+ sep +:+ join sep l'
  end.

Definition dquote : string := String "034" "".
Definition newline : string := String "010" "".

Definition hex_digit (n : N) : ascii :=
  match n with
  | 0 => "0" | 1 => "1" | 2 => "2" | 3 => "3" | 4 => "4" | 5 => "5"
  | 6 => "6" | 7 => "7" | 8 => "8" | 9 => "9" | 10 => "a" | 11 => "b"
  | 12 => "c" | 13 => "d" | 14 => "e" | _ => "f"
  end%N%char.

(** How [json.dumps] writes one character of a text: the backslash and the
    double quote are escaped, a character outside the printable ASCII range
    becomes a short escape or [\u00XX]. *)
Definition json_escape (c : ascii) : string :=
  let n := N_of_ascii c in
  if (n =? 92)%N then "\\"
  else if (n =? 34)%N then "\" +:+ dquote
  else if (n =? 8)%N then "\b"
  else if (n =? 12)%N then "\f"
  else if (n =? 10)%N then "\n"
  else if (n =? 13)%N then "\r"
  else if (n =? 9)%N then "\t"
  else if ((32 <=? n) && (n <=? 126))%N then String c ""
  else "\u00" +:+ String (hex_digit (n / 16)) (String (hex_digit (n mod 16)) "").

Fixpoint json_escape_all (s : string) : string :=
  match s with
  | EmptyString => ""
  | String c s' => json_escape c +:+ json_escape_all s'
  end.

(** [json.dumps(s)] on a text. *)
Definition json_dumps (s : string) : string :=
  dquote +:+ json_escape_all s +:+ dquote.

(** [sep.join(l)] on a list of values: every item must be a text. *)
Fixpoint texts (l : list value) : outcome (list string) :=
  match l with
  | [] => Ok []
  | VStr s :: l' => ss ← texts l'; Ok (s :: ss)
  | _ :: _ => Raise TypeError
  end.

Definition join_values (sep : string) (l : list value) : outcome string :=
  ss ← texts l; Ok (join sep ss).

(** [name in names] on texts. *)
Definition name_in (name : string) (names : list string) : bool :=
  existsb (String.eqb name) names.

(** [name[0]]. *)
Definition first_char (name : string) : outcome ascii :=
  match name with
  | EmptyString => Raise IndexError
  | String c _ => Ok c
  end.

Definition str_le (a b : string) : Prop := String.leb a b = true.

#[global] Instance str_le_dec : RelDecision str_le.
Proof. intros a b. unfold str_le. apply _. Defined.

(** [dir(self)] restricted to the instance dictionary, in sorted order.  The
    names the class itself defines are left out: their values are bound
    methods or their names start with an underscore, and both serializers
    pass over such entries. *)
Definition dir (nd : node) : list string :=
  merge_sort str_le (map fst (map_to_list (attrs nd))).

End Py.

(** ** Loops in the outcome monad *)

Fixpoint foldM {A B : Type} (f : B → A → outcome B) (l : list A) (b : B)
  : outcome B :=
  match l with
  | [] => Ok b
  | x :: l' => b ← f b x; foldM f l' b
  end.

Fixpoint mapM {A B : Type} (f : A → outcome B) (l : list A) : outcome (list B) :=
  match l with
  | [] => Ok []
  | x :: l' => y ← f x; ys ← mapM f l'; Ok (y :: ys)
  end.

(** The nested record [Node.export] builds: a dictionary whose entries are
    attribute values copied as they are, dictionaries of exported nodes, or
    the list of exported children. *)
Inductive exported :=
| EVal (v : value)
| EDict (d : gmap string exported)
| EList (l : list exported).

(** ** Computations that mutate the store *)

(** A computation on the store gives its result and the store it leaves
    behind, also when it raises: what was assigned before an exception stays
    assigned. *)
Definition M (A : Type) : Type := heap → outcome A * heap.

#[global] Instance M_ret : MRet M := λ _ a h, (Ok a, h).
#[global] Instance M_bind : MBind M := λ _ _ f m h,
  match m h with
  | (Ok a, h') => f a h'
  | (Raise e, h') => (Raise e, h')
  | (OutOfFuel, h') => (OutOfFuel, h')
  | (Unmodelled, h') => (Unmodelled, h')
  end.

Module St.

Definition read {A : Type} (f : heap → outcome A) : M A := λ h, (f h, h).

Definition write (f : heap → outcome heap) : M unit := λ h,
  match f h with
  | Ok h' => (Ok (), h')
  | Raise e => (Raise e, h)
  | OutOfFuel => (OutOfFuel, h)
  | Unmodelled => (Unmodelled, h)
  end.

Definition raise {A : Type} (e : exn) : M A := λ h, (Raise e, h).

Definition getattr (v : value) (name : string) : M value :=
  read (λ h, Py.getattr h v name).

Definition getattr_default (v : value) (name : string) (d : value) : M value :=
  read (λ h, Ok (Py.getattr_default h v name d)).

Definition hasattr (v : value) (name : string) : M bool :=
  read (λ h, Ok (Py.hasattr h v name)).

Definition setattr (target : value) (name : string) (v : value) : M unit :=
  write (λ h, Py.setattr h target name v).

Definition setattr_dyn (target : value) (name : value) (v : value) : M unit :=
  write (λ h, Py.setattr_dyn h target name v).

Definition lt (a b : value) : M bool := read (λ _, Py.lt a b).

(** [list.append(self, v)] returns [None]. *)
Definition list_append (self : loc) (v : value) : M value :=
  write (λ h, Py.list_append h self v);; mret VNone.

Definition list_setitem (self : loc) (i : nat) (v : value) : M unit :=
  write (λ h, Py.list_setitem h self i v).

(** A new instance of [Node], empty and without attributes. *)
Definition new : M loc := λ h, (Ok (length h), (h ++ [mkNode ∅ []])%list).

End St.

(** ** The methods of [Node] *)

Module Node.

(** [Node.__nonzero__(self)]. *)
Definition nonzero (self : loc) : M bool := mret true.

(** [Node.append(self, kid, rel=None)]. *)
Definition append (self : loc) (kid : value) (rel : value) : M value :=
  (if Py.truthy kid then
     if negb (Py.isNode kid) then St.raise (InvalidKid kid)
     else
       spanned ← St.hasattr kid "tokenizer";
       (if spanned : bool then
          kid_start ← St.getattr kid "start";
          self_start ← St.getattr (VNode self) "start";
          b ← St.lt kid_start self_start;
          (if b : bool then
             kid_start ← St.getattr kid "start";
             St.setattr (VNode self) "start" kid_start
           else mret ());;
          self_end ← St.getattr (VNode self) "end";
          kid_end ← St.getattr kid "end";
          b ← St.lt self_end kid_end;
          (if b : bool then
             kid_end ← St.getattr kid "end";
             St.setattr (VNode self) "end" kid_end
           else mret ())
        else mret ());;
       St.setattr kid "parent" (VNode self);;
       (if Py.is_not_None rel then
          St.setattr_dyn (VNode self) rel kid;;
          St.setattr kid "rel" rel
        else mret ())
   else mret ());;
  if negb (Py.truthy kid) && Py.truthy rel then mret VNone
  else St.list_append self kid.

(** The loop [for arg in args: self.append(arg)] of the constructor. *)
Fixpoint append_all (self : loc) (args : list value) : M unit :=
  match args with
  | [] => mret ()
  | arg :: args => append self arg VNone;; append_all self args
  end.

(** [Node(tokenizer, type, args)]: a new instance on which [Node.__init__]
    has run.  The tokenizer is stored as it is when the node is built. *)
Definition init (tokenizer type : value) (args : list value) : M loc :=
  self ← St.new;
  (if Py.truthy tokenizer then
     token ← St.getattr tokenizer "token";
     (if Py.truthy token then
        token_type ← St.getattr_default token "type" VNone;
        St.setattr (VNode self) "type"
          (if Py.truthy type then type else token_type);;
        line ← St.getattr token "line";
        St.setattr (VNode self) "line" line;;
        start ← St.getattr token "start";
        St.setattr (VNode self) "start" start;;
        end_ ← St.getattr token "end";
        St.setattr (VNode self) "end" end_
      else
        St.setattr (VNode self) "type" type;;
        line ← St.getattr tokenizer "line";
        St.setattr (VNode self) "line" line;;
        St.setattr (VNode self) "start" VNone;;
        St.setattr (VNode self) "end" VNone);;
     St.setattr (VNode self) "tokenizer" tokenizer
   else if Py.truthy type then St.setattr (VNode self) "type" type
   else mret ());;
  append_all self args;;
  mret self.

(** [Node.getUnrelatedChildren(self)]. *)
Definition getUnrelatedChildren (h : heap) (self : loc) : outcome (list value) :=
  match h !! self with
  | None => Unmodelled
  | Some nd => Ok (filter (λ child, Py.hasattr h child "rel" = false) (kids nd))
  end.

(** [Node.getChildrenLength(self, filter=True)]. *)
Definition getChildrenLength (h : heap) (self : loc) (filter : bool) : outcome Z :=
  match h !! self with
  | None => Unmodelled
  | Some nd =>
      Ok (fold_left
            (λ count child,
               if negb filter || negb (Py.hasattr h child "rel")
               then count + 1 else count)
            (kids nd) 0)
  end.

(** [Node.getSource(self)]. *)
Definition getSource (h : heap) (self : loc) : outcome value :=
  tokenizer ← Py.getattr h (VNode self) "tokenizer";
  if negb (Py.truthy tokenizer) then Raise (NameError "node")
  else if Py.is_not_None (Py.getattr_default h (VNode self) "start" VNone) then
    if Py.is_not_None (Py.getattr_default h (VNode self) "end" VNone) then
      tokenizer ← Py.getattr h (VNode self) "tokenizer";
      source ← Py.getattr h tokenizer "source";
      start ← Py.getattr h (VNode self) "start";
      end_ ← Py.getattr h (VNode self) "end";
      Py.getslice source start end_
    else
      tokenizer ← Py.getattr h (VNode self) "tokenizer";
      source ← Py.getattr h tokenizer "source";
      start ← Py.getattr h (VNode self) "start";
      Py.getslice source start VNone
  else if Py.is_not_None (Py.getattr_default h (VNode self) "end" VNone) then
    tokenizer ← Py.getattr h (VNode self) "tokenizer";
    source ← Py.getattr h tokenizer "source";
    end_ ← Py.getattr h (VNode self) "end";
    Py.getslice source VNone end_
  else
    tokenizer ← Py.getattr h (VNode self) "tokenizer";
    source ← Py.getattr h tokenizer "source";
    Py.getslice source VNone VNone.

(** [Node.getFileName(self)]. *)
Definition getFileName (h : heap) (self : loc) : outcome value :=
  tokenizer ← Py.getattr h (VNode self) "tokenizer";
  Py.getattr h tokenizer "filename".

(** Names [Node.toXml] does not render as attributes. *)
Definition toXml_excluded : list string :=
  ["type"; "parent"; "comments"; "target"; "rel"; "start"; "end"].

(** Names [Node.export] does not copy. *)
Definition export_excluded : list string :=
  ["parent"; "target"; "rel"; "start"; "end"].

(** The test [name not in excluded and name[0] != "_"]. *)
Definition visible (excluded : list string) (name : string) : outcome bool :=
  if negb (Py.name_in name excluded) then
    c ← Py.first_char name;
    Ok (negb (Ascii.eqb c "_"))
  else Ok false.

(** Body of the attribute loop of [Node.toXml] for one [name] of
    [dir(self)]: [acc] holds [relatedChildren] and [attrsCollection]. *)
Definition toXml_attribute (h : heap) (self : loc)
    (acc : list value * list string) (name : string)
  : outcome (list value * list string) :=
  let '(relatedChildren, attrsCollection) := acc in
  b ← visible toXml_excluded name;
  if b : bool then
    value ← Py.getattr h (VNode self) name;
    let attribute (text : string) :=
      Ok (relatedChildren,
          (attrsCollection ++ [name +:+ "=" +:+ Py.json_dumps text])%list) in
    match value with
    | VNode _ =>
        if Py.hasattr h value "rel"
        then Ok ((relatedChildren ++ [value])%list, attrsCollection)
        else Ok acc
    | VBool b => attribute (if b then "true" else "false")
    | VInt z => attribute (pretty z)
    | VStr s => attribute s
    | VList l =>
        if (length l =? 0)%nat then Ok acc
        else
          l ← (if Py.name_in name ["varDecls"; "funDecls"]
               then mapM (λ node, Py.getattr h node "value") l
               else Ok l);
          match Py.join_values "," l with
          | Raise TypeError => Raise (InvalidAttributeListChild name)
          | joined => text ← joined; attribute text
          end
    | _ => Ok acc
    end
  else Ok acc.

(** [Node.toXml(self, format=True, indent=0, tab="  ")].  The recursive
    calls do not pass [tab] on: children are indented with the default.
    They are calls [child.toXml(...)], whose callee is looked up on the
    child. *)
Fixpoint toXml (fuel : nat) (h : heap) (self : loc)
    (format : bool) (indent : Z) (tab : string) : outcome string :=
  match fuel with
  | O => OutOfFuel
  | S fuel =>
      match h !! self with
      | None => Unmodelled
      | Some nd =>
          let lead := if format then Py.times tab indent else "" in
          let innerLead := if format then Py.times tab (indent + 1) else "" in
          let lineBreak := if format then Py.newline else "" in
          '(relatedChildren, attrsCollection) ←
            foldM (toXml_attribute h self) (Py.dir nd) ([], []);
          let attrs :=
            if (0 <? length attrsCollection)%nat
            then " " +:+ Py.join " " attrsCollection else "" in
          let comments := Py.getattr_default h (VNode self) "comments" VNone in
          leaf ←
            (if (length (kids nd) =? 0)%nat && (length relatedChildren =? 0)%nat
             then
               if negb (Py.truthy comments) then Ok true
               else n ← Py.len h comments; Ok (n =? 0)
             else Ok false);
          type ← Py.getattr h (VNode self) "type";
          type ← Py.str type;
          if leaf : bool then
            Ok (lead +:+ "<" +:+ type +:+ attrs +:+ "/>" +:+ lineBreak)
          else
            let result := lead +:+ "<" +:+ type +:+ attrs +:+ ">" +:+ lineBreak in
            result ←
              (if Py.truthy comments then
                 cs ← Py.iter h comments;
                 foldM (λ result comment,
                          style ← Py.getattr h comment "style";
                          style ← Py.str style;
                          mode ← Py.getattr h comment "mode";
                          mode ← Py.str mode;
                          text ← Py.getattr h comment "text";
                          text ← Py.str text;
                          Ok (result +:+ innerLead +:+ "<comment style="
                                +:+ Py.dquote +:+ style +:+ Py.dquote
                                +:+ " mode=" +:+ Py.dquote +:+ mode
                                +:+ Py.dquote +:+ ">" +:+ text
                                +:+ "</comment>" +:+ lineBreak))
                       cs result
               else Ok result);
            result ←
              foldM (λ result child,
                       if negb (Py.truthy child) then
                         Ok (result +:+ innerLead +:+ "<none/>" +:+ lineBreak)
                       else if negb (Py.hasattr h child "rel") then
                         match child with
                         | VNode c =>
                             Py.method h c "toXml";;
                             xml ← toXml fuel h c format (indent + 1) "  ";
                             Ok (result +:+ xml)
                         | VObj _ => Unmodelled
                         | _ => Raise (AttributeError "toXml")
                         end
                       else
                         found ← Py.list_contains fuel h relatedChildren child;
                         if negb found then
                           child_type ← Py.getattr h child "type";
                           self_type ← Py.getattr h (VNode self) "type";
                           child_rel ← Py.getattr h child "rel";
                           Raise (IrritatedByNonRelated child_type self_type child_rel)
                         else Ok result)
                    (kids nd) result;
            result ←
              foldM (λ result child,
                       rel ← Py.getattr h child "rel";
                       rel ← Py.str rel;
                       let result := result +:+ innerLead +:+ "<" +:+ rel +:+ ">"
                                       +:+ lineBreak in
                       xml ← match child with
                             | VNode c =>
                                 Py.method h c "toXml";;
                                 toXml fuel h c format (indent + 2) "  "
                             | _ => Unmodelled
                             end;
                       let result := result +:+ xml in
                       rel ← Py.getattr h child "rel";
                       rel ← Py.str rel;
                       Ok (result +:+ innerLead +:+ "</" +:+ rel +:+ ">"
                             +:+ lineBreak))
                    relatedChildren result;
            Ok (result +:+ lead +:+ "</" +:+ type +:+ ">" +:+ lineBreak)
      end
  end.

(** Body of the attribute loop of [Node.export] for one [name] of
    [dir(self)].  [export_node] is the call [value.export()]. *)
Definition export_attribute (export_node : loc → outcome (gmap string exported))
    (h : heap) (self : loc) (attrs : gmap string exported) (name : string)
  : outcome (gmap string exported) :=
  b ← visible export_excluded name;
  if b : bool then
    value ← Py.getattr h (VNode self) name;
    match value with
    | VNode r =>
        if Py.hasattr h value "rel" then
          d ← export_node r;
          Ok (<[name := EDict d]> attrs)
        else Ok attrs
    | VBool _ | VInt _ | VStr _ | VList _ => Ok (<[name := EVal value]> attrs)
    | _ => Ok attrs
    end
  else Ok attrs.

(** Body of the child loop of [Node.export].  [export_node] is the call
    [child.export()] on a node. *)
Definition export_child (export_node : loc → outcome (gmap string exported))
    (h : heap) (attrs : gmap string exported) (child : value)
  : outcome (gmap string exported) :=
  if negb (Py.hasattr h child "rel") then
    let attrs :=
      match attrs !! "children" with
      | None => <["children" := EList []]> attrs
      | Some _ => attrs
      end in
    let exported_child :=
      match child with
      | VNode c => export_node c
      | VObj _ => Unmodelled
      | _ => Raise (AttributeError "export")
      end in
    match attrs !! "children" with
    | Some (EList l) =>
        d ← exported_child;
        Ok (<["children" := EList (l ++ [EDict d])]> attrs)
    | Some (EVal (VList _)) => Unmodelled
    | _ => Raise (AttributeError "append")
    end
  else Ok attrs.

(** A call [node.method(...)]: the callee is looked up on the instance,
    then the method [body] runs on the node. *)
Definition call {A : Type} (h : heap) (name : string) (body : loc → outcome A)
    (r : loc) : outcome A :=
  Py.method h r name;; body r.

(** [Node.export(self)]. *)
Fixpoint export (fuel : nat) (h : heap) (self : loc)
  : outcome (gmap string exported) :=
  match fuel with
  | O => OutOfFuel
  | S fuel =>
      match h !! self with
      | None => Unmodelled
      | Some nd =>
          attrs ← foldM (export_attribute (call h "export" (export fuel h)) h self)
                    (Py.dir nd) ∅;
          foldM (export_child (call h "export" (export fuel h)) h) (kids nd) attrs
      end
  end.

(** [repr(v)], as far as it matters whether it returns: [Node.__repr__] is
    [toXml], called with its default arguments. *)
Definition repr (fuel : nat) (h : heap) (v : value) : outcome unit :=
  match v with
  | VNode r => toXml fuel h r true 0 "  ";; Ok ()
  | VList _ | VObj _ => Unmodelled
  | _ => Ok ()
  end.

(** [self.index(kid)]: the callee is looked up on the instance; the method
    of [list] returns the position of the first child equal to [kid].  When
    there is none, it builds the message of its [ValueError] from
    [repr(kid)], so that a [kid] whose [repr] raises makes the call raise
    that exception instead. *)
Definition index (fuel : nat) (h : heap) (self : loc) (kid : value) : outcome nat :=
  Py.method h self "index";;
  match h !! self with
  | Some nd =>
      match Py.list_index fuel h (kids nd) kid 0 with
      | Raise ValueError => repr fuel h kid;; Raise ValueError
      | found => found
      end
  | None => Unmodelled
  end.

(** [Node.replace(self, kid, repl)].  [fuel] bounds the depth to which
    [self.index(kid)] compares child sequences. *)
Definition replace (fuel : nat) (self : loc) (kid repl : value) : M value :=
  i ← St.read (λ h, index fuel h self kid);
  St.list_setitem self i repl;;
  related ← St.hasattr kid "rel";
  (if related : bool then
     rel ← St.getattr kid "rel";
     St.setattr repl "rel" rel;;
     rel ← St.getattr kid "rel";
     St.setattr_dyn (VNode self) rel repl
   else mret ());;
  mret kid.

End Node.

(** ** Scenarios *)

(** A [BinaryExpr] node that gets a [Num] child with [value = 1] under the
    relation [left], then a [Num] child with [value = 2] under [right]. *)
Definition binary_expr_scenario : M (loc * loc * loc) :=
  expr ← Node.init VNone (VStr "BinaryExpr") [];
  lhs ← Node.init VNone (VStr "Num") [];
  St.setattr (VNode lhs) "value" (VInt 1);;
  rhs ← Node.init VNone (VStr "Num") [];
  St.setattr (VNode rhs) "value" (VInt 2);;
  Node.append expr (VNode lhs) (VStr "left");;
  Node.append expr (VNode rhs) (VStr "right");;
  mret (expr, lhs, rhs).

(** A node built while the tokenizer has no current token (its [start] and
    [end] are [None]) gets as child a node built from the token at offsets
    2 to 3. *)
Definition unset_span_scenario : M (loc * loc) :=
  parent ← Node.init (tokenizer_object VNone 1 "a+b;" "a.js") (VStr "Script") [];
  kid ← Node.init
    (tokenizer_object (token_object "Identifier" 1 2 3) 1 "a+b;" "a.js")
    VNone [];
  Node.append parent (VNode kid) VNone;;
  mret (parent, kid).

(** A node built without tokenizer gets as child a node built from the
    token at offsets 2 to 3. *)
Definition plain_parent_scenario : M (loc * loc) :=
  parent ← Node.init VNone (VStr "Block") [];
  kid ← Node.init
    (tokenizer_object (token_object "Identifier" 1 2 3) 1 "a+b;" "a.js")
    VNone [];
  Node.append parent (VNode kid) VNone;;
  mret (parent, kid).

(** A node with one child related as [operand], which is then replaced. *)
Definition replace_scenario (fuel : nat) : M (loc * loc * loc * value) :=
  expr ← Node.init VNone (VStr "UnaryExpr") [];
  old ← Node.init VNone (VStr "Num") [];
  new ← Node.init VNone (VStr "Str") [];
  Node.append expr (VNode old) (VStr "operand");;
  ret ← Node.replace fuel expr (VNode old) (VNode new);
  mret (expr, old, new, ret).

(** A node [block] with the single child [a]; [b] is another childless node
    that was never attached to [block], and [c] is to take its place. *)
Definition replace_absent_scenario (fuel : nat)
  : M (loc * loc * loc * loc * value) :=
  block ← Node.init VNone (VStr "Block") [];
  a ← Node.init VNone (VStr "Num") [];
  b ← Node.init VNone (VStr "Num") [];
  c ← Node.init VNone (VStr "Str") [];
  Node.append block (VNode a) VNone;;
  ret ← Node.replace fuel block (VNode b) (VNode c);
  mret (block, a, b, c, ret).

(** A [Function] node whose [params] attribute is the list [l]. *)
Definition params_node (l : list value) : node :=
  mkNode {[ "type" := VStr "Function"; "params" := VList l ]} [].

(** A [Call] node with the attributes [type], [start] and [end], the related
    child [callee] and one unrelated child. *)
Definition call_store : heap :=
  [ mkNode {[ "type" := VStr "Call"; "start" := VInt 0; "end" := VInt 4;
              "callee" := VNode 1%nat ]} [VNode 1%nat; VNode 2%nat];
    mkNode {[ "type" := VStr "Identifier"; "rel" := VStr "callee";
              "parent" := VNode 0%nat ]} [];
    mkNode {[ "type" := VStr "Num"; "parent" := VNode 0%nat ]} [] ].

(** An array literal [[, 1]]: an elision, then the number 1. *)
Definition elision_store : heap :=
  [mkNode {[ "type" := VStr "ArrayLit" ]} [VNone; VNode 1%nat];
   mkNode (<[ "value" := VInt 1 ]> (<[ "parent" := VNode 0%nat ]>
             {[ "type" := VStr "Num" ]})) []].

(** A node with the related child [condition], an empty slot and a child
    without relation. *)
Definition mixed_store : heap :=
  [mkNode (<[ "condition" := VNode 1%nat ]> {[ "type" := VStr "If" ]})
          [VNode 1%nat; VNone; VNode 2%nat];
   mkNode (<[ "rel" := VStr "condition" ]> (<[ "parent" := VNode 0%nat ]>
             {[ "type" := VStr "True" ]})) [];
   mkNode (<[ "parent" := VNode 0%nat ]> {[ "type" := VStr "Block" ]}) []].

(** ** Notions used in the statements *)

(** The position an offset attribute stands for: [default] when the
    attribute is missing or [None], the offset itself when it is a natural
    number. *)
Definition offset (o : option value) (default : nat) : option nat :=
  match o with
  | None | Some VNone => Some default
  | Some (VInt z) => if 0 <=? z then Some (Z.to_nat z) else None
  | Some _ => None
  end.

(** The items that the list attribute [name] joins: for [varDecls] and
    [funDecls] the [value] attribute of each item, otherwise the items
    themselves. *)
Definition joined_items (h : heap) (name : string) (l xs : list value) : Prop :=
  if Py.name_in name ["varDecls"; "funDecls"]
  then Forall2 (λ item x, Py.getattr h item "value" = Ok x) l xs
  else xs = l.

Definition starts_with_underscore (name : string) : bool :=
  match name with
  | EmptyString => false
  | String c _ => Ascii.eqb c "_"
  end.

(** The names [export] copies: every name but [parent], [target], [rel],
    [start] and [end], and but those that start with an underscore. *)
Definition export_keeps (name : string) : bool :=
  negb (Py.name_in name ["parent"; "target"; "rel"; "start"; "end"])
  && negb (starts_with_underscore name).

(** The result of a computation that returned. *)
Definition returned {A : Type} (o : outcome A) : option A :=
  match o with
  | Ok a => Some a
  | _ => None
  end.

(** What the record exported for a node holds for the attribute [name] of
    value [v], the nodes being exported by [export_node]. *)
Definition exported_attribute
    (export_node : loc → outcome (gmap string exported))
    (h : heap) (name : string) (v : value) : option exported :=
  if export_keeps name then
    match v with
    | VNode r =>
        if Py.hasattr h v "rel" then EDict <$> returned (export_node r) else None
    | VBool _ | VInt _ | VStr _ | VList _ => Some (EVal v)
    | _ => None
    end
  else None.

(** Two stores whose lists have the same items, object by object. *)
Definition same_kids (h h' : heap) : Prop :=
  ∀ r, kids <$> h !! r = kids <$> h' !! r.

(** A computation preserves a relation between the store before and after
    it, whenever it returns. *)
Definition preserves (P : heap → heap → Prop) {A : Type} (m : M A) : Prop :=
  ∀ h a h', m h = (Ok a, h') → P h h'.

(** Two stores in which the same values carry a relation marker. *)
Definition same_markers (h h' : heap) : Prop :=
  ∀ v, Py.hasattr h' v "rel" = Py.hasattr h v "rel".

(** The object [q] does not lose the parent [self]. *)
Definition keeps_parent (self q : loc) (h h' : heap) : Prop :=
  Py.getattr h (VNode q) "parent" = Ok (VNode self) →
  Py.getattr h' (VNode q) "parent" = Ok (VNode self).

(** The texts of a list, one after the other. *)
Definition concat_texts (l : list string) : string := foldr String.app "" l.

(** What the child loop of [toXml], called with [format], [indent] and
    [tab], writes for a child: an empty slot gives a [<none/>] line indented
    with [tab]; a node without relation gives what the call
    [child.toXml(format, indent+1)] returns, its own XML one level deeper,
    written with the tab of two spaces; a child with a relation gives
    nothing there, and must be found among the [related] nodes. *)
Definition child_xml (fuel : nat) (h : heap) (format : bool) (indent : Z)
    (tab : string) (related : list value) (child : value) (xml : string) : Prop :=
  if Py.truthy child then
    if Py.hasattr h child "rel" then
      Py.list_contains fuel h related child = Ok true ∧ xml = ""
    else
      ∃ c, child = VNode c ∧
           Node.call h "toXml"
             (λ c, Node.toXml fuel h c format (indent + 1) "  ") c = Ok xml
  else
    xml = (if format then Py.times tab (indent + 1) else "")
            +:+ "<none/>" +:+ (if format then Py.newline else "").

(** What the last loop of [toXml] writes for a related node: what the call
    [child.toXml(format, indent+2)] returns, its own XML two levels deeper,
    written with the tab of two spaces, between an opening and a closing tag
    named after the relation. *)
Definition related_xml (fuel : nat) (h : heap) (format : bool) (indent : Z)
    (tab : string) (child : value) (xml : string) : Prop :=
  ∃ (c : loc) (rel : value) (r inner : string),
    child = VNode c ∧
    Py.getattr h child "rel" = Ok rel ∧ Py.str rel = Ok r ∧
    Node.call h "toXml"
      (λ c, Node.toXml fuel h c format (indent + 2) "  ") c = Ok inner ∧
    xml = ((if format then Py.times tab (indent + 1) else "")
             +:+ "<" +:+ r +:+ ">" +:+ (if format then Py.newline else ""))
            +:+ inner
            +:+ (if format then Py.times tab (indent + 1) else "")
            +:+ "</" +:+ r +:+ ">" +:+ (if format then Py.newline else "").

(** The attribute that [toXml] writes for the list attribute [name] whose
    joined items are the texts [ss]. *)
Definition list_entry (name : string) (ss : list string) : string :=
  name +:+ "=" +:+ Py.json_dumps (Py.join "," ss).

(** The text [s] holds the text [part]. *)
Definition contains (part s : string) : Prop :=
  ∃ pre post : string, s = pre +:+ part +:+ post.

(** [name] is the only attribute of the node that [toXml] renders: every
    other name is passed over (it is excluded or starts with an
    underscore). *)
Definition only_rendered (nd : node) (name : string) : Prop :=
  ∀ other, is_Some (attrs nd !! other) → other ≠ name →
           Node.visible Node.toXml_excluded other = Ok false.

(** A node without children and comments on which [name] is the only
    attribute that [toXml] renders. *)
Definition plain_leaf (nd : node) (name : string) : Prop :=
  only_rendered nd name ∧ attrs nd !! "comments" = None ∧ kids nd = [].

(** The self-closing tag [toXml] writes for a node of type [t] without
    children, [attributes] being the attributes with their leading blank. *)
Definition self_closing_tag (format : bool) (indent : Z) (tab t attributes : string)
  : string :=
  (if format then Py.times tab indent else "") +:+ "<" +:+ t +:+ attributes
    +:+ "/>" +:+ (if format then Py.newline else "").

(** * Properties *)

(** ** Reasoning about computations on the store *)

Lemma bind_Ok {A B : Type} (m : M A) (f : A → M B) h a h1 :
  m h = (Ok a, h1) → (m ≫= f) h = f a h1.
Proof. intros Hm. unfold mbind, M_bind. by rewrite Hm. Qed.

Lemma bind_Ok_inv {A B : Type} (m : M A) (f : A → M B) h b h' :
  (m ≫= f) h = (Ok b, h') →
  ∃ a h1, m h = (Ok a, h1) ∧ f a h1 = (Ok b, h').
Proof.
  unfold mbind, M_bind. destruct (m h) as [[a| | |] h1]; try discriminate.
  intros Hf. by exists a, h1.
Qed.

Lemma read_Ok_inv {A : Type} (f : heap → outcome A) h a h' :
  St.read f h = (Ok a, h') → f h = Ok a ∧ h' = h.
Proof. unfold St.read. intros [= H1 H2]. by subst. Qed.

Lemma write_Ok_inv (f : heap → outcome heap) h u h' :
  St.write f h = (Ok u, h') → f h = Ok h'.
Proof. unfold St.write. destruct (f h); intros [= ]; congruence. Qed.

Lemma ret_Ok_inv {A : Type} (a b : A) (h h' : heap) :
  mret (M := M) a h = (Ok b, h') → b = a ∧ h' = h.
Proof. unfold mret, M_ret. intros [= H1 H2]. by subst. Qed.

Lemma bind_assoc {A B C : Type} (m : M A) (f : A → M B) (g : B → M C) h :
  ((m ≫= f) ≫= g) h = (m ≫= λ a, f a ≫= g) h.
Proof. unfold mbind, M_bind. by destruct (m h) as [[]]. Qed.

Lemma ret_run {A B : Type} (a : A) (k : A → M B) h : (mret a ≫= k) h = k a h.
Proof. done. Qed.

Lemma getattr_run {B : Type} v name x (k : value → M B) h :
  Py.getattr h v name = Ok x → (St.getattr v name ≫= k) h = k x h.
Proof. intros Hx. apply bind_Ok. unfold St.getattr, St.read. by rewrite Hx. Qed.

Lemma hasattr_run {B : Type} v name (k : bool → M B) h :
  (St.hasattr v name ≫= k) h = k (Py.hasattr h v name) h.
Proof. done. Qed.

Lemma setattr_run {B : Type} target name v h' (k : () → M B) h :
  Py.setattr h target name v = Ok h' →
  (St.setattr target name v ≫= k) h = k () h'.
Proof. intros Hx. apply bind_Ok. unfold St.setattr, St.write. by rewrite Hx. Qed.

Lemma setattr_dyn_run {B : Type} target name v h' (k : () → M B) h :
  Py.setattr h target name v = Ok h' →
  (St.setattr_dyn target (VStr name) v ≫= k) h = k () h'.
Proof.
  intros Hx. apply bind_Ok. unfold St.setattr_dyn, St.write. simpl. by rewrite Hx.
Qed.

Lemma lt_run {B : Type} a b r (k : bool → M B) h :
  Py.lt a b = Ok r → (St.lt a b ≫= k) h = k r h.
Proof. intros Hr. apply bind_Ok. unfold St.lt, St.read. by rewrite Hr. Qed.

Lemma St_setattr_inv target name v h u h' :
  St.setattr target name v h = (Ok u, h') → Py.setattr h target name v = Ok h'.
Proof. unfold St.setattr. apply write_Ok_inv. Qed.

Lemma St_setattr_dyn_inv target name v h u h' :
  St.setattr_dyn target name v h = (Ok u, h') →
  ∃ s, name = VStr s ∧ Py.setattr h target s v = Ok h'.
Proof.
  unfold St.setattr_dyn. intros Hw%write_Ok_inv.
  destruct name; try discriminate. by eexists.
Qed.

Lemma St_list_append_inv self v h ret h' :
  St.list_append self v h = (Ok ret, h') →
  ret = VNone ∧ Py.list_append h self v = Ok h'.
Proof.
  unfold St.list_append.
  intros (u & h1 & Hw%write_Ok_inv & [-> ->]%ret_Ok_inv)%bind_Ok_inv. done.
Qed.

Section Preservation.
Context (P : heap → heap → Prop) `{!Reflexive P, !Transitive P}.

Lemma preserves_ret {A : Type} (a : A) : preserves P (mret a).
Proof. intros h b h' [_ ->]%ret_Ok_inv. reflexivity. Qed.

Lemma preserves_read {A : Type} (f : heap → outcome A) : preserves P (St.read f).
Proof. intros h b h' [_ ->]%read_Ok_inv. reflexivity. Qed.

Lemma preserves_raise {A : Type} (e : exn) : preserves P (St.raise (A := A) e).
Proof. intros h b h'. unfold St.raise. discriminate. Qed.

Lemma preserves_bind {A B : Type} (m : M A) (f : A → M B) :
  preserves P m → (∀ a, preserves P (f a)) → preserves P (m ≫= f).
Proof.
  intros Hm Hf h b h' (a & h1 & H1 & H2)%bind_Ok_inv.
  transitivity h1; [by eapply Hm | by eapply Hf].
Qed.

Lemma preserves_if {A : Type} (c : bool) (m1 m2 : M A) :
  preserves P m1 → preserves P m2 → preserves P (if c then m1 else m2).
Proof. by destruct c. Qed.

Lemma preserves_write (f : heap → outcome heap) :
  (∀ h h', f h = Ok h' → P h h') → preserves P (St.write f).
Proof. intros Hf h u h' Hw%write_Ok_inv. by apply Hf. Qed.

End Preservation.

#[global] Instance same_kids_refl : Reflexive same_kids.
Proof. by intros h r. Qed.

#[global] Instance same_kids_trans : Transitive same_kids.
Proof. intros h1 h2 h3 H12 H23 r. by rewrite H12. Qed.

Lemma lookup_update (h : heap) (r : loc) (nd nd' : node) (q : loc) :
  h !! r = Some nd →
  <[r := nd']> h !! q = if decide (r = q) then Some nd' else h !! q.
Proof.
  intros Hr. destruct (decide (r = q)) as [<-|Hne].
  - apply list_lookup_insert_eq. by eapply lookup_lt_Some.
  - by apply list_lookup_insert_ne.
Qed.

Lemma setattr_same_kids h target name v h' :
  Py.setattr h target name v = Ok h' → same_kids h h'.
Proof.
  unfold Py.setattr. destruct target; try discriminate.
  destruct (h !! r) as [nd|] eqn:Hr; [|discriminate].
  destruct (Py.setattr_refused name); [discriminate|].
  intros [= <-] q. rewrite (lookup_update _ _ nd) by done.
  destruct (decide (r = q)) as [<-|Hne]; [|done].
  by rewrite Hr.
Qed.

Lemma setattr_dyn_same_kids h target name v h' :
  Py.setattr_dyn h target name v = Ok h' → same_kids h h'.
Proof.
  unfold Py.setattr_dyn. destruct name; try discriminate.
  apply setattr_same_kids.
Qed.

Lemma same_kids_is_Some h h' r : same_kids h h' → is_Some (h !! r) → is_Some (h' !! r).
Proof.
  intros Hk [nd Hr]. specialize (Hk r). rewrite Hr in Hk.
  destruct (h' !! r); [by eexists | done].
Qed.

Lemma setattr_Ok h t name v :
  is_Some (h !! t) → Py.setattr_refused name = None →
  ∃ h', Py.setattr h (VNode t) name v = Ok h'.
Proof.
  intros [nd Ht] Hname. unfold Py.setattr. rewrite Ht, Hname. by eexists.
Qed.

(** Reading an attribute after an assignment. *)
Lemma getattr_setattr h t name v h' q name' :
  Py.setattr h (VNode t) name v = Ok h' →
  Py.getattr h' (VNode q) name' =
    if decide (t = q ∧ name = name') then Ok v else Py.getattr h (VNode q) name'.
Proof.
  unfold Py.setattr, Py.getattr.
  destruct (h !! t) as [nd|] eqn:Ht; [|discriminate].
  destruct (Py.setattr_refused name); [discriminate|].
  intros [= <-]. rewrite (lookup_update _ _ nd) by done.
  destruct (decide (t = q)) as [<-|Hne].
  - simpl. rewrite lookup_insert, Ht.
    repeat case_decide; intuition congruence.
  - case_decide; intuition congruence.
Qed.

Lemma getattr_same_attrs h h' q name :
  attrs <$> h !! q = attrs <$> h' !! q →
  Py.getattr h' (VNode q) name = Py.getattr h (VNode q) name.
Proof.
  unfold Py.getattr. intros Heq.
  destruct (h !! q) as [nd|], (h' !! q) as [nd'|]; simplify_eq/=; try done.
  by rewrite Heq.
Qed.

Lemma getattr_Ok_lookup h r name x :
  Py.getattr h (VNode r) name = Ok x ↔
  ∃ nd, h !! r = Some nd ∧ attrs nd !! name = Some x.
Proof.
  unfold Py.getattr. split.
  - destruct (h !! r) as [nd|]; [|done].
    destruct (attrs nd !! name) eqn:Hn; [|done].
    intros [= ->]. by exists nd.
  - intros (nd & -> & ->). done.
Qed.

Lemma getattr_is_Some h r name x :
  Py.getattr h (VNode r) name = Ok x → is_Some (h !! r).
Proof. intros (nd & Hr & _)%getattr_Ok_lookup. by eexists. Qed.

Lemma list_append_lookup h self v h' q :
  Py.list_append h self v = Ok h' →
  ∃ nd, h !! self = Some nd ∧
    h' !! q = if decide (self = q)
              then Some (mkNode (attrs nd) (kids nd ++ [v])) else h !! q.
Proof.
  unfold Py.list_append. destruct (h !! self) as [nd|] eqn:Hs; [|discriminate].
  intros [= <-]. exists nd. split; [done|]. by apply (lookup_update _ _ nd).
Qed.

Lemma list_append_getattr h self v h' x name :
  Py.list_append h self v = Ok h' →
  Py.getattr h' x name = Py.getattr h x name.
Proof.
  intros (nd & Hs & Hl)%(list_append_lookup _ _ _ _ (match x with VNode q => q | _ => 0%nat end)).
  destruct x; try done. apply getattr_same_attrs. rewrite Hl.
  case_decide; subst; by rewrite ?Hs.
Qed.

Lemma list_setitem_getattr h self i v h' x name :
  Py.list_setitem h self i v = Ok h' →
  Py.getattr h' x name = Py.getattr h x name.
Proof.
  unfold Py.list_setitem. destruct (h !! self) as [nd|] eqn:Hs; [|discriminate].
  intros [= <-]. destruct x as [| | | | |q|]; try done.
  apply getattr_same_attrs. rewrite (lookup_update _ _ nd) by done.
  case_decide; subst; by rewrite ?Hs.
Qed.

(** Appending to the list after assignments that left the lists alone. *)
Lemma list_append_extends h h1 self kid h' :
  same_kids h h1 →
  Py.list_append h1 self kid = Ok h' →
  ∃ nd nd', h !! self = Some nd ∧ h' !! self = Some nd' ∧
    kids nd' = (kids nd ++ [kid])%list.
Proof.
  intros Hk Happ.
  apply (list_append_lookup _ _ _ _ self) in Happ as (nd1 & H1 & Hl).
  rewrite decide_True in Hl by done.
  specialize (Hk self). rewrite H1 in Hk.
  destruct (h !! self) as [nd|]; [|done]. injection Hk as Hk.
  exists nd, (mkNode (attrs nd1) (kids nd1 ++ [kid])).
  split; [done|]. split; [exact Hl|]. simpl. congruence.
Qed.

(** The part of [Node.append] that runs for a true [kid], before the test
    that blocks an empty slot: it assigns attributes only. *)
Lemma append_same_kids self kid rel h ret h' :
  Node.append self kid rel h = (Ok ret, h') →
  ∃ h1, same_kids h h1 ∧
    (if negb (Py.truthy kid) && Py.truthy rel then ret = VNone ∧ h' = h1
     else St.list_append self kid h1 = (Ok ret, h')) ∧
    (Py.truthy kid = false → h1 = h).
Proof.
  unfold Node.append. intros (u & h1 & Hpre & Hpost)%bind_Ok_inv.
  exists h1. split; [|split].
  - refine ((_ : preserves same_kids _) h u h1 Hpre).
    unfold St.getattr, St.hasattr, St.lt, St.setattr, St.setattr_dyn.
    repeat first
      [ apply preserves_if
      | apply preserves_bind; [apply _ | | intros ?]
      | apply preserves_ret; apply _
      | apply preserves_read; apply _
      | apply preserves_raise
      | apply preserves_write; intros ? ?;
        first [apply setattr_same_kids | apply setattr_dyn_same_kids] ].
  - destruct (negb (Py.truthy kid) && Py.truthy rel); [|done].
    by apply ret_Ok_inv in Hpost.
  - intros Hk. rewrite Hk in Hpre. by apply ret_Ok_inv in Hpre as [_ ->].
Qed.

(** ** Appending *)

Lemma append_falsy_related h self kid rel :
  Py.truthy kid = false → Py.truthy rel = true →
  Node.append self kid rel h = (Ok VNone, h).
Proof. intros Hk Hr. unfold Node.append. by rewrite Hk, Hr. Qed.

Lemma append_falsy_unrelated h self kid rel :
  Py.truthy kid = false → Py.truthy rel = false →
  Node.append self kid rel h = St.list_append self kid h.
Proof. intros Hk Hr. unfold Node.append. by rewrite Hk, Hr. Qed.

(** C3, as amended.  Appending an empty slot ([None]) together with a
    non-empty relation name does nothing: the call returns and the store is
    the one before the call, so the child sequence of the node (its length
    and its contents) and its relations are unchanged. *)
Theorem append_empty_slot_with_relation (h : heap) (self : loc) (name : string) :
  name ≠ "" →
  Node.append self VNone (VStr name) h = (Ok VNone, h).
Proof.
  intros Hname. apply append_falsy_related; [done|].
  simpl. destruct name; [done|]. reflexivity.
Qed.

(** An empty slot offered under the relation [left]. *)
Lemma append_empty_slot_with_relation_witness :
  Node.append 0%nat VNone (VStr "left") [mkNode ∅ [VNone]]
  = (Ok VNone, [mkNode ∅ [VNone]]).
Proof. apply (append_empty_slot_with_relation [mkNode ∅ [VNone]] 0%nat "left"). discriminate. Defined.

(** C3, counterexample.  With the empty string as relation name the empty
    slot is appended: the test that blocks it looks at the truth value of
    [rel], and the empty string is false. *)
Lemma append_empty_slot_empty_relation_name :
  Node.append 0%nat VNone (VStr "") [mkNode ∅ []]
    = (Ok VNone, [mkNode ∅ [VNone]]) ∧
  length (kids (mkNode ∅ [VNone])) ≠ length (kids (mkNode ∅ [])).
Proof. split; [reflexivity | discriminate]. Qed.

(** C6, as amended.  Whenever [append] returns, it returns [None], the
    result of the append of the built-in list; the child sequence is then the
    former one followed by the child or empty slot, except when an empty slot
    was blocked because a relation came with it. *)
Theorem append_returns_None (h : heap) (self : loc) (kid rel : value)
    (ret : value) (h' : heap) :
  Node.append self kid rel h = (Ok ret, h') →
  ret = VNone ∧
  (if negb (Py.truthy kid) && Py.truthy rel then h' = h
   else ∃ nd nd', h !! self = Some nd ∧ h' !! self = Some nd' ∧
          kids nd' = (kids nd ++ [kid])%list).
Proof.
  intros (h1 & Hk & Hpost & Hfalsy)%append_same_kids.
  destruct (negb (Py.truthy kid) && Py.truthy rel) eqn:Hb.
  - destruct Hpost as [-> ->]. split; [done|].
    apply Hfalsy. apply andb_true_iff in Hb as [Hb _]. by apply negb_true_iff.
  - apply St_list_append_inv in Hpost as [-> Happ]. split; [done|].
    by eapply list_append_extends.
Qed.

(** A childless node appended to a childless node. *)
Lemma append_returns_None_witness :
  VNone = VNone ∧
  ∃ nd nd', [mkNode ∅ []; mkNode ∅ []] !! 0%nat = Some nd ∧
    [mkNode ∅ [VNode 1%nat]; mkNode {[ "parent" := VNode 0%nat ]} []] !! 0%nat
      = Some nd' ∧
    kids nd' = (kids nd ++ [VNode 1%nat])%list.
Proof.
  apply (append_returns_None [mkNode ∅ []; mkNode ∅ []] 0%nat (VNode 1%nat) VNone).
  reflexivity.
Defined.

(** C6, counterexample.  Appending a node to a childless node returns
    [None], not the node whose child sequence was extended. *)
Lemma append_does_not_return_the_sequence :
  Node.append 0%nat (VNode 1%nat) VNone [mkNode ∅ []; mkNode ∅ []]
  = (Ok VNone, [mkNode ∅ [VNode 1%nat]; mkNode {[ "parent" := VNode 0%nat ]} []])
  ∧ VNone ≠ VNode 0%nat.
Proof. split; [reflexivity | discriminate]. Qed.

(** A node that [append] attaches ends up with the receiver as parent. *)
Lemma append_node_parent h self k rel ret h' :
  Node.append self (VNode k) rel h = (Ok ret, h') →
  Py.getattr h' (VNode k) "parent" = Ok (VNode self).
Proof.
  intros Happ. unfold Node.append in Happ.
  cbn [Py.truthy Py.isNode negb andb] in Happ.
  apply bind_Ok_inv in Happ as (u & h1 & Hpre & Hpost).
  apply St_list_append_inv in Hpost as [_ Happ].
  rewrite (list_append_getattr _ _ _ _ _ _ Happ). clear Happ h' ret.
  apply bind_Ok_inv in Hpre as (spanned & h0 & _ & Hpre).
  apply bind_Ok_inv in Hpre as (u1 & h2 & _ & Hpre).
  apply bind_Ok_inv in Hpre as (u2 & h3 & Hparent%St_setattr_inv & Hrel).
  assert (Py.getattr h3 (VNode k) "parent" = Ok (VNode self)) as H3.
  { rewrite (getattr_setattr _ _ _ _ _ _ _ Hparent). by rewrite decide_True. }
  destruct (Py.is_not_None rel).
  - apply bind_Ok_inv in Hrel as (u3 & h4 & (s & -> & Hs)%St_setattr_dyn_inv & Hr%St_setattr_inv).
    rewrite (getattr_setattr _ _ _ _ _ _ _ Hr).
    rewrite decide_False by (intros [_ ?]; discriminate).
    rewrite (getattr_setattr _ _ _ _ _ _ _ Hs).
    case_decide as Hd; [|done]. by destruct Hd as [-> _].
  - by apply ret_Ok_inv in Hrel as [_ ->].
Qed.

(** C10.  A node is true whatever its children: [Node.__nonzero__] returns
    [True], and the truth value [append] tests is true for every node.  So a
    node, also a childless one, is never handled as an empty slot: when
    [append] returns, the node is the last child and has the receiver as
    parent, also when a relation name comes with it.  A value that is handled
    as an empty slot is false, hence not a node: it is appended as it is, or
    blocked when a relation came with it. *)
Theorem node_is_always_true :
  (∀ (h : heap) (self : loc), Node.nonzero self h = (Ok true, h)) ∧
  (∀ r : loc, Py.truthy (VNode r) = true) ∧
  (∀ (h : heap) (self k : loc) (rel ret : value) (h' : heap),
     Node.append self (VNode k) rel h = (Ok ret, h') →
     (∃ nd nd', h !! self = Some nd ∧ h' !! self = Some nd' ∧
        kids nd' = (kids nd ++ [VNode k])%list) ∧
     Py.getattr h' (VNode k) "parent" = Ok (VNode self)) ∧
  (∀ (h : heap) (self : loc) (kid rel : value),
     Py.truthy kid = false →
     Py.isNode kid = false ∧
     Node.append self kid rel h =
       if Py.truthy rel then (Ok VNone, h) else St.list_append self kid h).
Proof.
  split; [done|]. split; [done|]. split.
  - intros h self k rel ret h' Happ. split.
    + apply append_same_kids in Happ as (h1 & Hk & Hpost & _).
      apply St_list_append_inv in Hpost as [_ Hpost].
      by eapply list_append_extends.
    + by eapply append_node_parent.
  - intros h self kid rel Hk. split.
    + by destruct kid.
    + destruct (Py.truthy rel) eqn:Hr.
      * by apply append_falsy_related.
      * by apply append_falsy_unrelated.
Qed.

(** A childless node appended under the relation [left]; the number 0
    offered under the same relation. *)
Lemma node_is_always_true_witness :
  ((∃ nd nd', [mkNode ∅ []; mkNode ∅ []] !! 0%nat = Some nd ∧
      [mkNode {[ "left" := VNode 1%nat ]} [VNode 1%nat];
       mkNode {[ "parent" := VNode 0%nat; "rel" := VStr "left" ]} []] !! 0%nat
        = Some nd' ∧
      kids nd' = (kids nd ++ [VNode 1%nat])%list) ∧
   Py.getattr
     [mkNode {[ "left" := VNode 1%nat ]} [VNode 1%nat];
      mkNode {[ "parent" := VNode 0%nat; "rel" := VStr "left" ]} []]
     (VNode 1%nat) "parent" = Ok (VNode 0%nat)) ∧
  (Py.isNode (VInt 0) = false ∧
   Node.append 0%nat (VInt 0) (VStr "left") [mkNode ∅ []] =
     if Py.truthy (VStr "left") then (Ok VNone, [mkNode ∅ []])
     else St.list_append 0%nat (VInt 0) [mkNode ∅ []]).
Proof.
  destruct node_is_always_true as (_ & _ & Hnode & Hslot). split.
  - apply (Hnode [mkNode ∅ []; mkNode ∅ []] 0%nat 1%nat (VStr "left") VNone).
    vm_compute. reflexivity.
  - apply (Hslot [mkNode ∅ []] 0%nat (VInt 0) (VStr "left")). reflexivity.
Defined.

(** ** Spans *)

(** X19.  Appending a child whose offsets are numbers to a node whose
    offsets are numbers leaves the node with the smaller start and the
    larger end. *)
Lemma append_span_numbers h self k tokenizer (s e ks ke : Z) :
  Py.getattr h (VNode self) "start" = Ok (VInt s) →
  Py.getattr h (VNode self) "end" = Ok (VInt e) →
  Py.getattr h (VNode k) "tokenizer" = Ok tokenizer →
  Py.getattr h (VNode k) "start" = Ok (VInt ks) →
  Py.getattr h (VNode k) "end" = Ok (VInt ke) →
  ∃ h', Node.append self (VNode k) VNone h = (Ok VNone, h') ∧
    Py.getattr h' (VNode self) "start" = Ok (VInt (Z.min s ks)) ∧
    Py.getattr h' (VNode self) "end" = Ok (VInt (Z.max e ke)) ∧
    (s ≤ e → ks ≤ ke → Z.min s ks ≤ Z.max e ke).
Proof.
  intros Hs He Htok Hks Hke.
  pose proof (getattr_is_Some _ _ _ _ Hs) as Hself.
  pose proof (getattr_is_Some _ _ _ _ Hks) as Hkid.
  (* self.start = kid.start, when kid.start < self.start *)
  assert (∃ h1, same_kids h h1 ∧
            (∀ B (f : () → M B),
               ((if ks <? s
                 then kid_start ← St.getattr (VNode k) "start";
                      St.setattr (VNode self) "start" kid_start
                 else mret ()) ≫= f) h = f () h1) ∧
            Py.getattr h1 (VNode self) "start" = Ok (VInt (Z.min s ks)) ∧
            Py.getattr h1 (VNode self) "end" = Ok (VInt e) ∧
            Py.getattr h1 (VNode k) "end" = Ok (VInt ke))
    as (h1 & Hk1 & Hrun1 & Hs1 & He1 & Hke1).
  { destruct (ks <? s) eqn:Hlt.
    - destruct (setattr_Ok h self "start" (VInt ks) Hself eq_refl) as [h1 H1].
      exists h1. split; [by eapply setattr_same_kids|]. split; [|split; [|split]].
      + intros B f.
        by rewrite bind_assoc, (getattr_run _ _ (VInt ks)), (setattr_run _ _ _ h1).
      + rewrite (getattr_setattr _ _ _ _ _ _ _ H1), decide_True by done.
        do 2 f_equal. lia.
      + rewrite (getattr_setattr _ _ _ _ _ _ _ H1).
        by rewrite decide_False by (intros [_ ?]; done).
      + rewrite (getattr_setattr _ _ _ _ _ _ _ H1).
        by rewrite decide_False by (intros [_ ?]; done).
    - exists h. split; [done|]. split; [done|]. split; [|done].
      rewrite Hs. do 2 f_equal. lia. }
  (* self.end = kid.end, when self.end < kid.end *)
  assert (∃ h2, same_kids h1 h2 ∧
            (∀ B (f : () → M B),
               ((if e <? ke
                 then kid_end ← St.getattr (VNode k) "end";
                      St.setattr (VNode self) "end" kid_end
                 else mret ()) ≫= f) h1 = f () h2) ∧
            Py.getattr h2 (VNode self) "start" = Ok (VInt (Z.min s ks)) ∧
            Py.getattr h2 (VNode self) "end" = Ok (VInt (Z.max e ke)))
    as (h2 & Hk2 & Hrun2 & Hs2 & He2).
  { destruct (e <? ke) eqn:Hlt.
    - destruct (setattr_Ok h1 self "end" (VInt ke)) as [h2 H2];
        [by eapply same_kids_is_Some | done |].
      exists h2. split; [by eapply setattr_same_kids|]. split; [|split].
      + intros B f.
        by rewrite bind_assoc, (getattr_run _ _ (VInt ke)), (setattr_run _ _ _ h2).
      + rewrite (getattr_setattr _ _ _ _ _ _ _ H2).
        by rewrite decide_False by (intros [_ ?]; done).
      + rewrite (getattr_setattr _ _ _ _ _ _ _ H2), decide_True by done.
        do 2 f_equal. lia.
    - exists h1. split; [done|]. split; [done|]. split; [done|].
      rewrite He1. do 2 f_equal. lia. }
  (* kid.parent = self, then the append of the list *)
  destruct (setattr_Ok h2 k "parent" (VNode self)) as [h3 H3];
    [eapply same_kids_is_Some; [|eapply same_kids_is_Some]; done | done |].
  destruct (Py.list_append h3 self (VNode k)) as [h4| | |] eqn:H4.
  2-4: unfold Py.list_append in H4;
       destruct (same_kids_is_Some h h3 self) as [nd3 Hnd3];
         [ etrans; [exact Hk1|]; etrans; [exact Hk2|]; by eapply setattr_same_kids
         | done | by rewrite Hnd3 in H4 ].
  exists h4. split; [|split; [|split; [|lia]]].
  - unfold Node.append. cbn [Py.truthy Py.isNode Py.is_not_None negb andb].
    rewrite ?bind_assoc. rewrite hasattr_run. unfold Py.hasattr at 1. rewrite Htok.
    cbv iota.
    rewrite ?bind_assoc.
    rewrite (getattr_run (VNode k) "start" (VInt ks) _ h Hks).
    rewrite ?bind_assoc.
    rewrite (getattr_run (VNode self) "start" (VInt s) _ h Hs).
    rewrite ?bind_assoc.
    rewrite (lt_run (VInt ks) (VInt s) (ks <? s) _ h eq_refl).
    rewrite ?bind_assoc. rewrite Hrun1.
    rewrite ?bind_assoc.
    rewrite (getattr_run (VNode self) "end" (VInt e) _ h1 He1).
    rewrite ?bind_assoc.
    rewrite (getattr_run (VNode k) "end" (VInt ke) _ h1 Hke1).
    rewrite ?bind_assoc.
    rewrite (lt_run (VInt e) (VInt ke) (e <? ke) _ h1 eq_refl).
    rewrite ?bind_assoc. rewrite Hrun2.
    rewrite ?bind_assoc.
    rewrite (setattr_run (VNode k) "parent" (VNode self) h3 _ h2 H3).
    rewrite ret_run. unfold St.list_append.
    by rewrite (bind_Ok _ _ h3 () h4) by (unfold St.write; by rewrite H4).
  - rewrite (list_append_getattr _ _ _ _ _ _ H4).
    rewrite (getattr_setattr _ _ _ _ _ _ _ H3).
    by rewrite decide_False by (intros [_ ?]; done).
  - rewrite (list_append_getattr _ _ _ _ _ _ H4).
    rewrite (getattr_setattr _ _ _ _ _ _ _ H3).
    by rewrite decide_False by (intros [_ ?]; done).
Qed.

(** C1, the failing input.  When a child with offsets 2 and 3 is appended to
    a node whose [start] and [end] are [None], the node takes over the end of
    the child but not its start: in Python 2 [None] is smaller than every
    number, so [kid.start < self.start] is false while
    [self.end < kid.end] is true. *)
Theorem append_unset_start_not_adopted :
  ∃ (h : heap) (parent kid : loc),
    unset_span_scenario [] = (Ok (parent, kid), h) ∧
    Py.getattr h (VNode kid) "start" = Ok (VInt 2) ∧
    Py.getattr h (VNode kid) "end" = Ok (VInt 3) ∧
    Py.getattr h (VNode parent) "start" = Ok VNone ∧
    Py.getattr h (VNode parent) "end" = Ok (VInt 3).
Proof.
  eexists _, _, _. split; [vm_compute; reflexivity|].
  repeat split.
Qed.

(** A node built without tokenizer has no [start] attribute at all: giving
    it a child that has offsets raises [AttributeError]. *)
Lemma append_to_node_without_offsets :
  ∃ h : heap, plain_parent_scenario [] = (Raise (AttributeError "start"), h).
Proof. eexists. vm_compute. reflexivity. Qed.

(** ** The binary expression *)

(** C5.  Building a [BinaryExpr] node and appending a [Num] child with
    [value = 1] under [left], then a [Num] child with [value = 2] under
    [right], gives a node with two children, whose only attributes besides
    its type are the relations [left] and [right] referring to the two
    children, without unrelated children, and whose unformatted XML is
    [<BinaryExpr><left><Num value="1"/></left><right><Num value="2"/></right></BinaryExpr>],
    for every step index from 2 on. *)
Theorem binary_expr_scenario_ok :
  ∃ (h : heap) (expr lhs rhs : loc) (nd : node),
    binary_expr_scenario [] = (Ok (expr, lhs, rhs), h) ∧
    h !! expr = Some nd ∧
    kids nd = [VNode lhs; VNode rhs] ∧
    length (kids nd) = 2%nat ∧
    attrs nd = {[ "type" := VStr "BinaryExpr";
                  "left" := VNode lhs; "right" := VNode rhs ]} ∧
    lhs ≠ rhs ∧
    Py.getattr h (VNode lhs) "rel" = Ok (VStr "left") ∧
    Py.getattr h (VNode rhs) "rel" = Ok (VStr "right") ∧
    Node.getUnrelatedChildren h expr = Ok [] ∧
    ∀ n : nat,
      Node.toXml (S (S n)) h expr false 0 "  " =
        Ok ("<BinaryExpr><left><Num value=" +:+ Py.dquote +:+ "1" +:+ Py.dquote
            +:+ "/></left><right><Num value=" +:+ Py.dquote +:+ "2"
            +:+ Py.dquote +:+ "/></right></BinaryExpr>").
Proof.
  eexists _, _, _, _, _.
  split; [vm_compute; reflexivity|].
  split; [reflexivity|].
  repeat split; discriminate.
Qed.

(** ** Replacing *)

Lemma eq_same_node fuel h r : Py.eq fuel h (VNode r) (VNode r) = Ok true.
Proof. destruct fuel; simpl; by rewrite Nat.eqb_refl. Qed.

(** [l.index(v)] finds the first item equal to [v]. *)
Lemma list_index_first fuel h (l : list value) v (i k : nat) x :
  l !! i = Some x →
  Py.eq fuel h x v = Ok true →
  (∀ j y, (j < i)%nat → l !! j = Some y → Py.eq fuel h y v = Ok false) →
  Py.list_index fuel h l v k = Ok (k + i)%nat.
Proof.
  revert i k. induction l as [|y l IH]; intros i k Hi Hx Hbefore; [done|].
  destruct i as [|i]; simpl in *.
  - injection Hi as ->. rewrite Hx. simpl. by rewrite Nat.add_0_r.
  - rewrite (Hbefore 0%nat y) by (done || lia). simpl.
    rewrite (IH i (S k)); [f_equal; lia | done | done |].
    intros j z Hj Hz. apply (Hbefore (S j)); [lia | done].
Qed.

(** [l.index(v)] raises when no item is equal to [v]. *)
Lemma list_index_none fuel h (l : list value) v (k : nat) :
  Forall (λ x, Py.eq fuel h x v = Ok false) l →
  Py.list_index fuel h l v k = Raise ValueError.
Proof.
  intros Hall. revert k. induction Hall as [|x l Hx _ IH]; intros k; [done|].
  simpl. rewrite Hx. simpl. apply IH.
Qed.

(** [self.index(v)] on a node without attribute [index]. *)
Lemma index_first fuel h self nd v (i : nat) x :
  h !! self = Some nd →
  attrs nd !! "index" = None →
  kids nd !! i = Some x →
  Py.eq fuel h x v = Ok true →
  (∀ j y, (j < i)%nat → kids nd !! j = Some y → Py.eq fuel h y v = Ok false) →
  Node.index fuel h self v = Ok i.
Proof.
  intros Hs Hindex Hi Hx Hbefore. unfold Node.index, Py.method.
  rewrite Hs, Hindex. cbn [mbind outcome_bind].
  by rewrite (list_index_first fuel h (kids nd) v i 0 x Hi Hx Hbefore).
Qed.

Lemma index_none fuel h self nd v :
  h !! self = Some nd →
  attrs nd !! "index" = None →
  Forall (λ x, Py.eq fuel h x v = Ok false) (kids nd) →
  Node.repr fuel h v = Ok () →
  Node.index fuel h self v = Raise ValueError.
Proof.
  intros Hs Hindex Hall Hrepr. unfold Node.index, Py.method.
  rewrite Hs, Hindex. cbn [mbind outcome_bind].
  by rewrite (list_index_none _ _ _ _ _ Hall), Hrepr.
Qed.

(** X8.  When no child of a node without attribute [index] is equal to
    [kid], and [repr(kid)] returns, [replace] raises the [ValueError] of
    [list.index] and leaves the store as it was. *)
Lemma replace_no_equal_child fuel h self nd kid repl :
  h !! self = Some nd →
  attrs nd !! "index" = None →
  Forall (λ x, Py.eq fuel h x kid = Ok false) (kids nd) →
  Node.repr fuel h kid = Ok () →
  Node.replace fuel self kid repl h = (Raise ValueError, h).
Proof.
  intros Hs Hindex Hall Hrepr. unfold Node.replace, St.read, mbind, M_bind.
  by rewrite (index_none _ _ _ nd).
Qed.

(** C2, as amended.  Let [old] be the child at index [i] of a node that has
    no attribute named [index], no earlier child being equal to [old].  If
    [old] is not related, [replace] puts the replacement, whatever it is, at
    index [i], leaves everything else as it was and returns [old].  If
    [old] is related under the name [r] (a name that can be assigned and is
    not [rel] itself) and the replacement is a node, [replace] returns [old]
    after putting the replacement at index [i] and leaving the other
    positions as they were, and afterwards the attribute [r] of the node
    refers to the replacement, the replacement is marked as related under
    [r], and [old] is still marked as related under [r]: its marker is not
    cleared. *)
Theorem replace_spec (fuel : nat) (h : heap) (self : loc) (nd : node)
    (i : nat) (old : loc) (new : value) :
  h !! self = Some nd →
  attrs nd !! "index" = None →
  kids nd !! i = Some (VNode old) →
  (∀ j x, (j < i)%nat → kids nd !! j = Some x →
          Py.eq fuel h x (VNode old) = Ok false) →
  (Py.hasattr h (VNode old) "rel" = false →
   Node.replace fuel self (VNode old) new h =
     (Ok (VNode old),
      <[self := mkNode (attrs nd) (<[i := new]> (kids nd))]> h)) ∧
  (∀ (r : string) (n : loc),
     Py.getattr h (VNode old) "rel" = Ok (VStr r) →
     new = VNode n → is_Some (h !! n) →
     Py.setattr_refused r = None → r ≠ "rel" →
     ∃ (h' : heap) (nd' : node),
       Node.replace fuel self (VNode old) new h = (Ok (VNode old), h') ∧
       h' !! self = Some nd' ∧
       kids nd' = <[i := new]> (kids nd) ∧
       attrs nd' !! r = Some new ∧
       Py.getattr h' new "rel" = Ok (VStr r) ∧
       Py.getattr h' (VNode old) "rel" = Ok (VStr r)).
Proof.
  intros Hs Hnoindex Hi Hfirst.
  pose proof (index_first fuel h self nd (VNode old) i _ Hs Hnoindex Hi
                (eq_same_node _ _ _) Hfirst) as Hindex.
  set (h1 := <[self := mkNode (attrs nd) (<[i := new]> (kids nd))]> h).
  assert (Py.list_setitem h self i new = Ok h1) as Hset.
  { unfold Py.list_setitem. by rewrite Hs. }
  assert (∀ x name, Py.getattr h1 x name = Py.getattr h x name) as Hsame.
  { intros x name. by eapply list_setitem_getattr. }
  assert (h1 !! self = Some (mkNode (attrs nd) (<[i := new]> (kids nd)))) as Hs1.
  { unfold h1. rewrite (lookup_update _ _ nd) by done. by rewrite decide_True. }
  assert (∀ B (k : nat → M B),
            (St.read (λ h, Node.index fuel h self (VNode old)) ≫= k) h = k i h)
    as Hstep1.
  { intros B k. apply bind_Ok. unfold St.read. by rewrite Hindex. }
  assert (∀ B (k : () → M B), (St.list_setitem self i new ≫= k) h = k () h1)
    as Hstep2.
  { intros B k. apply bind_Ok. unfold St.list_setitem, St.write. by rewrite Hset. }
  split.
  - intros Hrel. unfold Node.replace. rewrite Hstep1, Hstep2.
    unfold St.hasattr, St.read, mbind, M_bind, Py.hasattr.
    rewrite Hsame. unfold Py.hasattr in Hrel.
    by destruct (Py.getattr h (VNode old) "rel").
  - intros r n Hrel -> Hn Hr Hneq.
    assert (is_Some (h1 !! n)) as Hn1.
    { unfold h1. rewrite (lookup_update _ _ nd) by done. case_decide; [by eexists | done]. }
    destruct (setattr_Ok h1 n "rel" (VStr r) Hn1 eq_refl) as [h2 H2].
    pose proof (setattr_same_kids _ _ _ _ _ H2) as Hk2.
    assert (is_Some (h2 !! self)) as Hs2.
    { eapply same_kids_is_Some; [done | by eexists]. }
    destruct (setattr_Ok h2 self r (VNode n) Hs2 Hr) as [h3 H3].
    pose proof (setattr_same_kids _ _ _ _ _ H3) as Hk3.
    assert (Py.getattr h2 (VNode old) "rel" = Ok (VStr r)) as Hold2.
    { rewrite (getattr_setattr _ _ _ _ _ _ _ H2), Hsame. by case_decide. }
    assert (Py.getattr h3 (VNode self) r = Ok (VNode n)) as Hr3.
    { rewrite (getattr_setattr _ _ _ _ _ _ _ H3). by rewrite decide_True. }
    apply getattr_Ok_lookup in Hr3 as (nd' & Hs3 & Hr3).
    exists h3, nd'. split; [|split; [done|split; [|split; [done|split]]]].
    + unfold Node.replace. rewrite Hstep1, Hstep2, hasattr_run.
      unfold Py.hasattr. rewrite Hsame, Hrel. cbv iota.
      rewrite bind_assoc, (getattr_run _ _ (VStr r)) by by rewrite Hsame.
      rewrite bind_assoc, (setattr_run _ _ _ h2) by done.
      rewrite bind_assoc, (getattr_run _ _ (VStr r)) by done.
      by rewrite (setattr_dyn_run _ _ _ h3).
    + pose proof (Hk2 self) as E2. pose proof (Hk3 self) as E3.
      rewrite Hs1 in E2. rewrite <- E2, Hs3 in E3. by injection E3.
    + rewrite (getattr_setattr _ _ _ _ _ _ _ H3).
      rewrite decide_False by (intros [_ ?]; done).
      rewrite (getattr_setattr _ _ _ _ _ _ _ H2). by rewrite decide_True.
    + rewrite (getattr_setattr _ _ _ _ _ _ _ H3).
      by rewrite decide_False by (intros [_ ?]; done).
Qed.

(** A node whose children are an empty slot and a node related as
    [operand]; the latter is replaced by a node. *)
Lemma replace_spec_witness :
  ∃ (h' : heap) (nd' : node),
    Node.replace 1 0%nat (VNode 1%nat) (VNode 2%nat)
      [mkNode {[ "operand" := VNode 1%nat ]} [VNone; VNode 1%nat];
       mkNode {[ "parent" := VNode 0%nat; "rel" := VStr "operand" ]} [];
       mkNode ∅ []]
      = (Ok (VNode 1%nat), h') ∧
    h' !! 0%nat = Some nd' ∧
    kids nd' = [VNone; VNode 2%nat] ∧
    attrs nd' !! "operand" = Some (VNode 2%nat) ∧
    Py.getattr h' (VNode 2%nat) "rel" = Ok (VStr "operand") ∧
    Py.getattr h' (VNode 1%nat) "rel" = Ok (VStr "operand").
Proof.
  destruct (replace_spec 1
              [mkNode {[ "operand" := VNode 1%nat ]} [VNone; VNode 1%nat];
               mkNode {[ "parent" := VNode 0%nat; "rel" := VStr "operand" ]} [];
               mkNode ∅ []]
              0%nat _ 1%nat 1%nat (VNode 2%nat) eq_refl)
    as [_ Hrelated].
  - vm_compute. reflexivity.
  - reflexivity.
  - intros [|j] x Hj Hx; [|lia]. injection Hx as <-. reflexivity.
  - apply (Hrelated "operand" 2%nat); try reflexivity; [by eexists | discriminate].
Defined.

(** C2, counterexample.  After the related child is replaced, it still
    carries the relation marker [operand]. *)
Lemma replace_keeps_old_marker :
  ∃ (h : heap) (expr old new : loc),
    replace_scenario 1 [] = (Ok (expr, old, new, VNode old), h) ∧
    Py.hasattr h (VNode old) "rel" = true ∧
    Py.getattr h (VNode old) "rel" = Ok (VStr "operand").
Proof. eexists _, _, _, _. split; [vm_compute; reflexivity|]. by split. Qed.

(** C8, the failing input.  [b] is not among the children of [block], yet
    [replace(b, c)] does not raise: [list.index] compares with [==], the
    childless nodes [a] and [b] are equal as lists, and [c] takes the place
    of [a]. *)
Theorem replace_absent_child_found (n : nat) :
  ∃ (h : heap) (block a b c : loc) (nd : node),
    replace_absent_scenario (S n) [] = (Ok (block, a, b, c, VNode b), h) ∧
    a ≠ b ∧
    h !! block = Some nd ∧
    kids nd = [VNode c].
Proof.
  eexists _, _, _, _, _, _. split; [vm_compute; reflexivity|].
  split; [discriminate|]. by split.
Qed.

(** ** Source text *)

Lemma substring_clip (s : string) (a b : nat) :
  substring (a `min` String.length s)
            (b `min` String.length s - a `min` String.length s) s
  = substring a (b - a) s.
Proof.
  revert a b. induction s as [|c s IH]; intros a b.
  - simpl. by destruct a, b.
  - destruct a as [|a], b as [|b]; simpl; try done.
    + specialize (IH 0%nat b). rewrite Nat.min_0_l, !Nat.sub_0_r in IH.
      by rewrite IH.
    + specialize (IH a 0%nat). by rewrite Nat.min_0_l in IH.
Qed.

Lemma getslice_clip (src : string) (lo hi : value) (a b : nat) :
  Py.slice_bound (Z.of_nat (String.length src)) 0 lo
    = Ok (Z.of_nat (a `min` String.length src)) →
  Py.slice_bound (Z.of_nat (String.length src)) (Z.of_nat (String.length src)) hi
    = Ok (Z.of_nat (b `min` String.length src)) →
  Py.getslice (VStr src) lo hi = Ok (VStr (substring a (b - a) src)).
Proof.
  intros Hlo Hhi. unfold Py.getslice. rewrite Hlo, Hhi. simpl.
  rewrite Z2Nat.inj_sub, !Nat2Z.id by lia. by rewrite substring_clip.
Qed.

Lemma slice_bound_offset (n d : nat) (o : option value) (a : nat) :
  offset o d = Some a →
  (d ≤ n)%nat →
  Py.slice_bound (Z.of_nat n) (Z.of_nat d) (default VNone o)
    = Ok (Z.of_nat (a `min` n)).
Proof.
  intros Ho Hd. destruct o as [[]|]; simplify_eq/=.
  - do 2 f_equal. lia.
  - destruct (0 <=? z) eqn:Hz; simplify_eq. unfold Py.clip.
    destruct (z <? 0) eqn:Hneg; [lia|]. do 2 f_equal. lia.
  - do 2 f_equal. lia.
Qed.

(** C4.  A node with a source context (a tokenizer object whose [source] is
    a text) gives back the characters of the source from its [start] up to
    its [end], a missing or [None] start standing for the beginning of the
    source and a missing or [None] end for its end.  A node without source
    context never gets the exception that line 202 is there to raise: a
    node without attribute [tokenizer] (as the constructor leaves it when it
    is given no tokenizer) fails with [AttributeError] on [self.tokenizer],
    and a node whose [tokenizer] is false fails with the [NameError] of the
    unbound name [node], read while the message is built. *)
Theorem getSource_spec :
  (∀ (h : heap) (self : loc) (nd : node) (fields : list (string * value))
     (src : string) (a b : nat),
     h !! self = Some nd →
     attrs nd !! "tokenizer" = Some (VObj fields) →
     Py.assoc "source" fields = Some (VStr src) →
     offset (attrs nd !! "start") 0 = Some a →
     offset (attrs nd !! "end") (String.length src) = Some b →
     Node.getSource h self = Ok (VStr (substring a (b - a) src))) ∧
  (∀ (h : heap) (self : loc) (nd : node),
     h !! self = Some nd →
     attrs nd !! "tokenizer" = None →
     Node.getSource h self = Raise (AttributeError "tokenizer")) ∧
  (∀ (h : heap) (self : loc) (nd : node) (t : value),
     h !! self = Some nd →
     attrs nd !! "tokenizer" = Some t → Py.truthy t = false →
     Node.getSource h self = Raise (NameError "node")).
Proof.
  split; [|split].
  - intros h self nd fields src a b Hnd Htok Hsrc Ha Hb.
    apply (slice_bound_offset (String.length src)) in Ha; [|lia].
    apply (slice_bound_offset (String.length src)) in Hb; [|lia].
    pose proof (getslice_clip src _ _ a b Ha Hb) as Hslice.
    unfold Node.getSource, Py.getattr_default, Py.getattr.
    rewrite Hnd, Htok. simpl. rewrite Hsrc. simpl.
    destruct (attrs nd !! "start") as [[]|], (attrs nd !! "end") as [[]|];
      simpl in *; try done; try by destruct (Py.slice_bound _ _ _).
  - intros h self nd Hnd Hnone. unfold Node.getSource, Py.getattr.
    by rewrite Hnd, Hnone.
  - intros h self nd t Hnd Ht Hfalse. unfold Node.getSource, Py.getattr.
    rewrite Hnd, Ht. cbn [mbind outcome_bind]. by rewrite Hfalse.
Qed.

(** The source "a+b;" between the offsets 0 and 3; the node
    [Node(None, "Num")], built without tokenizer; a node whose tokenizer
    was set to [None]. *)
Lemma getSource_spec_witness :
  Node.getSource
    [mkNode {[ "tokenizer" := tokenizer_object VNone 1 "a+b;" "a.js";
               "start" := VInt 0; "end" := VInt 3 ]} []] 0%nat
    = Ok (VStr "a+b") ∧
  (∃ h : heap,
     Node.init VNone (VStr "Num") [] [] = (Ok 0%nat, h) ∧
     Node.getSource h 0%nat = Raise (AttributeError "tokenizer")) ∧
  Node.getSource [mkNode {[ "tokenizer" := VNone ]} []] 0%nat
    = Raise (NameError "node").
Proof.
  destruct getSource_spec as (Hsource & Hnone & Hfalse). split; [|split].
  - exact (Hsource
             [mkNode {[ "tokenizer" := tokenizer_object VNone 1 "a+b;" "a.js";
                        "start" := VInt 0; "end" := VInt 3 ]} []]
             0%nat _
             [("token", VNone); ("line", VInt 1);
              ("source", VStr "a+b;"); ("filename", VStr "a.js")]
             "a+b;" 0%nat 3%nat
             eq_refl eq_refl eq_refl eq_refl eq_refl).
  - eexists. split; [vm_compute; reflexivity|].
    apply (Hnone _ 0%nat (mkNode {[ "type" := VStr "Num" ]} [])); reflexivity.
  - apply (Hfalse _ 0%nat (mkNode {[ "tokenizer" := VNone ]} []) VNone);
      reflexivity.
Defined.

(** ** List attributes in the XML *)

Lemma mapM_Forall2 {A B : Type} (f : A → outcome B) (l : list A) (ys : list B) :
  Forall2 (λ x y, f x = Ok y) l ys → mapM f l = Ok ys.
Proof.
  induction 1 as [|x y l ys Hx _ IH]; [done|].
  simpl. rewrite Hx. simpl. by rewrite IH.
Qed.

Lemma texts_strings (ss : list string) : Py.texts (VStr <$> ss) = Ok ss.
Proof.
  induction ss as [|s ss IH]; [done|].
  rewrite fmap_cons. cbn [Py.texts]. by rewrite IH.
Qed.

Lemma texts_not_string (xs : list value) :
  Exists (λ x, ∀ s, x ≠ VStr s) xs → Py.texts xs = Raise TypeError.
Proof.
  induction xs as [|x xs IH]; intros Hex; [by apply Exists_nil in Hex|].
  apply Exists_cons in Hex as [Hx | Hxs].
  - destruct x; try done. by destruct (Hx s).
  - destruct x; try done. simpl. by rewrite IH.
Qed.

Lemma foldM_not_Ok {A B : Type} (f : B → A → outcome B) (l : list A) (x : A) :
  x ∈ l → (∀ b r, f b x ≠ Ok r) → ∀ b r, foldM f l b ≠ Ok r.
Proof.
  intros Hin Hx. induction l as [|y l IH]; intros b r; [by apply elem_of_nil in Hin|].
  simpl. apply elem_of_cons in Hin as [<- | Hin].
  - specialize (Hx b). by destruct (f b x) as [b'| | |]; [destruct (Hx b')| | |].
  - destruct (f b y) as [b'| | |]; try done. by apply IH.
Qed.

(** [dir] lists exactly the names of the instance dictionary, once each. *)
Lemma elem_of_dir (nd : node) (name : string) :
  name ∈ Py.dir nd ↔ is_Some (attrs nd !! name).
Proof.
  unfold Py.dir. rewrite merge_sort_Permutation.
  rewrite list_elem_of_fmap. split.
  - intros ([k v] & -> & Hkv). apply elem_of_map_to_list in Hkv. by exists v.
  - intros [v Hv]. exists (name, v). split; [done|]. by apply elem_of_map_to_list.
Qed.

Lemma NoDup_dir (nd : node) : NoDup (Py.dir nd).
Proof.
  unfold Py.dir. rewrite merge_sort_Permutation. apply NoDup_fst_map_to_list.
Qed.

Lemma string_app_cons (c : ascii) (a b : string) :
  String c a +:+ b = String c (a +:+ b).
Proof. reflexivity. Qed.

Lemma string_app_assoc (a b c : string) : (a +:+ b) +:+ c = a +:+ b +:+ c.
Proof.
  induction a as [|x a IH]; [done|]. by rewrite !string_app_cons, IH.
Qed.

Lemma string_app_nil_r (a : string) : a +:+ "" = a.
Proof. induction a as [|x a IH]; [done|]. by rewrite string_app_cons, IH. Qed.

Lemma contains_app_l part a b : contains part a → contains part (a +:+ b).
Proof.
  intros (pre & post & ->). exists pre, (post +:+ b).
  by rewrite !string_app_assoc.
Qed.

Lemma contains_app_r part a b : contains part b → contains part (a +:+ b).
Proof.
  intros (pre & post & ->). exists (a +:+ pre), post.
  by rewrite !string_app_assoc.
Qed.

Lemma contains_refl part : contains part part.
Proof. exists "", "". by rewrite string_app_nil_r. Qed.

Lemma join_contains sep entry (l : list string) :
  entry ∈ l → contains entry (Py.join sep l).
Proof.
  induction l as [|x l IH]; intros Hin; [by apply elem_of_nil in Hin|].
  apply elem_of_cons in Hin as [<- | Hin].
  - destruct l as [|y l]; [apply contains_refl|].
    cbn [Py.join]. apply contains_app_l, contains_refl.
  - destruct l as [|y l]; [by apply elem_of_nil in Hin|].
    cbn [Py.join]. by apply contains_app_r, contains_app_r, IH.
Qed.

(** A loop keeps what every round keeps. *)
Lemma foldM_keeps {A B : Type} (P : B → Prop) (f : B → A → outcome B)
    (l : list A) :
  (∀ b x b', P b → f b x = Ok b' → P b') →
  ∀ b b', P b → foldM f l b = Ok b' → P b'.
Proof.
  intros Hf. induction l as [|x l IH]; intros b b' Hb; cbn [foldM].
  - by intros [= <-].
  - destruct (f b x) as [b1| | |] eqn:Hx; cbn [mbind outcome_bind]; try done.
    apply IH. by eapply Hf.
Qed.

Lemma foldM_app {A B : Type} (f : B → A → outcome B) (l1 l2 : list A) (b : B) :
  foldM f (l1 ++ l2) b = foldM f l1 b ≫= foldM f l2.
Proof.
  revert b. induction l1 as [|x l1 IH]; intros b; [done|].
  cbn [foldM app]. by destruct (f b x) as [b1| | |]; cbn [mbind outcome_bind].
Qed.

Lemma foldM_silent {A B : Type} (f : B → A → outcome B) (l : list A) (b : B) :
  (∀ y b, y ∈ l → f b y = Ok b) → foldM f l b = Ok b.
Proof.
  induction l as [|x l IH]; intros Hl; [done|].
  cbn [foldM]. rewrite Hl by by left. cbn [mbind outcome_bind].
  apply IH. intros y b' Hy. apply Hl. by right.
Qed.

(** A loop in which only the round of [x] does something. *)
Lemma foldM_single {A B : Type} (f : B → A → outcome B) (l : list A) (x : A)
    (b : B) :
  NoDup l → x ∈ l →
  (∀ y b, y ∈ l → y ≠ x → f b y = Ok b) →
  foldM f l b = f b x.
Proof.
  intros Hnodup Hin Hother.
  apply list_elem_of_split in Hin as (l1 & l2 & ->).
  apply NoDup_app in Hnodup as (_ & Hl1 & [Hx _]%NoDup_cons).
  rewrite foldM_app, foldM_silent.
  - cbn [mbind outcome_bind foldM].
    destruct (f b x) as [b1| | |]; cbn [mbind outcome_bind]; try done.
    apply foldM_silent. intros y b' Hy. apply Hother.
    + apply elem_of_app. right. by right.
    + by intros ->.
  - intros y b' Hy. apply Hother.
    + apply elem_of_app. by left.
    + intros ->. apply (Hl1 x Hy). by left.
Qed.

(** The attribute loop of [toXml] on a list attribute whose name is
    rendered. *)
Lemma toXml_attribute_list h self nd name l acc :
  h !! self = Some nd →
  attrs nd !! name = Some (VList l) →
  Node.visible Node.toXml_excluded name = Ok true →
  Node.toXml_attribute h self acc name =
    if (length l =? 0)%nat then Ok acc
    else
      l ← (if Py.name_in name ["varDecls"; "funDecls"]
           then mapM (λ node, Py.getattr h node "value") l
           else Ok l);
      match Py.join_values "," l with
      | Raise TypeError => Raise (InvalidAttributeListChild name)
      | joined =>
          text ← joined;
          Ok (acc.1, (acc.2 ++ [name +:+ "=" +:+ Py.json_dumps text])%list)
      end.
Proof.
  intros Hs Hname Hvis. destruct acc as [related collected].
  unfold Node.toXml_attribute, Py.getattr. by rewrite Hvis, Hs, Hname.
Qed.

Lemma joined_items_mapM h name l xs :
  joined_items h name l xs →
  (if Py.name_in name ["varDecls"; "funDecls"]
   then mapM (λ node, Py.getattr h node "value") l
   else Ok l) = Ok xs.
Proof.
  unfold joined_items. destruct (Py.name_in name _).
  - apply mapM_Forall2.
  - by intros ->.
Qed.

Lemma toXml_attribute_passed_over h self acc name :
  Node.visible Node.toXml_excluded name = Ok false →
  Node.toXml_attribute h self acc name = Ok acc.
Proof.
  intros Hvis. destruct acc as [related collected].
  unfold Node.toXml_attribute. by rewrite Hvis.
Qed.

(** The attribute loop of [toXml] on a node that has one rendered
    attribute. *)
Lemma toXml_attributes_only h self nd name :
  is_Some (attrs nd !! name) →
  only_rendered nd name →
  foldM (Node.toXml_attribute h self) (Py.dir nd) ([], [])
  = Node.toXml_attribute h self ([], []) name.
Proof.
  intros Hname Honly. apply foldM_single.
  - apply NoDup_dir.
  - by apply elem_of_dir.
  - intros other acc Hother%elem_of_dir Hne.
    apply toXml_attribute_passed_over. by apply Honly.
Qed.

(** A round of the attribute loop of [toXml] keeps the attributes collected
    so far. *)
Lemma toXml_attribute_keeps h self name entry acc acc' :
  entry ∈ acc.2 →
  Node.toXml_attribute h self acc name = Ok acc' →
  entry ∈ acc'.2.
Proof.
  destruct acc as [related collected]. cbn [snd]. intros Hentry.
  assert (∀ text, entry ∈ (collected ++ [name +:+ "=" +:+ Py.json_dumps text])%list)
    as Hmore.
  { intros text. apply elem_of_app. by left. }
  unfold Node.toXml_attribute.
  destruct (Node.visible Node.toXml_excluded name) as [[]| | |];
    cbn [mbind outcome_bind]; try done; [|by intros [= <-]].
  destruct (Py.getattr h (VNode self) name) as [v| | |];
    cbn [mbind outcome_bind]; try done.
  destruct v as [|b|z|s|l|r|fields];
    try (by intros [= <-]); try (intros [= <-]; by apply Hmore).
  - destruct (length l =? 0)%nat; [by intros [= <-]|].
    destruct (if Py.name_in name _ then _ else _) as [l'| | |];
      cbn [mbind outcome_bind]; try done.
    destruct (Py.join_values "," l') as [text|[]| |];
      cbn [mbind outcome_bind]; try done.
    intros [= <-]. by apply Hmore.
  - destruct (Py.hasattr h (VNode r) "rel"); intros [= <-]; [|done].
    done.
Qed.

(** What a round of the attribute loop adds is among the attributes the
    loop collects. *)
Lemma toXml_attributes_collect h self (names : list string) name entry acc acc' :
  name ∈ names →
  (∀ acc, Node.toXml_attribute h self acc name
          = Ok (acc.1, (acc.2 ++ [entry])%list)) →
  foldM (Node.toXml_attribute h self) names acc = Ok acc' →
  entry ∈ acc'.2.
Proof.
  intros Hin Hname. revert acc.
  induction names as [|x names IH]; intros acc; [by apply elem_of_nil in Hin|].
  cbn [foldM]. apply elem_of_cons in Hin as [<- | Hin].
  - rewrite Hname. cbn [mbind outcome_bind].
    apply (foldM_keeps (λ acc, entry ∈ acc.2)).
    + intros b y b' Hb Hy. by eapply toXml_attribute_keeps.
    + cbn [snd]. apply elem_of_app. right. by left.
  - destruct (Node.toXml_attribute h self acc x) as [acc1| | |];
      cbn [mbind outcome_bind]; try done.
    by apply IH.
Qed.

(** A round that returns adds to the text or leaves it. *)
Ltac keeps_text :=
  repeat match goal with
  | |- (if ?b then _ else _) = Ok _ → _ => destruct b
  | |- (?x ≫= _) = Ok _ → _ =>
      destruct x as [?| | |]; cbn [mbind outcome_bind]; try done
  | |- match ?x with _ => _ end = Ok _ → _ => destruct x; try done
  | |- Ok _ = Ok _ → _ => intros [= <-]
  end;
  repeat apply contains_app_l; assumption.

(** The text [toXml] returns holds every attribute its loop collected. *)
Lemma toXml_contains_collected fuel h self nd format indent tab related collected
    entry out :
  h !! self = Some nd →
  foldM (Node.toXml_attribute h self) (Py.dir nd) ([], []) = Ok (related, collected) →
  entry ∈ collected →
  Node.toXml (S fuel) h self format indent tab = Ok out →
  contains entry out.
Proof.
  intros Hs Hattrs Hentry. cbn [Node.toXml]. rewrite Hs, Hattrs.
  cbn [mbind outcome_bind].
  assert (contains entry
            (if (0 <? length collected)%nat
             then " " +:+ Py.join " " collected else "")) as Hattributes.
  { destruct collected as [|c collected]; [by apply elem_of_nil in Hentry|].
    cbn [length Nat.ltb Nat.leb]. by apply contains_app_r, join_contains. }
  revert Hattributes.
  generalize (if (0 <? length collected)%nat
              then " " +:+ Py.join " " collected else "").
  intros attributes Hattributes.
  destruct (if _ && _ then _ else _) as [leaf| | |];
    cbn [mbind outcome_bind]; try done.
  destruct (Py.getattr h (VNode self) "type") as [type| | |];
    cbn [mbind outcome_bind]; try done.
  destruct (Py.str type) as [t| | |]; cbn [mbind outcome_bind]; try done.
  destruct leaf.
  - intros [= <-].
    by apply contains_app_r, contains_app_r, contains_app_r, contains_app_l.
  - assert (contains entry
              ((if format then Py.times tab indent else "") +:+ "<" +:+ t
                 +:+ attributes +:+ ">" +:+ (if format then Py.newline else "")))
      as Hopen.
    { by apply contains_app_r, contains_app_r, contains_app_r, contains_app_l. }
    revert Hopen.
    generalize ((if format then Py.times tab indent else "") +:+ "<" +:+ t
                  +:+ attributes +:+ ">" +:+ (if format then Py.newline else "")).
    intros result0 Hopen.
    destruct (if Py.truthy _ then _ else _) as [result1| | |] eqn:Hcomments;
      cbn [mbind outcome_bind]; try done.
    destruct (foldM _ (kids nd) result1) as [result2| | |] eqn:Hchildren;
      cbn [mbind outcome_bind]; try done.
    destruct (foldM _ related result2) as [result3| | |] eqn:Hrelated;
      cbn [mbind outcome_bind]; try done.
    intros [= <-]. apply contains_app_l.
    eapply (foldM_keeps (contains entry)); [| |exact Hrelated].
    { intros b x b' Hb. cbv beta. keeps_text. }
    eapply (foldM_keeps (contains entry)); [| |exact Hchildren].
    { intros b x b' Hb. cbv beta. keeps_text. }
    destruct (Py.truthy _); [|by injection Hcomments as <-].
    destruct (Py.iter h _) as [cs| | |]; cbn [mbind outcome_bind] in Hcomments;
      try done.
    eapply (foldM_keeps (contains entry)); [|exact Hopen|exact Hcomments].
    intros b x b' Hb. cbv beta. keeps_text.
Qed.

(** [toXml] on a node that has one rendered attribute, no children and no
    comments. *)
Lemma toXml_plain_leaf fuel h self nd name format indent tab :
  h !! self = Some nd →
  is_Some (attrs nd !! name) →
  plain_leaf nd name →
  Node.toXml (S fuel) h self format indent tab
  = '(related, collected) ← Node.toXml_attribute h self ([], []) name;
    type ← Py.getattr h (VNode self) "type";
    type ← Py.str type;
    if (length related =? 0)%nat
    then Ok (self_closing_tag format indent tab type
               (if (0 <? length collected)%nat
                then " " +:+ Py.join " " collected else ""))
    else
      result ←
        foldM (λ result child,
                 rel ← Py.getattr h child "rel";
                 rel ← Py.str rel;
                 let result :=
                   result +:+ (if format then Py.times tab (indent + 1) else "")
                     +:+ "<" +:+ rel +:+ ">"
                     +:+ (if format then Py.newline else "") in
                 xml ← match child with
                       | VNode c =>
                           Py.method h c "toXml";;
                           Node.toXml fuel h c format (indent + 2) "  "
                       | _ => Unmodelled
                       end;
                 let result := result +:+ xml in
                 rel ← Py.getattr h child "rel";
                 rel ← Py.str rel;
                 Ok (result +:+ (if format then Py.times tab (indent + 1) else "")
                       +:+ "</" +:+ rel +:+ ">"
                       +:+ (if format then Py.newline else "")))
              related
              ((if format then Py.times tab indent else "") +:+ "<" +:+ type
                 +:+ (if (0 <? length collected)%nat
                      then " " +:+ Py.join " " collected else "")
                 +:+ ">" +:+ (if format then Py.newline else ""));
      Ok (result +:+ (if format then Py.times tab indent else "")
            +:+ "</" +:+ type +:+ ">" +:+ (if format then Py.newline else "")).
Proof.
  intros Hs Hname (Honly & Hcomments & Hkids).
  cbn [Node.toXml]. rewrite Hs, (toXml_attributes_only _ _ _ name) by done.
  destruct (Node.toXml_attribute h self ([], []) name)
    as [[related collected]| | |]; cbn [mbind outcome_bind]; try done.
  assert (Py.getattr_default h (VNode self) "comments" VNone = VNone) as ->.
  { unfold Py.getattr_default, Py.getattr. by rewrite Hs, Hcomments. }
  rewrite Hkids. cbn [Py.truthy negb length Nat.eqb andb foldM].
  destruct (length related =? 0)%nat; cbn [mbind outcome_bind]; [|done].
  by destruct (Py.getattr h (VNode self) "type") as [type| | |].
Qed.

(** C7, as amended.  A list attribute of a node whose name [toXml] renders.
    - An empty list is passed over by the attribute loop; on a node that
      has no other rendered attribute, no children and no comments, [toXml]
      returns the bare self-closing tag.
    - A list that is not empty and whose joined items (the [value] of each
      item for [varDecls] and [funDecls], the items themselves otherwise)
      are all texts makes the loop collect the one attribute [name="..."]
      holding the texts joined by commas; whenever [toXml] returns a text
      for the node, that text holds this attribute; and on a node that has
      no other rendered attribute, no children and no comments, [toXml]
      returns the self-closing tag with this attribute.
    - When some joined item is not a text (a number is not converted), the
      loop raises the exception "Invalid attribute list child"; [toXml]
      never returns a text for the node, and on a node that has no other
      rendered attribute it raises that exception. *)
Theorem toXml_list_attribute (h : heap) (self : loc) (nd : node)
    (name : string) (l : list value) :
  h !! self = Some nd →
  attrs nd !! name = Some (VList l) →
  Node.visible Node.toXml_excluded name = Ok true →
  (l = [] →
     (∀ related collected,
        Node.toXml_attribute h self (related, collected) name
        = Ok (related, collected)) ∧
     (∀ fuel format indent tab t,
        plain_leaf nd name → attrs nd !! "type" = Some (VStr t) →
        Node.toXml (S fuel) h self format indent tab
        = Ok (self_closing_tag format indent tab t ""))) ∧
  (∀ xs : list value, l ≠ [] → joined_items h name l xs →
     (∀ ss : list string, xs = VStr <$> ss →
        (∀ related collected,
           Node.toXml_attribute h self (related, collected) name
           = Ok (related, (collected ++ [list_entry name ss])%list)) ∧
        (∀ fuel format indent tab out,
           Node.toXml fuel h self format indent tab = Ok out →
           contains (list_entry name ss) out) ∧
        (∀ fuel format indent tab t,
           plain_leaf nd name → attrs nd !! "type" = Some (VStr t) →
           Node.toXml (S fuel) h self format indent tab
           = Ok (self_closing_tag format indent tab t
                   (" " +:+ list_entry name ss)))) ∧
     (Exists (λ x, ∀ s, x ≠ VStr s) xs →
        (∀ related collected,
           Node.toXml_attribute h self (related, collected) name
           = Raise (InvalidAttributeListChild name)) ∧
        (∀ fuel format indent tab out,
           Node.toXml fuel h self format indent tab ≠ Ok out) ∧
        (∀ fuel format indent tab,
           plain_leaf nd name →
           Node.toXml (S fuel) h self format indent tab
           = Raise (InvalidAttributeListChild name)))).
Proof.
  intros Hs Hname Hvis.
  assert (is_Some (attrs nd !! name)) as Hsome by by eexists.
  assert (∀ t, attrs nd !! "type" = Some (VStr t) →
               Py.getattr h (VNode self) "type" = Ok (VStr t)) as Htype.
  { intros t Ht. unfold Py.getattr. by rewrite Hs, Ht. }
  split.
  - intros ->.
    assert (∀ acc, Node.toXml_attribute h self acc name = Ok acc) as Hbody.
    { intros acc. by rewrite (toXml_attribute_list _ _ nd _ []). }
    split; [intros related collected; apply Hbody|].
    intros fuel format indent tab t Hleaf Ht.
    rewrite (toXml_plain_leaf _ _ _ nd name) by done.
    rewrite Hbody. cbn [mbind outcome_bind]. rewrite (Htype _ Ht). reflexivity.
  - intros xs Hl Hxs.
    assert (∀ acc, Node.toXml_attribute h self acc name =
      match Py.join_values "," xs with
      | Raise TypeError => Raise (InvalidAttributeListChild name)
      | joined =>
          text ← joined;
          Ok (acc.1, (acc.2 ++ [name +:+ "=" +:+ Py.json_dumps text])%list)
      end) as Hbody.
    { intros acc. rewrite (toXml_attribute_list _ _ nd _ l) by done.
      destruct l; [done|]. simpl length. cbv iota.
      by rewrite (joined_items_mapM _ _ _ _ Hxs). }
    split.
    + intros ss ->.
      assert (∀ acc, Node.toXml_attribute h self acc name
                     = Ok (acc.1, (acc.2 ++ [list_entry name ss])%list)) as Hstep.
      { intros acc. rewrite Hbody. unfold Py.join_values.
        by rewrite texts_strings. }
      split; [intros related collected; apply Hstep|]. split.
      * intros fuel format indent tab out Hout.
        destruct fuel as [|fuel]; [done|].
        pose proof Hout as Hrun. cbn [Node.toXml] in Hrun. rewrite Hs in Hrun.
        destruct (foldM (Node.toXml_attribute h self) (Py.dir nd) ([], []))
          as [[related collected]| | |] eqn:Hattrs; try done.
        apply (toXml_contains_collected fuel h self nd format indent tab
                 related collected _ _ Hs Hattrs); [|done].
        apply (toXml_attributes_collect h self (Py.dir nd) name _ ([], [])
                 (related, collected)); [by apply elem_of_dir | done | done].
      * intros fuel format indent tab t Hleaf Ht.
        rewrite (toXml_plain_leaf _ _ _ nd name) by done.
        rewrite Hstep. cbn [mbind outcome_bind fst snd app length Nat.eqb].
        rewrite (Htype _ Ht). reflexivity.
    + intros Hex.
      assert (∀ acc, Node.toXml_attribute h self acc name
                     = Raise (InvalidAttributeListChild name)) as Hraise.
      { intros acc. rewrite Hbody. unfold Py.join_values.
        by rewrite texts_not_string. }
      split; [intros related collected; apply Hraise|]. split.
      * intros fuel format indent tab out. destruct fuel as [|fuel]; [done|].
        cbn [Node.toXml]. rewrite Hs.
        pose proof (foldM_not_Ok (Node.toXml_attribute h self) (Py.dir nd) name)
          as Hfold.
        destruct (foldM (Node.toXml_attribute h self) (Py.dir nd) ([], []))
          as [r| | |] eqn:Hf; try done.
        exfalso. eapply Hfold; [| |exact Hf].
        -- apply elem_of_dir. by eexists.
        -- intros b r'. by rewrite Hraise.
      * intros fuel format indent tab Hleaf.
        rewrite (toXml_plain_leaf _ _ _ nd name) by done.
        by rewrite Hraise.
Qed.

Lemma params_node_plain_leaf (l : list value) : plain_leaf (params_node l) "params".
Proof.
  split; [|by split]. intros other [v Hv] Hne. cbn [params_node attrs] in Hv.
  apply lookup_insert_Some in Hv as [[<- _] | [_ Hv]]; [reflexivity|].
  by apply lookup_singleton_Some in Hv as [<- _].
Qed.

(** The attribute [params] of a [Function] node holding no item, two texts,
    a text and a number. *)
Lemma toXml_list_attribute_witness :
  Node.toXml 1 [params_node []] 0%nat false 0 "  "
    = Ok (self_closing_tag false 0 "  " "Function" "") ∧
  Node.toXml 1 [params_node [VStr "a"; VStr "b"]] 0%nat false 0 "  "
    = Ok (self_closing_tag false 0 "  " "Function"
            (" " +:+ list_entry "params" ["a"; "b"])) ∧
  Node.toXml 1 [params_node [VStr "a"; VInt 1]] 0%nat false 0 "  "
    = Raise (InvalidAttributeListChild "params").
Proof.
  split; [|split].
  - destruct (toXml_list_attribute [params_node []] 0%nat (params_node [])
                "params" []) as [Hempty _];
      [reflexivity | vm_compute; reflexivity | reflexivity |].
    destruct (Hempty eq_refl) as [_ Hleaf].
    apply Hleaf; [apply params_node_plain_leaf | vm_compute; reflexivity].
  - destruct (toXml_list_attribute [params_node [VStr "a"; VStr "b"]] 0%nat
                (params_node [VStr "a"; VStr "b"])
                "params" [VStr "a"; VStr "b"]) as [_ Hitems];
      [reflexivity | vm_compute; reflexivity | reflexivity |].
    destruct (Hitems [VStr "a"; VStr "b"]) as [Htexts _]; [done | done |].
    destruct (Htexts ["a"; "b"] eq_refl) as (_ & _ & Hleaf).
    apply Hleaf; [apply params_node_plain_leaf | vm_compute; reflexivity].
  - destruct (toXml_list_attribute [params_node [VStr "a"; VInt 1]] 0%nat
                (params_node [VStr "a"; VInt 1])
                "params" [VStr "a"; VInt 1]) as [_ Hitems];
      [reflexivity | vm_compute; reflexivity | reflexivity |].
    destruct (Hitems [VStr "a"; VInt 1]) as [_ Hother]; [done | done |].
    destruct Hother as (_ & _ & Hleaf).
    + apply Exists_cons_tl, Exists_cons_hd. discriminate.
    + apply Hleaf, params_node_plain_leaf.
Defined.

(** C7, counterexample.  The number 1 has a text, ["1"], yet a list
    attribute that holds it beside a text is not rendered: [",".join] does
    not convert its items, and [toXml] raises. *)
Lemma toXml_number_in_list :
  Py.str (VInt 1) = Ok "1" ∧
  Node.toXml 1 [params_node [VStr "a"; VInt 1]] 0%nat false 0 "  "
    = Raise (InvalidAttributeListChild "params").
Proof. split; vm_compute; reflexivity. Qed.

(** The XML of a [Function] node with the parameters [a] and [b]. *)
Lemma toXml_params_node (n : nat) :
  Node.toXml (S n) [params_node [VStr "a"; VStr "b"]] 0%nat false 0 "  "
  = Ok ("<Function params=" +:+ Py.dquote +:+ "a,b" +:+ Py.dquote +:+ "/>").
Proof. vm_compute. reflexivity. Qed.

(** ** The exported record *)

Lemma visible_export_keeps (name : string) :
  name ≠ "" → Node.visible Node.export_excluded name = Ok (export_keeps name).
Proof.
  intros Hname. destruct name as [|c s]; [done|].
  unfold Node.visible, export_keeps, Node.export_excluded.
  by destruct (Py.name_in _ _).
Qed.

(** One round of the attribute loop of [export]: the entry is added when
    [exported_attribute] gives one. *)
Lemma export_attribute_step export_node h self nd acc name v :
  h !! self = Some nd →
  attrs nd !! name = Some v →
  name ≠ "" →
  (∀ r, v = VNode r → export_keeps name = true →
        Py.hasattr h (VNode r) "rel" = true → is_Some (returned (export_node r))) →
  Node.export_attribute export_node h self acc name =
    Ok (match exported_attribute export_node h name v with
        | Some e => <[name := e]> acc
        | None => acc
        end).
Proof.
  intros Hs Hv Hname Hnode.
  unfold Node.export_attribute, exported_attribute, Py.getattr.
  rewrite (visible_export_keeps _ Hname). simpl.
  destruct (export_keeps name) eqn:Hkeep; [|done]. rewrite Hs, Hv.
  destruct v as [| | | | |r|]; try done.
  cbn [mbind outcome_bind].
  destruct (Py.hasattr h (VNode r) "rel") eqn:Hrel; [|done].
  destruct (Hnode r eq_refl eq_refl Hrel) as [d Hd].
  by destruct (export_node r).
Qed.

(** The attribute loop of [export] over names that occur once each. *)
Lemma export_attributes export_node h self nd (names : list string) acc :
  h !! self = Some nd →
  NoDup names →
  (∀ name, name ∈ names → name ≠ "" ∧ is_Some (attrs nd !! name)) →
  (∀ name r, attrs nd !! name = Some (VNode r) → export_keeps name = true →
             Py.hasattr h (VNode r) "rel" = true →
             is_Some (returned (export_node r))) →
  ∃ d, foldM (Node.export_attribute export_node h self) names acc = Ok d ∧
    ∀ name,
      d !! name =
        match (if decide (name ∈ names)
               then attrs nd !! name ≫= exported_attribute export_node h name
               else None) with
        | Some e => Some e
        | None => acc !! name
        end.
Proof.
  intros Hs Hnodup Hnames Hnode. revert acc.
  induction names as [|x names IH]; intros acc.
  - exists acc. split; [done|]. intros name.
    rewrite decide_False; [done|]. apply not_elem_of_nil.
  - apply NoDup_cons in Hnodup as [Hx Hnodup].
    destruct (Hnames x) as [Hne [v Hv]]; [by left|].
    simpl. rewrite (export_attribute_step _ _ _ nd _ _ v Hs Hv Hne);
      [|intros r ->; by apply Hnode].
    simpl.
    destruct (IH Hnodup (λ name Hin, Hnames name (list_elem_of_further _ _ _ Hin))
                (match exported_attribute export_node h x v with
                 | Some e => <[x := e]> acc
                 | None => acc
                 end)) as (d & Hd & Hlookup).
    exists d. split; [done|]. intros name. rewrite Hlookup.
    destruct (decide (name = x)) as [->|Hneq].
    + rewrite (decide_False (P := x ∈ names)) by done.
      rewrite (decide_True (P := x ∈ x :: names)) by by left.
      rewrite Hv. simpl.
      destruct (exported_attribute export_node h x v); [|done].
      by rewrite lookup_insert_eq.
    + assert (∀ o : option exported,
                match o with
                | Some e => Some e
                | None =>
                    match exported_attribute export_node h x v with
                    | Some e => <[x := e]> acc
                    | None => acc
                    end !! name
                end = match o with Some e => Some e | None => acc !! name end)
        as Hacc.
      { intros [e|]; [done|].
        destruct (exported_attribute export_node h x v); [|done].
        by rewrite lookup_insert_ne. }
      rewrite Hacc.
      destruct (decide (name ∈ x :: names)) as [Hin|Hnin];
        destruct (decide (name ∈ names)) as [Hin'|Hnin']; try done.
      * apply elem_of_cons in Hin as [?|?]; done.
      * destruct Hnin. by right.
Qed.

(** The attribute loop of [export] over [dir(self)]. *)
Lemma export_attributes_dir export_node h self nd :
  h !! self = Some nd →
  attrs nd !! "" = None →
  (∀ name r, attrs nd !! name = Some (VNode r) → export_keeps name = true →
             Py.hasattr h (VNode r) "rel" = true →
             is_Some (returned (export_node r))) →
  ∃ d, foldM (Node.export_attribute export_node h self) (Py.dir nd) ∅ = Ok d ∧
    ∀ name, d !! name = attrs nd !! name ≫= exported_attribute export_node h name.
Proof.
  intros Hs Hempty Hnode.
  destruct (export_attributes export_node h self nd (Py.dir nd) ∅ Hs (NoDup_dir nd))
    as (d & Hd & Hlookup); [|done|].
  { intros name Hin%elem_of_dir. split; [|done].
    intros ->. rewrite Hempty in Hin. by destruct Hin. }
  exists d. split; [done|]. intros name. rewrite Hlookup, lookup_empty.
  destruct (decide (name ∈ Py.dir nd)) as [Hin|Hnin].
  - by destruct (attrs nd !! name ≫= _).
  - destruct (attrs nd !! name) eqn:Hname; [|done].
    destruct Hnin. apply elem_of_dir. by eexists.
Qed.

Lemma export_child_related export_node h acc child :
  Py.hasattr h child "rel" = true →
  Node.export_child export_node h acc child = Ok acc.
Proof. intros Hrel. unfold Node.export_child. by rewrite Hrel. Qed.

Lemma export_child_unrelated export_node h acc c d pre :
  Py.hasattr h (VNode c) "rel" = false →
  export_node c = Ok d →
  match acc !! "children" with
  | Some e => e = EList pre
  | None => pre = []
  end →
  Node.export_child export_node h acc (VNode c)
    = Ok (<["children" := EList (pre ++ [EDict d])]> acc).
Proof.
  intros Hrel Hc Hacc. unfold Node.export_child. rewrite Hrel. simpl.
  destruct (acc !! "children") as [e|] eqn:He.
  - subst e. rewrite He, Hc. done.
  - subst pre. rewrite lookup_insert_eq, Hc. simpl. by rewrite insert_insert_eq.
Qed.

(** The child loop of [export] once the record has a list of children. *)
Lemma export_children_from export_node h (l : list value) ds acc pre :
  acc !! "children" = Some (EList pre) →
  Forall2 (λ child d, ∃ c, child = VNode c ∧ export_node c = Ok d)
          (filter (λ child, Py.hasattr h child "rel" = false) l) ds →
  foldM (Node.export_child export_node h) l acc
    = Ok (<["children" := EList (pre ++ (EDict <$> ds))]> acc).
Proof.
  revert ds acc pre. induction l as [|child l IH]; intros ds acc pre Hacc Hds.
  - apply Forall2_nil_inv_l in Hds as ->. simpl.
    by rewrite app_nil_r, insert_id.
  - cbn [foldM]. destruct (Py.hasattr h child "rel") eqn:Hrel.
    + rewrite export_child_related by done. cbn [mbind outcome_bind].
      rewrite filter_cons_False in Hds by by rewrite Hrel. by apply IH.
    + rewrite filter_cons_True in Hds by done.
      apply Forall2_cons_inv_l in Hds as (d & ds' & (c & -> & Hc) & Hds & ->).
      rewrite (export_child_unrelated _ _ _ _ d pre) by (done || by rewrite Hacc).
      cbn [mbind outcome_bind].
      rewrite (IH ds' _ (pre ++ [EDict d])%list);
        [|by rewrite lookup_insert_eq|done].
      by rewrite insert_insert_eq, <- app_assoc.
Qed.

(** The child loop of [export] on a record without entry [children]. *)
Lemma export_children export_node h (l : list value) ds acc :
  acc !! "children" = None →
  Forall2 (λ child d, ∃ c, child = VNode c ∧ export_node c = Ok d)
          (filter (λ child, Py.hasattr h child "rel" = false) l) ds →
  foldM (Node.export_child export_node h) l acc
    = Ok (if decide (ds = []) then acc
          else <["children" := EList (EDict <$> ds)]> acc).
Proof.
  revert ds. induction l as [|child l IH]; intros ds Hacc Hds.
  - by apply Forall2_nil_inv_l in Hds as ->.
  - cbn [foldM]. destruct (Py.hasattr h child "rel") eqn:Hrel.
    + rewrite export_child_related by done. cbn [mbind outcome_bind].
      rewrite filter_cons_False in Hds by by rewrite Hrel. by apply IH.
    + rewrite filter_cons_True in Hds by done.
      apply Forall2_cons_inv_l in Hds as (d & ds' & (c & -> & Hc) & Hds & ->).
      rewrite (export_child_unrelated _ _ _ _ d []) by (done || by rewrite Hacc).
      cbn [mbind outcome_bind].
      rewrite (export_children_from _ _ _ ds' _ [EDict d]);
        [|by rewrite lookup_insert_eq|done].
      by rewrite insert_insert_eq.
Qed.

(** More fuel does not change what [export] returns. *)
Lemma foldM_mono {A B : Type} (f f' : B → A → outcome B) (l : list A) :
  (∀ b x b', f b x = Ok b' → f' b x = Ok b') →
  ∀ b r, foldM f l b = Ok r → foldM f' l b = Ok r.
Proof.
  intros Hf. induction l as [|x l IH]; intros b r; [done|].
  simpl. destruct (f b x) as [b'| | |] eqn:Hx; try done.
  rewrite (Hf _ _ _ Hx). simpl. apply IH.
Qed.

Lemma export_attribute_mono export_node export_node' h self acc name d :
  (∀ r d, export_node r = Ok d → export_node' r = Ok d) →
  Node.export_attribute export_node h self acc name = Ok d →
  Node.export_attribute export_node' h self acc name = Ok d.
Proof.
  intros Hmono. unfold Node.export_attribute.
  destruct (Node.visible _ _) as [[]| | |]; try done. cbn [mbind outcome_bind].
  destruct (Py.getattr h (VNode self) name) as [[| | | | |r|]| | |]; try done.
  cbn [mbind outcome_bind]. destruct (Py.hasattr h (VNode r) "rel"); [|done].
  destruct (export_node r) as [d'| | |] eqn:Hr; try done.
  by rewrite (Hmono _ _ Hr).
Qed.

Lemma export_child_mono export_node export_node' h acc child d :
  (∀ r d, export_node r = Ok d → export_node' r = Ok d) →
  Node.export_child export_node h acc child = Ok d →
  Node.export_child export_node' h acc child = Ok d.
Proof.
  intros Hmono. unfold Node.export_child.
  destruct (negb (Py.hasattr h child "rel")); [|done].
  destruct (_ !! "children") as [[| |l]|]; try done.
  destruct child as [| | | | |c|]; try done.
  destruct (export_node c) as [d'| | |] eqn:Hc; try done.
  by rewrite (Hmono _ _ Hc).
Qed.

Lemma call_mono {A : Type} h name (body body' : loc → outcome A) r (a : A) :
  (∀ r a, body r = Ok a → body' r = Ok a) →
  Node.call h name body r = Ok a → Node.call h name body' r = Ok a.
Proof.
  intros Hmono. unfold Node.call.
  destruct (Py.method h r name) as [[]| | |]; try done. apply Hmono.
Qed.

Lemma export_fuel_mono fuel h self d :
  Node.export fuel h self = Ok d → Node.export (S fuel) h self = Ok d.
Proof.
  revert self d. induction fuel as [|fuel IH]; intros self d; [done|].
  change (Node.export (S (S fuel)) h self) with
    (match h !! self with
     | None => Unmodelled
     | Some nd =>
         attrs ← foldM (Node.export_attribute
                          (Node.call h "export" (Node.export (S fuel) h)) h self)
                   (Py.dir nd) ∅;
         foldM (Node.export_child
                  (Node.call h "export" (Node.export (S fuel) h)) h)
               (kids nd) attrs
     end).
  change (Node.export (S fuel) h self) with
    (match h !! self with
     | None => Unmodelled
     | Some nd =>
         attrs ← foldM (Node.export_attribute
                          (Node.call h "export" (Node.export fuel h)) h self)
                   (Py.dir nd) ∅;
         foldM (Node.export_child
                  (Node.call h "export" (Node.export fuel h)) h)
               (kids nd) attrs
     end) at 1.
  assert (∀ r d, Node.call h "export" (Node.export fuel h) r = Ok d →
                 Node.call h "export" (Node.export (S fuel) h) r = Ok d) as Hcall.
  { intros r d'. by apply call_mono. }
  destruct (h !! self) as [nd|]; [|done].
  destruct (foldM (Node.export_attribute _ h self) _ _) as [d1| | |] eqn:H1;
    try done.
  rewrite (foldM_mono _
             (Node.export_attribute
                (Node.call h "export" (Node.export (S fuel) h)) h self)
             _ (λ b x b', export_attribute_mono _ _ h self b x b' Hcall) _ _ H1).
  cbn [mbind outcome_bind]. apply foldM_mono. intros b x b'.
  by apply export_child_mono.
Qed.

(** C9, as amended.  Take a node without attribute named by the empty
    string or by [children], such that the call [value.export()] returns on
    each of its node attributes [export] looks at, and the call
    [child.export()] returns the records [ds] on its unrelated children, all
    of them nodes.  Then [export] returns a record that
    - holds, under each attribute name it keeps, the value of a boolean,
      number, text or list attribute as it is, and the record exported for
      a node attribute that is marked as related;
    - holds nothing for the other names: [parent], [target], [rel], [start],
      [end] and the names starting with an underscore are never copied,
      while [type] and [comments], which the XML leaves out, are;
    - holds under [children] the records of the unrelated children in the
      order of the child sequence, when there is at least one.
    The calls [x.export()] are calls on the instance: they return what
    [export] returns on [x] when [x] has no attribute named [export], and
    raise otherwise. *)
Theorem export_spec (fuel : nat) (h : heap) (self : loc) (nd : node)
    (unrelated : list value) (ds : list (gmap string exported)) :
  h !! self = Some nd →
  attrs nd !! "" = None →
  attrs nd !! "children" = None →
  (∀ name r, attrs nd !! name = Some (VNode r) → export_keeps name = true →
             Py.hasattr h (VNode r) "rel" = true →
             is_Some (returned (Node.call h "export" (Node.export fuel h) r))) →
  Node.getUnrelatedChildren h self = Ok unrelated →
  Forall2 (λ child d, ∃ c, child = VNode c ∧
                           Node.call h "export" (Node.export fuel h) c = Ok d)
          unrelated ds →
  (∃ d : gmap string exported,
     Node.export (S fuel) h self = Ok d ∧
     (∀ name, name ≠ "children" →
        d !! name
        = attrs nd !! name
            ≫= exported_attribute (Node.call h "export" (Node.export fuel h)) h name) ∧
     d !! "children"
       = (if decide (ds = []) then None else Some (EList (EDict <$> ds))) ∧
     d !! "parent" = None ∧ d !! "start" = None ∧ d !! "end" = None ∧
     (∀ v, attrs nd !! "type" = Some (VStr v) → d !! "type" = Some (EVal (VStr v)))) ∧
  (∀ (c : loc) (ndc : node),
     h !! c = Some ndc →
     Node.call h "export" (Node.export fuel h) c
     = match attrs ndc !! "export" with
       | None => Node.export fuel h c
       | Some (VObj _) => Unmodelled
       | Some _ => Raise TypeError
       end).
Proof.
  intros Hs Hempty Hchildren Hnode Hunrelated Hds.
  split; [|intros c ndc Hc; unfold Node.call, Py.method; rewrite Hc;
           by destruct (attrs ndc !! "export") as [[]|]].
  unfold Node.getUnrelatedChildren in Hunrelated. rewrite Hs in Hunrelated.
  injection Hunrelated as <-.
  set (export_node := Node.call h "export" (Node.export fuel h)) in *.
  destruct (export_attributes_dir export_node h self nd Hs Hempty Hnode)
    as (d1 & Hd1 & Hlookup).
  assert (d1 !! "children" = None) as Hnone.
  { by rewrite Hlookup, Hchildren. }
  pose proof (export_children export_node h (kids nd) ds d1 Hnone Hds)
    as Hloop.
  assert (∀ name, name ≠ "children" →
            (if decide (ds = []) then d1
             else <["children" := EList (EDict <$> ds)]> d1) !! name
            = attrs nd !! name ≫= exported_attribute export_node h name)
    as Hother.
  { intros name Hname. rewrite <- Hlookup.
    destruct (decide (ds = [])); [done|]. by rewrite lookup_insert_ne. }
  eexists. split; [|split; [exact Hother|split; [|split; [|split; [|split]]]]].
  - cbn [Node.export]. fold export_node. rewrite Hs, Hd1.
    cbn [mbind outcome_bind]. exact Hloop.
  - destruct (decide (ds = [])); [done|]. by rewrite lookup_insert_eq.
  - rewrite Hother by done. by destruct (attrs nd !! "parent").
  - rewrite Hother by done. by destruct (attrs nd !! "start").
  - rewrite Hother by done. by destruct (attrs nd !! "end").
  - intros v Hv. rewrite Hother by done. by rewrite Hv.
Qed.

(** The export of the [Call] node of [call_store]. *)
Lemma export_spec_witness :
  ∃ d : gmap string exported,
    Node.export 2 call_store 0%nat = Ok d ∧
    (∀ name, name ≠ "children" →
       d !! name
       = attrs (mkNode {[ "type" := VStr "Call"; "start" := VInt 0;
                          "end" := VInt 4; "callee" := VNode 1%nat ]}
                       [VNode 1%nat; VNode 2%nat]) !! name
         ≫= exported_attribute
              (Node.call call_store "export" (Node.export 1 call_store))
              call_store name) ∧
    d !! "children"
      = (if decide ([ ({[ "type" := EVal (VStr "Num") ]} : gmap string exported) ] = [])
         then None
         else Some (EList (EDict <$> [ {[ "type" := EVal (VStr "Num") ]} ]))) ∧
    d !! "parent" = None ∧ d !! "start" = None ∧ d !! "end" = None ∧
    (∀ v, attrs (mkNode {[ "type" := VStr "Call"; "start" := VInt 0;
                          "end" := VInt 4; "callee" := VNode 1%nat ]}
                       [VNode 1%nat; VNode 2%nat]) !! "type" = Some (VStr v) →
          d !! "type" = Some (EVal (VStr v))).
Proof.
  apply (export_spec 1 call_store 0%nat _ [VNode 2%nat]
           [ {[ "type" := EVal (VStr "Num") ]} ]).
  - reflexivity.
  - vm_compute. reflexivity.
  - vm_compute. reflexivity.
  - intros name r Hattr Hkeep Hrel.
    destruct r as [|[|r]]; [done | vm_compute; by eexists |].
    by destruct r.
  - vm_compute. reflexivity.
  - constructor; [|constructor].
    exists 2%nat. split; [reflexivity | vm_compute; reflexivity].
Defined.

(** C9, counterexample.  [toXml] does not render the name [type] as an
    attribute, [export] copies it: the record exported for a [Num] node
    holds its type. *)
Lemma export_keeps_type :
  Node.visible Node.toXml_excluded "type" = Ok false ∧
  Node.visible Node.export_excluded "type" = Ok true ∧
  Node.export 1 [mkNode {[ "type" := VStr "Num" ]} []] 0%nat
    = Ok {[ "type" := EVal (VStr "Num") ]}.
Proof. repeat split. Qed.

(** * Further properties of the methods *)

(** ** Counting children *)

Lemma count_children (P : value → bool) (l : list value) (n : Z) :
  fold_left (λ count child, if P child then count + 1 else count) l n
  = n + Z.of_nat (length (filter (λ child, P child = true) l)).
Proof.
  revert n. induction l as [|x l IH]; intros n; [simpl; lia|].
  simpl. rewrite IH. destruct (P x) eqn:Hx.
  - rewrite filter_cons_True by done. simpl length. lia.
  - rewrite filter_cons_False by by rewrite Hx. lia.
Qed.

(** X1.  [getChildrenLength] counts what [getUnrelatedChildren] collects:
    with the filter (the default) the number of children without relation
    marker, empty slots included; without it every entry of the child
    sequence. *)
Theorem getChildrenLength_spec (h : heap) (self : loc) (nd : node) :
  h !! self = Some nd →
  Node.getChildrenLength h self false = Ok (Z.of_nat (length (kids nd))) ∧
  ∃ unrelated : list value,
    Node.getUnrelatedChildren h self = Ok unrelated ∧
    Node.getChildrenLength h self true = Ok (Z.of_nat (length unrelated)) ∧
    (length unrelated ≤ length (kids nd))%nat.
Proof.
  intros Hs. unfold Node.getChildrenLength, Node.getUnrelatedChildren.
  rewrite Hs. split.
  - simpl. rewrite (count_children (λ _, true)).
    assert (filter (λ _ : value, true = true) (kids nd) = kids nd) as ->.
    { induction (kids nd) as [|x l IH]; [done|].
      rewrite filter_cons_True by done. by rewrite IH. }
    f_equal; lia.
  - eexists. split; [done|]. split; [|apply length_filter].
    simpl. rewrite (count_children (λ child, negb (Py.hasattr h child "rel"))).
    assert (filter (λ child, negb (Py.hasattr h child "rel") = true) (kids nd)
            = filter (λ child, Py.hasattr h child "rel" = false) (kids nd)) as ->.
    { apply list_filter_iff. intros x. by destruct (Py.hasattr h x "rel"). }
    f_equal; lia.
Qed.

(** Two children, the first one related. *)
Lemma getChildrenLength_spec_witness :
  Node.getChildrenLength call_store 0%nat false = Ok 2 ∧
  ∃ unrelated : list value,
    Node.getUnrelatedChildren call_store 0%nat = Ok unrelated ∧
    Node.getChildrenLength call_store 0%nat true
      = Ok (Z.of_nat (length unrelated)) ∧
    (length unrelated ≤ length [VNode 1%nat; VNode 2%nat])%nat.
Proof. apply (getChildrenLength_spec call_store 0%nat _ eq_refl). Defined.

(** ** Appending: errors, empty slots and relations *)

Lemma setattr_other_name h t name v h' x name' :
  Py.setattr h (VNode t) name v = Ok h' → name ≠ name' →
  Py.getattr h' x name' = Py.getattr h x name'.
Proof.
  intros Hset Hne. destruct x as [| | | | |q|]; try done.
  rewrite (getattr_setattr _ _ _ _ _ _ _ Hset).
  by rewrite decide_False by (intros [_ ?]; done).
Qed.

Lemma setattr_lookup_ne h t name v h' q :
  Py.setattr h (VNode t) name v = Ok h' → q ≠ t → h' !! q = h !! q.
Proof.
  unfold Py.setattr. destruct (h !! t) as [nd|] eqn:Ht; [|discriminate].
  destruct (Py.setattr_refused name); [discriminate|].
  intros [= <-] Hq. by apply list_lookup_insert_ne.
Qed.

Lemma falsy_hasattr h v name : Py.truthy v = false → Py.hasattr h v name = false.
Proof. by destruct v. Qed.

Lemma list_append_run {B : Type} self v h' (k : value → M B) h :
  Py.list_append h self v = Ok h' →
  (St.list_append self v ≫= k) h = k VNone h'.
Proof.
  intros Happ. apply bind_Ok. unfold St.list_append.
  by rewrite (bind_Ok _ _ h () h') by (unfold St.write; by rewrite Happ).
Qed.

Lemma St_list_append_Ok self v h h' :
  Py.list_append h self v = Ok h' → St.list_append self v h = (Ok VNone, h').
Proof.
  intros Happ. unfold St.list_append.
  by rewrite (bind_Ok _ _ h () h') by (unfold St.write; by rewrite Happ).
Qed.

(** The unrelated children after an entry without marker was appended, in
    a store where the same values carry a marker. *)
Lemma unrelated_after_append h h' self nd nd' kid :
  h !! self = Some nd →
  h' !! self = Some nd' →
  kids nd' = (kids nd ++ [kid])%list →
  same_markers h h' →
  Py.hasattr h kid "rel" = false →
  Node.getUnrelatedChildren h' self
  = Ok (filter (λ child, Py.hasattr h child "rel" = false) (kids nd) ++ [kid])%list.
Proof.
  intros Hs Hs' Hkids Hm Hkid. unfold Node.getUnrelatedChildren.
  rewrite Hs', Hkids. f_equal. rewrite filter_app.
  rewrite !(list_filter_iff (λ child, Py.hasattr h' child "rel" = false)
              (λ child, Py.hasattr h child "rel" = false))
    by (intros x; by rewrite Hm).
  by rewrite (filter_cons_True _ kid) by done.
Qed.



(** X3.  A child that has a tokenizer cannot be appended to a node that has
    no [start] attribute (a node built without tokenizer): the comparison of
    the starts raises [AttributeError] and the store is left as it was; the
    child is neither attached nor given a parent. *)
Theorem append_spanned_to_plain (h : heap) (self k : loc) (rel : value) :
  is_Some (h !! self) →
  Py.hasattr h (VNode k) "tokenizer" = true →
  Py.hasattr h (VNode self) "start" = false →
  Node.append self (VNode k) rel h = (Raise (AttributeError "start"), h).
Proof.
  intros [nd Hs] Htok Hstart. unfold Node.append.
  cbn [Py.truthy Py.isNode negb]. rewrite ?bind_assoc, hasattr_run, Htok.
  cbv iota. unfold mbind, M_bind, St.getattr, St.read.
  assert (Py.getattr h (VNode self) "start" = Raise (AttributeError "start")) as Hself.
  { unfold Py.hasattr, Py.getattr in *. rewrite Hs in *.
    by destruct (attrs nd !! "start"). }
  destruct (Py.getattr h (VNode k) "start") as [ks|e| |] eqn:Hk.
  - by rewrite Hself.
  - unfold Py.hasattr, Py.getattr in Htok, Hk.
    destruct (h !! k) as [ndk|]; [|done].
    destruct (attrs ndk !! "start"); [done|]. by injection Hk as <-.
  - unfold Py.getattr in Hk. destruct (h !! k) as [ndk|]; [|done].
    by destruct (attrs ndk !! "start").
  - unfold Py.hasattr, Py.getattr in Htok, Hk.
    destruct (h !! k) as [ndk|]; [|done]. by destruct (attrs ndk !! "start").
Qed.

(** A node with a tokenizer appended to a node without any attribute. *)
Lemma append_spanned_to_plain_witness :
  Node.append 0%nat (VNode 1%nat) VNone
    [mkNode ∅ [];
     mkNode {[ "tokenizer" := tokenizer_object VNone 1 "a+b;" "a.js";
               "start" := VInt 0; "end" := VInt 1 ]} []]
  = (Raise (AttributeError "start"),
     [mkNode ∅ [];
      mkNode {[ "tokenizer" := tokenizer_object VNone 1 "a+b;" "a.js";
                "start" := VInt 0; "end" := VInt 1 ]} []]).
Proof. apply append_spanned_to_plain; [by eexists | reflexivity | reflexivity]. Defined.

(** X4.  An empty slot (a false value) offered without relation name is
    appended as it is: the call returns [None], only the child sequence of
    the node changes, the slot is the last unrelated child and the child
    counts, filtered or not, grow by one. *)
Theorem append_empty_slot (h : heap) (self : loc) (nd : node) (kid rel : value) :
  h !! self = Some nd →
  Py.truthy kid = false → Py.truthy rel = false →
  Node.append self kid rel h
    = (Ok VNone, <[self := mkNode (attrs nd) (kids nd ++ [kid])]> h) ∧
  (∀ unrelated,
     Node.getUnrelatedChildren h self = Ok unrelated →
     Node.getUnrelatedChildren
       (<[self := mkNode (attrs nd) (kids nd ++ [kid])]> h) self
     = Ok (unrelated ++ [kid])%list) ∧
  (∀ (filter : bool) (n : Z),
     Node.getChildrenLength h self filter = Ok n →
     Node.getChildrenLength
       (<[self := mkNode (attrs nd) (kids nd ++ [kid])]> h) self filter
     = Ok (n + 1)).
Proof.
  intros Hs Hkid Hrel.
  assert (Py.list_append h self kid
          = Ok (<[self := mkNode (attrs nd) (kids nd ++ [kid])]> h)) as Happ.
  { unfold Py.list_append. by rewrite Hs. }
  assert (<[self := mkNode (attrs nd) (kids nd ++ [kid])]> h !! self
          = Some (mkNode (attrs nd) (kids nd ++ [kid]))) as Hs'.
  { rewrite (lookup_update _ _ nd) by done. by rewrite decide_True. }
  assert (same_markers h (<[self := mkNode (attrs nd) (kids nd ++ [kid])]> h))
    as Hm.
  { intros v. unfold Py.hasattr. by rewrite (list_append_getattr _ _ _ _ _ _ Happ). }
  split; [|split].
  - rewrite append_falsy_unrelated by done. by apply St_list_append_Ok.
  - intros unrelated Hu. unfold Node.getUnrelatedChildren in Hu.
    rewrite Hs in Hu. injection Hu as <-.
    apply (unrelated_after_append h _ self nd _ kid Hs Hs'); try done.
    by apply falsy_hasattr.
  - intros filter n. unfold Node.getChildrenLength. rewrite Hs, Hs'.
    intros [= <-]. f_equal. cbn [kids]. rewrite fold_left_app. simpl.
    rewrite (Hm kid), (falsy_hasattr h kid "rel" Hkid), orb_true_r.
    f_equal.
    rewrite !(count_children (λ child, negb filter || negb (Py.hasattr _ child "rel"))).
    do 3 f_equal. apply list_filter_iff. intros x. by rewrite Hm.
Qed.

(** An empty slot appended to a node that has one related child. *)
Lemma append_empty_slot_witness :
  Node.append 0%nat VNone VNone
    [mkNode {[ "left" := VNode 1%nat ]} [VNode 1%nat];
     mkNode {[ "rel" := VStr "left" ]} []]
  = (Ok VNone,
     <[0%nat := mkNode {[ "left" := VNode 1%nat ]} ([VNode 1%nat] ++ [VNone])]>
       [mkNode {[ "left" := VNode 1%nat ]} [VNode 1%nat];
        mkNode {[ "rel" := VStr "left" ]} []]).
Proof.
  destruct (append_empty_slot
              [mkNode {[ "left" := VNode 1%nat ]} [VNode 1%nat];
               mkNode {[ "rel" := VStr "left" ]} []] 0%nat _ VNone VNone
              eq_refl eq_refl eq_refl) as [Happ _].
  exact Happ.
Defined.

(** What [append] does to a node that has no tokenizer, step by step: the
    parent is assigned, then the relation and the marker when a relation
    name is given, then the list is extended. *)
Lemma append_plain_node_run h self k rel h1 h2 h3 :
  Py.hasattr h (VNode k) "tokenizer" = false →
  Py.setattr h (VNode k) "parent" (VNode self) = Ok h1 →
  (if Py.is_not_None rel
   then ∃ r h', rel = VStr r ∧ Py.setattr h1 (VNode self) r (VNode k) = Ok h' ∧
                Py.setattr h' (VNode k) "rel" rel = Ok h2
   else h2 = h1) →
  Py.list_append h2 self (VNode k) = Ok h3 →
  Node.append self (VNode k) rel h = (Ok VNone, h3).
Proof.
  intros Htok H1 H2 H3. unfold Node.append.
  cbn [Py.truthy Py.isNode negb andb]. rewrite ?bind_assoc, hasattr_run, Htok.
  cbv iota. rewrite ?bind_assoc, ret_run, ?bind_assoc.
  rewrite (setattr_run (VNode k) "parent" (VNode self) h1 _ h H1).
  destruct (Py.is_not_None rel).
  - destruct H2 as (r & h' & -> & Hr & Hm).
    rewrite ?bind_assoc, (setattr_dyn_run (VNode self) r (VNode k) h' _ h1 Hr).
    rewrite (setattr_run (VNode k) "rel" (VStr r) h2 _ h' Hm).
    by apply St_list_append_Ok.
  - subst h2. rewrite ret_run. by apply St_list_append_Ok.
Qed.

(** X5.  Appending a node without tokenizer under a relation name [r] that
    can be assigned: the call returns [None]; the node is the last child;
    the attribute [r] of the receiver refers to it; it is marked as related
    under [r] and has the receiver as parent; no other object changes; and
    the unrelated children of the receiver are the same as before. *)
Theorem append_related_node (h : heap) (self k : loc) (nd : node) (r : string) :
  h !! self = Some nd → is_Some (h !! k) → self ≠ k →
  Py.hasattr h (VNode k) "tokenizer" = false →
  Py.setattr_refused r = None →
  VNode k ∉ kids nd → VNode self ∉ kids nd →
  ∃ (h' : heap) (nd' : node),
    Node.append self (VNode k) (VStr r) h = (Ok VNone, h') ∧
    h' !! self = Some nd' ∧
    kids nd' = (kids nd ++ [VNode k])%list ∧
    attrs nd' !! r = Some (VNode k) ∧
    Py.getattr h' (VNode k) "rel" = Ok (VStr r) ∧
    Py.getattr h' (VNode k) "parent" = Ok (VNode self) ∧
    (∀ q, q ≠ self → q ≠ k → h' !! q = h !! q) ∧
    Node.getUnrelatedChildren h' self = Node.getUnrelatedChildren h self.
Proof.
  intros Hs Hk Hne Htok Hr Hknew Hsnew.
  destruct (setattr_Ok h k "parent" (VNode self) Hk eq_refl) as [h1 H1].
  pose proof (setattr_same_kids _ _ _ _ _ H1) as Hk1.
  destruct (setattr_Ok h1 self r (VNode k)) as [h2 H2];
    [eapply same_kids_is_Some; [done | by eexists] | done |].
  pose proof (setattr_same_kids _ _ _ _ _ H2) as Hk2.
  destruct (setattr_Ok h2 k "rel" (VStr r)) as [h3 H3];
    [do 2 (eapply same_kids_is_Some; [done|]); done | done |].
  pose proof (setattr_same_kids _ _ _ _ _ H3) as Hk3.
  assert (same_kids h h3) as Hk03 by (etrans; [|etrans]; done).
  destruct (Py.list_append h3 self (VNode k)) as [h4| | |] eqn:H4.
  2-4: unfold Py.list_append in H4;
       destruct (same_kids_is_Some h h3 self Hk03) as [nd3 Hnd3];
         [by eexists | by rewrite Hnd3 in H4].
  destruct (list_append_extends h h3 self (VNode k) h4 Hk03 H4)
    as (nd0 & nd' & Hs0 & Hs' & Hkids).
  rewrite Hs in Hs0. injection Hs0 as <-.
  assert (Py.getattr h4 (VNode self) r = Ok (VNode k)) as Hrel.
  { rewrite (list_append_getattr _ _ _ _ _ _ H4).
    rewrite (getattr_setattr _ _ _ _ _ _ _ H3).
    rewrite decide_False by (intros [? _]; done).
    rewrite (getattr_setattr _ _ _ _ _ _ _ H2). by rewrite decide_True. }
  exists h4, nd'. split; [|split; [done|split; [done|split; [|split; [|split; [|split]]]]]].
  - apply (append_plain_node_run h self k (VStr r) h1 h3 h4); try done.
    by exists r, h2.
  - apply getattr_Ok_lookup in Hrel as (nd'' & Hs'' & Hrel). congruence.
  - rewrite (list_append_getattr _ _ _ _ _ _ H4).
    rewrite (getattr_setattr _ _ _ _ _ _ _ H3). by rewrite decide_True.
  - rewrite (list_append_getattr _ _ _ _ _ _ H4).
    rewrite (setattr_other_name _ _ _ _ _ _ "parent" H3) by done.
    rewrite (getattr_setattr _ _ _ _ _ _ _ H2).
    rewrite decide_False by (intros [? _]; done).
    rewrite (getattr_setattr _ _ _ _ _ _ _ H1). by rewrite decide_True.
  - intros q Hqs Hqk.
    destruct (list_append_lookup _ _ _ _ q H4) as (nd3 & _ & ->).
    rewrite decide_False by done.
    rewrite (setattr_lookup_ne _ _ _ _ _ _ H3) by done.
    rewrite (setattr_lookup_ne _ _ _ _ _ _ H2) by done.
    by rewrite (setattr_lookup_ne _ _ _ _ _ _ H1) by done.
  - unfold Node.getUnrelatedChildren. rewrite Hs, Hs', Hkids. f_equal.
    rewrite filter_app, filter_cons_False, filter_nil, app_nil_r.
    2:{ unfold Py.hasattr. rewrite (list_append_getattr _ _ _ _ _ _ H4).
        rewrite (getattr_setattr _ _ _ _ _ _ _ H3). by rewrite decide_True. }
    assert (∀ x, x ∈ kids nd →
              Py.hasattr h4 x "rel" = Py.hasattr h x "rel") as Hm.
    { intros x Hx. unfold Py.hasattr.
      rewrite (list_append_getattr _ _ _ _ _ _ H4).
      destruct x as [| | | | |q|]; try done.
      rewrite (getattr_setattr _ _ _ _ _ _ _ H3).
      rewrite decide_False by (intros [-> _]; done).
      rewrite (getattr_setattr _ _ _ _ _ _ _ H2).
      rewrite decide_False by (intros [-> _]; done).
      by rewrite (setattr_other_name _ _ _ _ _ _ "rel" H1). }
    clear -Hm. induction (kids nd) as [|x l IH]; [done|].
    rewrite !filter_cons, (Hm x) by by left.
    rewrite IH; [done|]. intros y Hy. apply Hm. by right.
Qed.

(** The first child of a childless node, appended under [left]. *)
Lemma append_related_node_witness :
  ∃ (h' : heap) (nd' : node),
    Node.append 0%nat (VNode 1%nat) (VStr "left") [mkNode ∅ []; mkNode ∅ []]
      = (Ok VNone, h') ∧
    h' !! 0%nat = Some nd' ∧
    kids nd' = ([] ++ [VNode 1%nat])%list ∧
    attrs nd' !! "left" = Some (VNode 1%nat) ∧
    Py.getattr h' (VNode 1%nat) "rel" = Ok (VStr "left") ∧
    Py.getattr h' (VNode 1%nat) "parent" = Ok (VNode 0%nat) ∧
    (∀ q, q ≠ 0%nat → q ≠ 1%nat → h' !! q = [mkNode ∅ []; mkNode ∅ []] !! q) ∧
    Node.getUnrelatedChildren h' 0%nat
      = Node.getUnrelatedChildren [mkNode ∅ []; mkNode ∅ []] 0%nat.
Proof.
  apply (append_related_node [mkNode ∅ []; mkNode ∅ []] 0%nat 1%nat (mkNode ∅ []));
    first [done | by eexists | apply not_elem_of_nil].
Defined.

(** X6.  Appending, without relation name, a node that has neither tokenizer
    nor relation marker: the call returns [None]; the node is the last child
    and the last unrelated child; it has the receiver as parent; no other
    object changes. *)
Theorem append_unrelated_node (h : heap) (self k : loc) (nd : node) :
  h !! self = Some nd → is_Some (h !! k) →
  Py.hasattr h (VNode k) "tokenizer" = false →
  Py.hasattr h (VNode k) "rel" = false →
  ∃ (h' : heap) (nd' : node),
    Node.append self (VNode k) VNone h = (Ok VNone, h') ∧
    h' !! self = Some nd' ∧
    kids nd' = (kids nd ++ [VNode k])%list ∧
    Py.getattr h' (VNode k) "parent" = Ok (VNode self) ∧
    (∀ q, q ≠ self → q ≠ k → h' !! q = h !! q) ∧
    (∀ unrelated,
       Node.getUnrelatedChildren h self = Ok unrelated →
       Node.getUnrelatedChildren h' self = Ok (unrelated ++ [VNode k])%list).
Proof.
  intros Hs Hk Htok Hrel.
  destruct (setattr_Ok h k "parent" (VNode self) Hk eq_refl) as [h1 H1].
  pose proof (setattr_same_kids _ _ _ _ _ H1) as Hk1.
  destruct (Py.list_append h1 self (VNode k)) as [h2| | |] eqn:H2.
  2-4: unfold Py.list_append in H2;
       destruct (same_kids_is_Some h h1 self Hk1) as [nd1 Hnd1];
         [by eexists | by rewrite Hnd1 in H2].
  destruct (list_append_extends h h1 self (VNode k) h2 Hk1 H2)
    as (nd0 & nd' & Hs0 & Hs' & Hkids).
  rewrite Hs in Hs0. injection Hs0 as <-.
  exists h2, nd'. split; [|split; [done|split; [done|split; [|split]]]].
  - by apply (append_plain_node_run h self k VNone h1 h1 h2).
  - rewrite (list_append_getattr _ _ _ _ _ _ H2).
    rewrite (getattr_setattr _ _ _ _ _ _ _ H1). by rewrite decide_True.
  - intros q Hqs Hqk.
    destruct (list_append_lookup _ _ _ _ q H2) as (nd1 & _ & ->).
    rewrite decide_False by done.
    by rewrite (setattr_lookup_ne _ _ _ _ _ _ H1) by done.
  - intros unrelated Hu. unfold Node.getUnrelatedChildren in Hu.
    rewrite Hs in Hu. injection Hu as <-.
    apply (unrelated_after_append h h2 self nd nd' (VNode k)); try done.
    intros v. unfold Py.hasattr.
    rewrite (list_append_getattr _ _ _ _ _ _ H2).
    by rewrite (setattr_other_name _ _ _ _ _ _ "rel" H1).
Qed.

(** A childless node appended to a node that has a related child. *)
Lemma append_unrelated_node_witness :
  ∃ (h' : heap) (nd' : node),
    Node.append 0%nat (VNode 2%nat) VNone
      [mkNode {[ "left" := VNode 1%nat ]} [VNode 1%nat];
       mkNode {[ "rel" := VStr "left" ]} []; mkNode ∅ []]
      = (Ok VNone, h') ∧
    h' !! 0%nat = Some nd' ∧
    kids nd' = ([VNode 1%nat] ++ [VNode 2%nat])%list ∧
    Py.getattr h' (VNode 2%nat) "parent" = Ok (VNode 0%nat) ∧
    (∀ q, q ≠ 0%nat → q ≠ 2%nat →
          h' !! q = [mkNode {[ "left" := VNode 1%nat ]} [VNode 1%nat];
                     mkNode {[ "rel" := VStr "left" ]} []; mkNode ∅ []] !! q) ∧
    (∀ unrelated,
       Node.getUnrelatedChildren
         [mkNode {[ "left" := VNode 1%nat ]} [VNode 1%nat];
          mkNode {[ "rel" := VStr "left" ]} []; mkNode ∅ []] 0%nat = Ok unrelated →
       Node.getUnrelatedChildren h' 0%nat = Ok (unrelated ++ [VNode 2%nat])%list).
Proof.
  apply (append_unrelated_node
           [mkNode {[ "left" := VNode 1%nat ]} [VNode 1%nat];
            mkNode {[ "rel" := VStr "left" ]} []; mkNode ∅ []] 0%nat 2%nat
           (mkNode {[ "left" := VNode 1%nat ]} [VNode 1%nat]));
    first [done | by eexists].
Defined.

(** A node spanning 4 to 6 gets a child spanning 2 to 5. *)
Lemma append_span_numbers_witness :
  ∃ h', Node.append 0%nat (VNode 1%nat) VNone
          [mkNode {[ "start" := VInt 4; "end" := VInt 6 ]} [];
           mkNode {[ "tokenizer" := tokenizer_object VNone 1 "a+b+c;" "a.js";
                     "start" := VInt 2; "end" := VInt 5 ]} []]
        = (Ok VNone, h') ∧
    Py.getattr h' (VNode 0%nat) "start" = Ok (VInt (Z.min 4 2)) ∧
    Py.getattr h' (VNode 0%nat) "end" = Ok (VInt (Z.max 6 5)) ∧
    (4 ≤ 6 → 2 ≤ 5 → Z.min 4 2 ≤ Z.max 6 5).
Proof.
  by apply (append_span_numbers
              [mkNode {[ "start" := VInt 4; "end" := VInt 6 ]} [];
               mkNode {[ "tokenizer" := tokenizer_object VNone 1 "a+b+c;" "a.js";
                         "start" := VInt 2; "end" := VInt 5 ]} []]
              0%nat 1%nat (tokenizer_object VNone 1 "a+b+c;" "a.js") 4 6 2 5).
Defined.

(** ** Replacing: what a call that returns has done, and how it fails *)

Lemma list_index_Ok_inv fuel h (l : list value) v (k j : nat) :
  Py.list_index fuel h l v k = Ok j →
  ∃ (i : nat) (x : value),
    j = (k + i)%nat ∧ l !! i = Some x ∧ Py.eq fuel h x v = Ok true ∧
    ∀ i' y, (i' < i)%nat → l !! i' = Some y → Py.eq fuel h y v = Ok false.
Proof.
  revert k. induction l as [|y l IH]; intros k; [done|].
  simpl. destruct (Py.eq fuel h y v) as [[]| | |] eqn:Hy; try done; simpl.
  - intros [= <-]. exists 0%nat, y.
    split; [lia|]. split; [done|]. split; [done|].
    intros i' z Hi'. lia.
  - intros (i & x & -> & Hi & Hx & Hbefore)%IH.
    exists (S i), x.
    split; [lia|]. split; [done|]. split; [done|].
    intros [|i'] z Hi' Hz; [by injection Hz as <- |].
    apply (Hbefore i'); [lia | done].
Qed.

Lemma index_Ok_inv fuel h self v (i : nat) :
  Node.index fuel h self v = Ok i →
  ∃ (nd : node) (x : value),
    h !! self = Some nd ∧ attrs nd !! "index" = None ∧
    kids nd !! i = Some x ∧ Py.eq fuel h x v = Ok true ∧
    ∀ i' y, (i' < i)%nat → kids nd !! i' = Some y → Py.eq fuel h y v = Ok false.
Proof.
  unfold Node.index, Py.method. destruct (h !! self) as [nd|] eqn:Hs; [|done].
  destruct (attrs nd !! "index") as [[]|] eqn:Hindex; try done.
  cbn [mbind outcome_bind].
  destruct (Py.list_index fuel h (kids nd) v 0) as [j|[]| |] eqn:Hfound; try done.
  - intros [= ->].
    apply list_index_Ok_inv in Hfound as (i' & x & -> & Hi & Hx & Hbefore).
    by exists nd, x.
  - by destruct (Node.repr fuel h v).
Qed.

(** X7.  Whenever [replace] returns, it returns its first argument, and the
    child sequence differs from the former one at exactly one index, which
    now holds the replacement: the index of the first child that compares
    equal ([==]) to the first argument.  The number of children is
    unchanged. *)
Theorem replace_returns (fuel : nat) (h : heap) (self : loc) (kid repl : value)
    (ret : value) (h' : heap) :
  Node.replace fuel self kid repl h = (Ok ret, h') →
  ret = kid ∧
  ∃ (nd nd' : node) (i : nat) (x : value),
    h !! self = Some nd ∧ h' !! self = Some nd' ∧
    kids nd !! i = Some x ∧ Py.eq fuel h x kid = Ok true ∧
    (∀ j y, (j < i)%nat → kids nd !! j = Some y → Py.eq fuel h y kid = Ok false) ∧
    kids nd' = <[i := repl]> (kids nd) ∧
    length (kids nd') = length (kids nd).
Proof.
  unfold Node.replace, St.list_setitem, St.hasattr.
  intros (i & h0 & [Hindex ->]%read_Ok_inv & Hrest)%bind_Ok_inv.
  apply bind_Ok_inv in Hrest as (u & h1 & Hset%write_Ok_inv & Hrest).
  apply bind_Ok_inv in Hrest as (related & h1' & [_ ->]%read_Ok_inv & Hrest).
  apply bind_Ok_inv in Hrest as (u' & h2 & Hmark & [-> ->]%ret_Ok_inv).
  split; [done|].
  apply index_Ok_inv in Hindex as (nd & x & Hs & _ & Hi & Hx & Hbefore).
  rename i into i'.
  unfold Py.list_setitem in Hset. rewrite Hs in Hset. injection Hset as <-.
  assert (same_kids (<[self := mkNode (attrs nd) (<[i' := repl]> (kids nd))]> h) h2)
    as Hk.
  { refine ((_ : preserves same_kids _) _ u' h2 Hmark).
    unfold St.getattr, St.setattr, St.setattr_dyn.
    repeat first
      [ apply preserves_if
      | apply preserves_bind; [apply _ | | intros ?]
      | apply preserves_ret; apply _
      | apply preserves_read; apply _
      | apply preserves_write; intros ? ?;
        first [apply setattr_same_kids | apply setattr_dyn_same_kids] ]. }
  specialize (Hk self). rewrite (lookup_update _ _ nd) in Hk by done.
  rewrite decide_True in Hk by done.
  destruct (h2 !! self) as [nd'|] eqn:Hs'; [|done]. injection Hk as Hk.
  exists nd, nd', i', x. simpl in Hk.
  split; [done|]. split; [done|]. split; [done|]. split; [done|].
  split; [done|]. split; [done|]. by rewrite <- Hk, length_insert.
Qed.

(** The related child of [call_store] replaced by the other child. *)
Lemma replace_returns_witness :
  VNode 1%nat = VNode 1%nat ∧
  ∃ (nd nd' : node) (i : nat) (x : value),
    call_store !! 0%nat = Some nd ∧
    (Node.replace 1 0%nat (VNode 1%nat) (VNode 2%nat) call_store).2 !! 0%nat
      = Some nd' ∧
    kids nd !! i = Some x ∧ Py.eq 1 call_store x (VNode 1%nat) = Ok true ∧
    (∀ j y, (j < i)%nat → kids nd !! j = Some y →
            Py.eq 1 call_store y (VNode 1%nat) = Ok false) ∧
    kids nd' = <[i := VNode 2%nat]> (kids nd) ∧
    length (kids nd') = length (kids nd).
Proof.
  apply (replace_returns 1 call_store 0%nat (VNode 1%nat) (VNode 2%nat)
           (VNode 1%nat)
           (Node.replace 1 0%nat (VNode 1%nat) (VNode 2%nat) call_store).2).
  vm_compute. reflexivity.
Defined.

(** A node whose only child is an empty slot; a [Num] node is looked for. *)
Lemma replace_no_equal_child_witness :
  Node.replace 1 0%nat (VNode 1%nat) (VNode 1%nat)
    [mkNode ∅ [VNone]; mkNode {[ "type" := VStr "Num" ]} []]
  = (Raise ValueError, [mkNode ∅ [VNone]; mkNode {[ "type" := VStr "Num" ]} []]).
Proof.
  apply (replace_no_equal_child 1
           [mkNode ∅ [VNone]; mkNode {[ "type" := VStr "Num" ]} []] 0%nat
           (mkNode ∅ [VNone])); [done | done | | vm_compute; reflexivity].
  by repeat constructor.
Defined.



(** ** Building nodes *)

Lemma lookup_new (h : heap) (nd : node) : (h ++ [nd])%list !! length h = Some nd.
Proof. by apply list_lookup_middle. Qed.

Lemma lookup_old (h : heap) (nd : node) (q : loc) :
  (q < length h)%nat → (h ++ [nd])%list !! q = h !! q.
Proof. apply lookup_app_l. Qed.

Lemma setattr_new (h : heap) (nd : node) (name : string) (v : value) :
  Py.setattr_refused name = None →
  Py.setattr (h ++ [nd]) (VNode (length h)) name v
  = Ok (h ++ [mkNode (<[name := v]> (attrs nd)) (kids nd)])%list.
Proof.
  intros Hname. unfold Py.setattr. rewrite lookup_new, Hname. f_equal.
  rewrite insert_app_r_alt by done. by rewrite Nat.sub_diag.
Qed.

Lemma getattr_new (h : heap) (nd : node) (name : string) :
  Py.getattr (h ++ [nd]) (VNode (length h)) name
  = match attrs nd !! name with
    | Some x => Ok x
    | None => Raise (AttributeError name)
    end.
Proof. unfold Py.getattr. by rewrite lookup_new. Qed.

Lemma setattr_new_run {B : Type} (h : heap) (nd : node) (name : string)
    (v : value) (k : () → M B) :
  Py.setattr_refused name = None →
  (St.setattr (VNode (length h)) name v ≫= k) (h ++ [nd])%list
  = k () (h ++ [mkNode (<[name := v]> (attrs nd)) (kids nd)])%list.
Proof. intros Hname. apply setattr_run. by apply setattr_new. Qed.

Lemma substring_all (s : string) : substring 0 (String.length s) s = s.
Proof. induction s as [|c s IH]; [done|]. simpl. by rewrite IH. Qed.

(** X10.  A node built from a tokenizer that has a current token takes its
    line and its offsets from the token, and its type from the token unless
    a type is given; it keeps the tokenizer, so that [getSource] returns the
    source text between the offsets of the token and [getFileName] the file
    name of the tokenizer.  The objects of the store are left alone. *)
Theorem init_from_token (h : heap) (token_type : string) (line s e : Z)
    (tokenizer_line : Z) (src filename : string) (type : value) :
  0 ≤ s → 0 ≤ e →
  ∃ h' : heap,
    Node.init
      (tokenizer_object (token_object token_type line s e)
                        tokenizer_line src filename)
      type [] h
    = (Ok (length h), h') ∧
    (∀ q, (q < length h)%nat → h' !! q = h !! q) ∧
    Py.getattr h' (VNode (length h)) "type"
      = Ok (if Py.truthy type then type else VStr token_type) ∧
    Py.getattr h' (VNode (length h)) "line" = Ok (VInt line) ∧
    Py.getattr h' (VNode (length h)) "start" = Ok (VInt s) ∧
    Py.getattr h' (VNode (length h)) "end" = Ok (VInt e) ∧
    Node.getUnrelatedChildren h' (length h) = Ok [] ∧
    Node.getSource h' (length h)
      = Ok (VStr (substring (Z.to_nat s) (Z.to_nat e - Z.to_nat s) src)) ∧
    Node.getFileName h' (length h) = Ok (VStr filename).
Proof.
  intros Hs He. eexists. split.
  - unfold Node.init, St.new. unfold mbind at 1, M_bind at 1.
    cbn [Py.truthy tokenizer_object token_object].
    rewrite ?bind_assoc.
    rewrite (getattr_run _ "token" (token_object token_type line s e))
      by reflexivity.
    cbn [Py.truthy token_object]. rewrite ?bind_assoc.
    unfold St.getattr_default at 1, St.read at 1.
    unfold mbind at 1, M_bind at 1. rewrite ?bind_assoc.
    rewrite setattr_new_run by done. cbv beta. rewrite ?bind_assoc.
    rewrite (getattr_run _ "line" (VInt line)) by reflexivity. cbv beta. rewrite ?bind_assoc.
    rewrite setattr_new_run by done. cbv beta. rewrite ?bind_assoc.
    rewrite (getattr_run _ "start" (VInt s)) by reflexivity. cbv beta. rewrite ?bind_assoc.
    rewrite setattr_new_run by done. cbv beta. rewrite ?bind_assoc.
    rewrite (getattr_run _ "end" (VInt e)) by reflexivity. cbv beta. rewrite ?bind_assoc.
    rewrite setattr_new_run by done. cbv beta. rewrite ?bind_assoc.
    rewrite setattr_new_run by done. cbv beta.
    reflexivity.
  - cbn [attrs kids].
    split; [intros q Hq; by rewrite lookup_old|].
    rewrite !getattr_new. cbn [attrs].
    split; [by simplify_map_eq|]. split; [by simplify_map_eq|].
    split; [by simplify_map_eq|]. split; [by simplify_map_eq|].
    split; [unfold Node.getUnrelatedChildren; by rewrite lookup_new|].
    split.
    + transitivity (Py.getslice (VStr src) (VInt s) (VInt e)).
      { unfold Node.getSource, Py.getattr_default. rewrite !getattr_new.
        cbn [attrs]. by simplify_map_eq. }
      apply getslice_clip.
      * apply (slice_bound_offset _ 0%nat (Some (VInt s))); [|lia].
        simpl. by destruct (0 <=? s) eqn:E; [|lia].
      * apply (slice_bound_offset _ _ (Some (VInt e))); [|lia].
        simpl. by destruct (0 <=? e) eqn:E; [|lia].
    + unfold Node.getFileName. rewrite !getattr_new.
      cbn [attrs]. by simplify_map_eq.
Qed.

(** The node built from the token [b] of the source "a+b;". *)
Lemma init_from_token_witness :
  ∃ h' : heap,
    Node.init
      (tokenizer_object (token_object "Identifier" 1 2 3) 1 "a+b;" "a.js")
      VNone [] []
    = (Ok (length ([] : heap)), h') ∧
    (∀ q, (q < length ([] : heap))%nat → h' !! q = ([] : heap) !! q) ∧
    Py.getattr h' (VNode (length ([] : heap))) "type"
      = Ok (if Py.truthy VNone then VNone else VStr "Identifier") ∧
    Py.getattr h' (VNode (length ([] : heap))) "line" = Ok (VInt 1) ∧
    Py.getattr h' (VNode (length ([] : heap))) "start" = Ok (VInt 2) ∧
    Py.getattr h' (VNode (length ([] : heap))) "end" = Ok (VInt 3) ∧
    Node.getUnrelatedChildren h' (length ([] : heap)) = Ok [] ∧
    Node.getSource h' (length ([] : heap))
      = Ok (VStr (substring (Z.to_nat 2) (Z.to_nat 3 - Z.to_nat 2) "a+b;")) ∧
    Node.getFileName h' (length ([] : heap)) = Ok (VStr "a.js").
Proof. apply (init_from_token [] "Identifier" 1 2 3 1 "a+b;" "a.js" VNone); lia. Defined.

(** X11.  A node built from a tokenizer that has no current token has the
    type it was given (also when that is [None]), the line of the tokenizer,
    and [None] as start and end; [getSource] returns the whole source text
    and [getFileName] the file name of the tokenizer. *)
Theorem init_without_token (h : heap) (tokenizer_line : Z)
    (src filename : string) (type : value) :
  ∃ h' : heap,
    Node.init (tokenizer_object VNone tokenizer_line src filename) type [] h
    = (Ok (length h), h') ∧
    (∀ q, (q < length h)%nat → h' !! q = h !! q) ∧
    Py.getattr h' (VNode (length h)) "type" = Ok type ∧
    Py.getattr h' (VNode (length h)) "line" = Ok (VInt tokenizer_line) ∧
    Py.getattr h' (VNode (length h)) "start" = Ok VNone ∧
    Py.getattr h' (VNode (length h)) "end" = Ok VNone ∧
    Node.getSource h' (length h) = Ok (VStr src) ∧
    Node.getFileName h' (length h) = Ok (VStr filename).
Proof.
  eexists. split.
  - unfold Node.init, St.new. unfold mbind at 1, M_bind at 1.
    cbn [Py.truthy tokenizer_object]. rewrite ?bind_assoc.
    rewrite (getattr_run _ "token" VNone) by reflexivity.
    cbv beta. cbn [Py.truthy]. rewrite ?bind_assoc.
    rewrite setattr_new_run by done. cbv beta. rewrite ?bind_assoc.
    rewrite (getattr_run _ "line" (VInt tokenizer_line)) by reflexivity.
    cbv beta. rewrite ?bind_assoc.
    rewrite setattr_new_run by done. cbv beta. rewrite ?bind_assoc.
    rewrite setattr_new_run by done. cbv beta. rewrite ?bind_assoc.
    rewrite setattr_new_run by done. cbv beta. rewrite ?bind_assoc.
    rewrite setattr_new_run by done. cbv beta.
    reflexivity.
  - cbn [attrs kids].
    split; [intros q Hq; by rewrite lookup_old|].
    rewrite !getattr_new. cbn [attrs].
    split; [by simplify_map_eq|]. split; [by simplify_map_eq|].
    split; [by simplify_map_eq|]. split; [by simplify_map_eq|].
    split.
    + transitivity (Py.getslice (VStr src) VNone VNone).
      { unfold Node.getSource, Py.getattr_default. rewrite !getattr_new.
        cbn [attrs]. by simplify_map_eq. }
      unfold Py.getslice. simpl.
      by rewrite Z.sub_0_r, Nat2Z.id, substring_all.
    + unfold Node.getFileName. rewrite !getattr_new.
      cbn [attrs]. by simplify_map_eq.
Qed.

(** X12.  A node built without tokenizer has no attribute but its type (and
    none at all when no type is given): it has no offsets, and both
    [getSource] and [getFileName] raise [AttributeError] on its missing
    tokenizer. *)
Theorem init_without_tokenizer (h : heap) (type : value) :
  ∃ h' : heap,
    Node.init VNone type [] h = (Ok (length h), h') ∧
    h' = (h ++ [mkNode (if Py.truthy type then {[ "type" := type ]} else ∅) []])%list ∧
    Py.hasattr h' (VNode (length h)) "start" = false ∧
    Py.hasattr h' (VNode (length h)) "end" = false ∧
    Node.getSource h' (length h) = Raise (AttributeError "tokenizer") ∧
    Node.getFileName h' (length h) = Raise (AttributeError "tokenizer").
Proof.
  eexists. split; [|split; [reflexivity|]].
  - unfold Node.init, St.new. unfold mbind at 1, M_bind at 1.
    cbn [Py.truthy]. destruct (Py.truthy type).
    + rewrite ?bind_assoc, setattr_new_run by done. reflexivity.
    + reflexivity.
  - unfold Py.hasattr, Node.getSource, Node.getFileName. rewrite !getattr_new.
    cbn [attrs]. destruct (Py.truthy type); by simplify_map_eq.
Qed.

#[global] Instance keeps_parent_refl self q : Reflexive (keeps_parent self q).
Proof. intros h Hp. exact Hp. Qed.

#[global] Instance keeps_parent_trans self q : Transitive (keeps_parent self q).
Proof. intros h1 h2 h3 H12 H23 Hp. by apply H23, H12. Qed.

Lemma setattr_keeps_parent self q h target name v h' :
  Py.setattr h target name v = Ok h' →
  name ≠ "parent" ∨ v = VNode self →
  keeps_parent self q h h'.
Proof.
  intros Hset Hname Hp. destruct target as [| | | | |t|]; try done.
  rewrite (getattr_setattr _ _ _ _ _ _ _ Hset).
  case_decide as Hd; [|done]. destruct Hd as [_ Hn].
  by destruct Hname as [Hne | ->].
Qed.

(** One [append] without relation name: children and parents. *)
Lemma append_unrelated_inv self kid h ret h' :
  Node.append self kid VNone h = (Ok ret, h') →
  (∃ nd nd', h !! self = Some nd ∧ h' !! self = Some nd' ∧
             kids nd' = (kids nd ++ [kid])%list) ∧
  (∀ q, q ≠ self → kids <$> h' !! q = kids <$> h !! q) ∧
  (∀ q, keeps_parent self q h h').
Proof.
  intros Happ. split; [|split].
  - apply append_same_kids in Happ as (h1 & Hk & Hpost & _).
    rewrite andb_false_r in Hpost.
    apply St_list_append_inv in Hpost as [_ Hpost].
    by eapply list_append_extends.
  - intros q Hq.
    apply append_same_kids in Happ as (h1 & Hk & Hpost & _).
    rewrite andb_false_r in Hpost.
    apply St_list_append_inv in Hpost as [_ Hpost].
    destruct (list_append_lookup _ _ _ _ q Hpost) as (nd1 & _ & ->).
    rewrite decide_False by done. by rewrite Hk.
  - intros q. revert Happ. unfold Node.append.
    cbn [Py.is_not_None Py.truthy andb].
    rewrite andb_false_r.
    refine ((_ : preserves (keeps_parent self q) _) h ret h').
    unfold St.getattr, St.hasattr, St.lt, St.setattr, St.list_append.
    repeat first
      [ apply preserves_if
      | apply preserves_bind; [apply _ | | intros ?]
      | apply preserves_ret; apply _
      | apply preserves_read; apply _
      | apply preserves_raise
      | apply preserves_write; intros ? ? ?;
        first
          [ eapply setattr_keeps_parent; [eassumption|];
            first [left; discriminate | right; reflexivity]
          | intros ?; by erewrite list_append_getattr ] ].
Qed.

(** The loop of the constructor: the arguments become the last children, in
    order, and every node among them has the receiver as parent. *)
Lemma append_all_inv self (args : list value) h u h' :
  is_Some (h !! self) →
  Node.append_all self args h = (Ok u, h') →
  (∃ nd nd', h !! self = Some nd ∧ h' !! self = Some nd' ∧
             kids nd' = (kids nd ++ args)%list) ∧
  (∀ q, q ≠ self → kids <$> h' !! q = kids <$> h !! q) ∧
  (∀ q, keeps_parent self q h h') ∧
  (∀ k, VNode k ∈ args → Py.getattr h' (VNode k) "parent" = Ok (VNode self)).
Proof.
  revert h. induction args as [|arg args IH]; intros h [nd Hs].
  - intros [_ ->]%ret_Ok_inv. split; [|split; [done|split; [done|]]].
    + exists nd, nd. by rewrite app_nil_r.
    + intros k Hk. by apply elem_of_nil in Hk.
  - cbn [Node.append_all].
    intros (ret & h1 & Happ & Hrest)%bind_Ok_inv.
    pose proof (append_unrelated_inv _ _ _ _ _ Happ)
      as ((nd0 & nd1 & Hs0 & Hs1 & Hkids1) & Hothers1 & Hparent1).
    destruct (IH h1 (ex_intro _ nd1 Hs1) Hrest)
      as ((nd1' & nd' & Hs1' & Hs' & Hkids) & Hothers & Hparent & Hargs).
    rewrite Hs1 in Hs1'. injection Hs1' as <-.
    split; [|split; [|split]].
    + exists nd0, nd'. split; [done|]. split; [done|].
      by rewrite Hkids, Hkids1, <- app_assoc.
    + intros q Hq. by rewrite Hothers, Hothers1.
    + intros q. etrans; [apply Hparent1 | apply Hparent].
    + intros k [Heq|Hk]%elem_of_cons; [|by apply Hargs].
      subst arg. apply Hparent. by eapply append_node_parent.
Qed.

(** X13.  Whenever the constructor returns, the new node is a new object
    whose children are the given arguments, in their order; every node among
    them has the new node as parent; and the objects that were there keep
    their children. *)
Theorem init_children (h : heap) (tokenizer type : value) (args : list value)
    (self : loc) (h' : heap) :
  Node.init tokenizer type args h = (Ok self, h') →
  self = length h ∧ h !! self = None ∧
  (∃ nd', h' !! self = Some nd' ∧ kids nd' = args) ∧
  (∀ k, VNode k ∈ args → Py.getattr h' (VNode k) "parent" = Ok (VNode self)) ∧
  (∀ q, (q < length h)%nat → kids <$> h' !! q = kids <$> h !! q).
Proof.
  unfold Node.init.
  intros (self0 & h0 & Hnew & Hrest)%bind_Ok_inv.
  unfold St.new in Hnew. injection Hnew as <- <-.
  apply bind_Ok_inv in Hrest as (u & h1 & Hsetup & Hrest).
  apply bind_Ok_inv in Hrest as (u' & h2 & Hloop & [-> ->]%ret_Ok_inv).
  assert (same_kids (h ++ [mkNode ∅ []]) h1) as Hk.
  { refine ((_ : preserves same_kids _) _ u h1 Hsetup).
    unfold St.getattr, St.getattr_default, St.setattr.
    repeat first
      [ apply preserves_if
      | apply preserves_bind; [apply _ | | intros ?]
      | apply preserves_ret; apply _
      | apply preserves_read; apply _
      | apply preserves_write; intros ? ?; apply setattr_same_kids ]. }
  assert (is_Some (h1 !! length h)) as Hs1.
  { eapply same_kids_is_Some; [done|]. rewrite lookup_new. by eexists. }
  destruct (append_all_inv _ _ _ _ _ Hs1 Hloop)
    as ((nd1 & nd' & Hnd1 & Hnd' & Hkids) & Hothers & _ & Hargs).
  split; [done|]. split; [by apply lookup_ge_None|].
  split; [|split; [done|]].
  - exists nd'. split; [done|].
    specialize (Hk (length h)). rewrite lookup_new, Hnd1 in Hk.
    injection Hk as Hk. by rewrite Hkids, <- Hk.
  - intros q Hq. rewrite Hothers by lia. rewrite <- Hk. by rewrite lookup_old.
Qed.

(** An array literal with an elision and a number. *)
Lemma init_children_witness :
  1%nat = length [mkNode {[ "type" := VStr "Num" ]} []] ∧
  [mkNode {[ "type" := VStr "Num" ]} []] !! 1%nat = None ∧
  (∃ nd',
     (Node.init VNone (VStr "ArrayLit") [VNone; VNode 0%nat]
        [mkNode {[ "type" := VStr "Num" ]} []]).2 !! 1%nat = Some nd' ∧
     kids nd' = [VNone; VNode 0%nat]) ∧
  (∀ k, VNode k ∈ [VNone; VNode 0%nat] →
        Py.getattr
          (Node.init VNone (VStr "ArrayLit") [VNone; VNode 0%nat]
             [mkNode {[ "type" := VStr "Num" ]} []]).2
          (VNode k) "parent" = Ok (VNode 1%nat)) ∧
  (∀ q, (q < length [mkNode {[ "type" := VStr "Num" ]} []])%nat →
        kids <$> (Node.init VNone (VStr "ArrayLit") [VNone; VNode 0%nat]
                    [mkNode {[ "type" := VStr "Num" ]} []]).2 !! q
        = kids <$> [mkNode {[ "type" := VStr "Num" ]} []] !! q).
Proof.
  apply (init_children [mkNode {[ "type" := VStr "Num" ]} []] VNone
           (VStr "ArrayLit") [VNone; VNode 0%nat] 1%nat
           (Node.init VNone (VStr "ArrayLit") [VNone; VNode 0%nat]
              [mkNode {[ "type" := VStr "Num" ]} []]).2).
  vm_compute. reflexivity.
Defined.

(** The loop of the constructor on empty slots. *)
Lemma append_all_slots self (args : list value) h nd :
  h !! self = Some nd →
  Forall (λ arg, Py.truthy arg = false) args →
  Node.append_all self args h
  = (Ok (), <[self := mkNode (attrs nd) (kids nd ++ args)]> h).
Proof.
  intros Hs Hargs. revert h nd Hs.
  induction Hargs as [|arg args Harg _ IH]; intros h nd Hs.
  - cbn [Node.append_all]. rewrite app_nil_r.
    rewrite list_insert_id; [done|]. rewrite Hs. by destruct nd.
  - cbn [Node.append_all].
    rewrite (bind_Ok _ _ h VNone
               (<[self := mkNode (attrs nd) (kids nd ++ [arg])]> h)).
    2:{ rewrite append_falsy_unrelated by done.
        apply St_list_append_Ok. unfold Py.list_append. by rewrite Hs. }
    rewrite (IH _ (mkNode (attrs nd) (kids nd ++ [arg]))).
    2:{ rewrite (lookup_update _ _ nd) by done. by rewrite decide_True. }
    cbn [attrs kids]. by rewrite list_insert_insert_eq, <- app_assoc.
Qed.

(** X14.  The constructor always returns when it gets no tokenizer and only
    empty slots as arguments (the elisions of an array literal): the new
    node has the slots as children, in their number and order, and its type
    as only attribute; nothing else changes in the store. *)
Theorem init_with_slots (h : heap) (type : value) (args : list value) :
  Forall (λ arg, Py.truthy arg = false) args →
  Node.init VNone type args h
  = (Ok (length h),
     (h ++ [mkNode (if Py.truthy type then {[ "type" := type ]} else ∅) args])%list).
Proof.
  intros Hargs. unfold Node.init, St.new. unfold mbind at 1, M_bind at 1.
  cbn [Py.truthy].
  assert (∀ nd, kids nd = [] →
            (Node.append_all (length h) args ≫= λ _, mret (length h))
              (h ++ [nd])%list
            = (Ok (length h), (h ++ [mkNode (attrs nd) args])%list)) as Hloop.
  { intros nd Hkids.
    rewrite (bind_Ok _ _ _ () _ (append_all_slots _ _ _ nd (lookup_new h nd) Hargs)).
    rewrite Hkids, app_nil_l, insert_app_r_alt, Nat.sub_diag by done.
    reflexivity. }
  destruct (Py.truthy type).
  - rewrite ?bind_assoc, setattr_new_run by done. cbv beta.
    by rewrite Hloop.
  - rewrite ret_run. by rewrite Hloop.
Qed.

(** An array literal of three elisions. *)
Lemma init_with_slots_witness :
  Node.init VNone (VStr "ArrayLit") [VNone; VNone; VNone] []
  = (Ok 0%nat,
     [mkNode {[ "type" := VStr "ArrayLit" ]} [VNone; VNone; VNone]]).
Proof.
  apply (init_with_slots [] (VStr "ArrayLit") [VNone; VNone; VNone]).
  by repeat constructor.
Defined.

(** ** Serializing children *)

(** A loop that adds one text per item adds their concatenation. *)
Lemma foldM_texts {A : Type} (f : string → A → outcome string)
    (R : A → string → Prop) (l : list A) (xmls : list string) (result : string) :
  (∀ result x xml, R x xml → f result x = Ok (result +:+ xml)) →
  Forall2 R l xmls →
  foldM f l result = Ok (result +:+ concat_texts xmls).
Proof.
  intros Hf Hl. revert result.
  induction Hl as [|x xml l xmls Hx _ IH]; intros result.
  - simpl. by rewrite string_app_nil_r.
  - simpl. rewrite (Hf _ _ _ Hx). cbn [mbind outcome_bind].
    by rewrite IH, string_app_assoc.
Qed.

(** An empty slot among the children stops [export]: the slot has no
    [export] method. *)
Lemma export_child_empty_slot export_node h acc child r :
  Py.truthy child = false → Node.export_child export_node h acc child ≠ Ok r.
Proof.
  intros Hchild. unfold Node.export_child.
  rewrite (falsy_hasattr _ _ _ Hchild). cbn [negb].
  destruct (acc !! "children") as [[v|d|l]|] eqn:Hacc.
  - rewrite Hacc. by destruct v.
  - by rewrite Hacc.
  - rewrite Hacc. by destruct child.
  - rewrite lookup_insert_eq. by destruct child.
Qed.

(** X15.  [export] never returns a record for a node that has an empty slot
    among its children, whatever else the node holds: the child loop calls
    [export] on every child without relation, and an empty slot has no such
    method.  ([toXml] writes the same slot as [<none/>].) *)
Theorem export_empty_slot (h : heap) (self : loc) (nd : node) (child : value) :
  h !! self = Some nd →
  child ∈ kids nd →
  Py.truthy child = false →
  ∀ (fuel : nat) (d : gmap string exported), Node.export fuel h self ≠ Ok d.
Proof.
  intros Hs Hin Hchild fuel d. destruct fuel as [|fuel]; [done|].
  cbn [Node.export]. rewrite Hs.
  destruct (foldM _ (Py.dir nd) ∅) as [acc| | |]; try done.
  cbn [mbind outcome_bind].
  apply (foldM_not_Ok _ _ child); [done|].
  intros b r. by apply export_child_empty_slot.
Qed.

(** The array literal [[, 1]] gives no record. *)
Lemma export_empty_slot_witness :
  returned (Node.export 3 elision_store 0%nat) = None.
Proof.
  destruct (Node.export 3 elision_store 0%nat) as [d| | |] eqn:Hexport;
    [|reflexivity..].
  destruct (export_empty_slot elision_store 0%nat
              (mkNode {[ "type" := VStr "ArrayLit" ]} [VNone; VNode 1%nat]) VNone
              eq_refl (list_elem_of_here _ _) eq_refl 3%nat d Hexport).
Defined.

(** X16.  The XML of a node without comments: the opening tag with the
    collected attributes, then what each child gives, in order, then each
    related node the attribute loop found, between tags named after its
    relation, then the closing tag; a node without children and related
    nodes is written as the one self-closing tag.  An empty slot gives a
    [<none/>] line indented with the given [tab]; a node gives what the
    call of [toXml] on it returns, one level deeper as a child and two
    levels deeper as a related node, but written with the tab of two
    spaces: [tab] is not passed on.  That call is a call on the instance:
    it returns what [toXml] returns on the node when the node has no
    attribute named [toXml], and raises otherwise. *)
Theorem toXml_children (fuel : nat) (h : heap) (self : loc) (nd : node)
    (format : bool) (indent : Z) (tab : string)
    (related : list value) (collected : list string)
    (type : value) (t : string) (xmls rel_xmls : list string) :
  h !! self = Some nd →
  foldM (Node.toXml_attribute h self) (Py.dir nd) ([], []) = Ok (related, collected) →
  attrs nd !! "comments" = None →
  attrs nd !! "type" = Some type →
  Py.str type = Ok t →
  Forall2 (child_xml fuel h format indent tab related) (kids nd) xmls →
  Forall2 (related_xml fuel h format indent tab) related rel_xmls →
  (let lead := if format then Py.times tab indent else "" in
   let lineBreak := if format then Py.newline else "" in
   let attributes :=
     match collected with [] => "" | _ => " " +:+ Py.join " " collected end in
   Node.toXml (S fuel) h self format indent tab
   = Ok (if bool_decide (kids nd = [] ∧ related = [])
         then lead +:+ "<" +:+ t +:+ attributes +:+ "/>" +:+ lineBreak
         else (lead +:+ "<" +:+ t +:+ attributes +:+ ">" +:+ lineBreak)
                +:+ concat_texts xmls
                +:+ concat_texts rel_xmls
                +:+ lead +:+ "</" +:+ t +:+ ">" +:+ lineBreak)) ∧
  (∀ (c : loc) (ndc : node) (body : loc → outcome string),
     h !! c = Some ndc →
     Node.call h "toXml" body c
     = match attrs ndc !! "toXml" with
       | None => body c
       | Some (VObj _) => Unmodelled
       | Some _ => Raise TypeError
       end).
Proof.
  intros Hs Hattrs Hcomments Htype Ht Hkids Hrelated.
  split; [|intros c ndc body Hc; unfold Node.call, Py.method; rewrite Hc;
           by destruct (attrs ndc !! "toXml") as [[]|]].
  intros lead lineBreak attributes.
  cbn [Node.toXml]. rewrite Hs, Hattrs. cbn [mbind outcome_bind].
  assert (Py.getattr_default h (VNode self) "comments" VNone = VNone) as ->.
  { unfold Py.getattr_default, Py.getattr. by rewrite Hs, Hcomments. }
  assert (Py.getattr h (VNode self) "type" = Ok type) as ->.
  { unfold Py.getattr. by rewrite Hs, Htype. }
  assert ((if (0 <? length collected)%nat
           then " " +:+ Py.join " " collected else "") = attributes) as ->.
  { by destruct collected. }
  cbn [Py.truthy negb].
  assert ((length (kids nd) =? 0)%nat && (length related =? 0)%nat
          = bool_decide (kids nd = [] ∧ related = [])) as ->.
  { destruct (kids nd), related; cbn [length Nat.eqb andb];
      symmetry; (by apply bool_decide_eq_true) || (apply bool_decide_eq_false;
      by intros [? ?]). }
  destruct (bool_decide (kids nd = [] ∧ related = [])).
  - cbn [mbind outcome_bind]. rewrite Ht. reflexivity.
  - cbn [mbind outcome_bind]. rewrite Ht. cbn [mbind outcome_bind].
    erewrite (foldM_texts _ (child_xml fuel h format indent tab related));
      [| |exact Hkids].
    + cbn [mbind outcome_bind].
      erewrite (foldM_texts _ (related_xml fuel h format indent tab));
        [| |exact Hrelated].
      * cbn [mbind outcome_bind]. by rewrite !string_app_assoc.
      * intros result x xml (c & rel & r & inner & -> & Hrel & Hr & Hxml & ->).
        rewrite Hrel. cbn [mbind outcome_bind]. rewrite Hr.
        cbn [mbind outcome_bind]. unfold Node.call in Hxml.
        destruct (Py.method h c "toXml") as [[]| | |]; try done.
        cbn [mbind outcome_bind] in Hxml |- *.
        rewrite Hxml. cbn [mbind outcome_bind].
        by rewrite !string_app_assoc.
    + intros result x xml Hx. unfold child_xml in Hx.
      destruct (Py.truthy x) eqn:Hx'; cbn [negb]; [|by subst xml].
      destruct (Py.hasattr h x "rel") eqn:Hrel; cbn [negb].
      * destruct Hx as [Hfound ->]. rewrite Hfound. cbn [mbind outcome_bind negb].
        by rewrite string_app_nil_r.
      * destruct Hx as (c & -> & Hxml). unfold Node.call in Hxml.
        destruct (Py.method h c "toXml") as [[]| | |]; try done.
        cbn [mbind outcome_bind] in Hxml |- *. by rewrite Hxml.
Qed.

(** A node with a related child, an empty slot and a child without relation,
    written at depth 1 with the tab [--]: the slot and the tags of the
    relation are indented with that tab, the nodes with spaces. *)
Lemma toXml_children_witness :
  Node.toXml 2 mixed_store 0%nat true 1 "--"
  = Ok ("--<If>" +:+ Py.newline
          +:+ "----<none/>" +:+ Py.newline
          +:+ "    <Block/>" +:+ Py.newline
          +:+ "----<condition>" +:+ Py.newline
          +:+ "      <True/>" +:+ Py.newline
          +:+ "----</condition>" +:+ Py.newline
          +:+ "--</If>" +:+ Py.newline).
Proof.
  destruct (toXml_children 1 mixed_store 0%nat
              (mkNode (<[ "condition" := VNode 1%nat ]> {[ "type" := VStr "If" ]})
                      [VNode 1%nat; VNone; VNode 2%nat])
              true 1 "--" [VNode 1%nat] [] (VStr "If") "If"
              [""; "----<none/>" +:+ Py.newline; "    <Block/>" +:+ Py.newline]
              ["----<condition>" +:+ Py.newline +:+ "      <True/>" +:+ Py.newline
                 +:+ "----</condition>" +:+ Py.newline])
    as [Hxml _].
  - reflexivity.
  - vm_compute. reflexivity.
  - vm_compute. reflexivity.
  - vm_compute. reflexivity.
  - reflexivity.
  - constructor; [split; vm_compute; reflexivity|].
    constructor; [vm_compute; reflexivity|].
    constructor; [|constructor].
    exists 2%nat. split; vm_compute; reflexivity.
  - constructor; [|constructor].
    exists 1%nat, (VStr "condition"), "condition", ("      <True/>" +:+ Py.newline).
    repeat split; vm_compute; reflexivity.
  - exact Hxml.
Defined.

(** The attribute loop of [toXml] finds no related node on a node none of
    whose attributes holds a node. *)
Lemma toXml_attribute_no_node h self nd name related collected related' collected' :
  h !! self = Some nd →
  (∀ r, attrs nd !! name ≠ Some (VNode r)) →
  Node.toXml_attribute h self (related, collected) name = Ok (related', collected') →
  related' = related.
Proof.
  intros Hs Hname. unfold Node.toXml_attribute.
  destruct (Node.visible Node.toXml_excluded name) as [[]| | |];
    cbn [mbind outcome_bind]; try done; [|by intros [= <- _]].
  unfold Py.getattr. rewrite Hs.
  destruct (attrs nd !! name) as [v|] eqn:Hv; cbn [mbind outcome_bind]; [|done].
  destruct v as [|b|z|s|l|r|fields]; try (by intros [= <- _]).
  - destruct (length l =? 0)%nat; [by intros [= <- _]|].
    destruct (if Py.name_in name _ then _ else _) as [l'| | |];
      cbn [mbind outcome_bind]; try done.
    destruct (Py.join_values "," l') as [text|[]| |];
      cbn [mbind outcome_bind]; try done.
    by intros [= <- _].
  - by destruct (Hname r).
Qed.

Lemma toXml_attributes_no_node h self nd names related collected related' collected' :
  h !! self = Some nd →
  (∀ name r, attrs nd !! name ≠ Some (VNode r)) →
  foldM (Node.toXml_attribute h self) names (related, collected)
    = Ok (related', collected') →
  related' = related.
Proof.
  intros Hs Hnd. revert related collected.
  induction names as [|name names IH]; intros related collected; cbn [foldM].
  - by intros [= <- _].
  - destruct (Node.toXml_attribute h self (related, collected) name)
      as [[related1 collected1]| | |] eqn:Hstep; cbn [mbind outcome_bind]; try done.
    intros Hrest. apply IH in Hrest. subst related'.
    by eapply toXml_attribute_no_node.
Qed.

(** X17.  A child that carries a relation name must be held by an attribute
    of its parent: when no attribute of a node holds a node, and one of its
    children has the attribute [rel], [toXml] does not return a text for
    that node.  Such a child comes from appending, without relation name, a
    node that is the related child of another node. *)
Theorem toXml_child_related_elsewhere (h : heap) (self : loc) (nd : node) (c : loc) :
  h !! self = Some nd →
  (∀ name r, attrs nd !! name ≠ Some (VNode r)) →
  VNode c ∈ kids nd →
  Py.hasattr h (VNode c) "rel" = true →
  ∀ (fuel : nat) (format : bool) (indent : Z) (tab out : string),
    Node.toXml fuel h self format indent tab ≠ Ok out.
Proof.
  intros Hs Hnd Hin Hrel fuel format indent tab out.
  destruct fuel as [|fuel]; [done|]. cbn [Node.toXml]. rewrite Hs.
  destruct (foldM _ (Py.dir nd) ([], [])) as [[related collected]| | |] eqn:Hattrs;
    cbn [mbind outcome_bind]; try done.
  apply (toXml_attributes_no_node _ _ nd) in Hattrs; [|done..]. subst related.
  destruct (kids nd) as [|child l] eqn:Hkids; [by apply elem_of_nil in Hin|].
  cbn [length Nat.eqb andb mbind outcome_bind].
  destruct (Py.getattr h (VNode self) "type") as [type| | |];
    cbn [mbind outcome_bind]; try done.
  destruct (Py.str type) as [t| | |]; cbn [mbind outcome_bind]; try done.
  destruct (if Py.truthy _ then _ else _) as [result| | |];
    cbn [mbind outcome_bind]; try done.
  match goal with
  | |- foldM ?f _ _ ≫= _ ≠ _ =>
      assert (∀ b r, f b (VNode c) ≠ Ok r) as Hstep
  end.
  { intros b r. cbv beta. cbn [Py.truthy negb]. rewrite Hrel.
    cbn [negb Py.list_contains mbind outcome_bind].
    destruct (Py.getattr h (VNode c) "type") as [?| | |];
      cbn [mbind outcome_bind]; try done.
    by destruct (Py.getattr h (VNode c) "rel") as [?| | |]. }
  pose proof (foldM_not_Ok _ _ _ Hin Hstep result) as Hloop.
  destruct (foldM _ (child :: l) result) as [result'| | |]; try done.
  by destruct (Hloop result').
Qed.

(** The related child [condition] of one node as only child of another:
    no text is returned. *)
Lemma toXml_child_related_elsewhere_witness :
  returned
    (Node.toXml 3
       (mixed_store ++ [mkNode {[ "type" := VStr "Block" ]} [VNode 1%nat]])%list
       3%nat true 0 "  ") = None.
Proof.
  destruct (Node.toXml 3 _ 3%nat true 0 "  ") as [out| | |] eqn:HtoXml;
    [|reflexivity..].
  destruct (toXml_child_related_elsewhere
              (mixed_store ++ [mkNode {[ "type" := VStr "Block" ]} [VNode 1%nat]])%list
              3%nat (mkNode {[ "type" := VStr "Block" ]} [VNode 1%nat]) 1%nat)
    with (fuel := 3%nat) (format := true) (indent := 0) (tab := "  ") (out := out).
  - reflexivity.
  - intros name r. cbn [attrs]. intros Hname.
    apply lookup_singleton_Some in Hname as [_ Hname]. discriminate.
  - apply list_elem_of_here.
  - vm_compute. reflexivity.
  - exact HtoXml.
Defined.

(** X18.  On a node whose tokenizer attribute holds a false value,
    [getSource] fails with the [NameError] of line 202, which reads the
    type of an unbound [node] to build its message; [getFileName] fails on
    the same node with an [AttributeError] when that value is not an
    object with a file name. *)
Theorem getSource_false_tokenizer (h : heap) (self : loc) (tokenizer : value) :
  Py.getattr h (VNode self) "tokenizer" = Ok tokenizer →
  Py.truthy tokenizer = false →
  Node.getSource h self = Raise (NameError "node") ∧
  Node.getFileName h self = Raise (AttributeError "filename").
Proof.
  intros Htok Hfalse. unfold Node.getSource, Node.getFileName.
  rewrite Htok. cbn [mbind outcome_bind]. rewrite Hfalse. cbn [negb].
  split; [done|]. by destruct tokenizer.
Qed.

(** A node whose tokenizer has been set to [None]. *)
Lemma getSource_false_tokenizer_witness :
  Node.getSource [mkNode {[ "tokenizer" := VNone ]} []] 0%nat
    = Raise (NameError "node") ∧
  Node.getFileName [mkNode {[ "tokenizer" := VNone ]} []] 0%nat
    = Raise (AttributeError "filename").
Proof.
  apply (getSource_false_tokenizer [mkNode {[ "tokenizer" := VNone ]} []]
           0%nat VNone); reflexivity.
Defined.

(** ** Lists of declarations in the XML *)

Lemma mapM_first_failure {A B : Type} (f : A → outcome B) (l1 l2 : list A)
    (x : A) (e : exn) :
  Forall (λ y, is_Some (returned (f y))) l1 →
  f x = Raise e →
  mapM f (l1 ++ x :: l2) = Raise e.
Proof.
  intros Hl1 Hx. induction Hl1 as [|y l1 [b Hy] _ IH]; cbn [app mapM].
  - by rewrite Hx.
  - destruct (f y) as [b'| | |]; try done. cbn [mbind outcome_bind].
    by rewrite IH.
Qed.

(** X20.  The lists of declarations [varDecls] and [funDecls] are rendered
    through the [value] of their items, read before the [try] that guards
    the joining: when an item has no attribute [value], the items before it
    having one, the attribute loop of [toXml] raises a bare
    [AttributeError], not the exception "Invalid attribute list child";
    [toXml] never returns a text for the node, and raises that
    [AttributeError] on a node without children, comments and other
    rendered attributes. *)
Theorem toXml_declaration_without_value (h : heap) (self : loc) (nd : node)
    (name : string) (l1 l2 : list value) (item : value) :
  h !! self = Some nd →
  name = "varDecls" ∨ name = "funDecls" →
  attrs nd !! name = Some (VList (l1 ++ item :: l2)) →
  Forall (λ x, Py.hasattr h x "value" = true) l1 →
  Py.getattr h item "value" = Raise (AttributeError "value") →
  (∀ acc, Node.toXml_attribute h self acc name = Raise (AttributeError "value")) ∧
  (∀ fuel format indent tab out,
     Node.toXml fuel h self format indent tab ≠ Ok out) ∧
  (∀ fuel format indent tab,
     plain_leaf nd name →
     Node.toXml (S fuel) h self format indent tab
     = Raise (AttributeError "value")).
Proof.
  intros Hs Hname Hattr Hl1 Hitem.
  assert (Node.visible Node.toXml_excluded name = Ok true) as Hvis.
  { by destruct Hname as [-> | ->]. }
  assert (Py.name_in name ["varDecls"; "funDecls"] = true) as Hin.
  { by destruct Hname as [-> | ->]. }
  assert (∀ acc, Node.toXml_attribute h self acc name
                 = Raise (AttributeError "value")) as Hraise.
  { intros acc. rewrite (toXml_attribute_list _ _ nd _ (l1 ++ item :: l2)) by done.
    rewrite length_app. cbn [length].
    replace (length l1 + S (length l2) =? 0)%nat with false
      by (symmetry; apply Nat.eqb_neq; lia).
    rewrite Hin, (mapM_first_failure _ l1 l2 item (AttributeError "value"));
      [done| |done].
    eapply Forall_impl; [exact Hl1|]. intros x Hx. cbv beta.
    unfold Py.hasattr in Hx. by destruct (Py.getattr h x "value"). }
  split; [exact Hraise|]. split.
  - intros fuel format indent tab out. destruct fuel as [|fuel]; [done|].
    cbn [Node.toXml]. rewrite Hs.
    pose proof (foldM_not_Ok (Node.toXml_attribute h self) (Py.dir nd) name)
      as Hfold.
    destruct (foldM (Node.toXml_attribute h self) (Py.dir nd) ([], []))
      as [r| | |] eqn:Hf; try done.
    exfalso. eapply Hfold; [| |exact Hf].
    + apply elem_of_dir. by eexists.
    + intros b r'. by rewrite Hraise.
  - intros fuel format indent tab Hleaf.
    rewrite (toXml_plain_leaf _ _ _ nd name) by (done || by eexists).
    by rewrite Hraise.
Qed.

(** A [Script] node whose [varDecls] holds one node without [value]. *)
Lemma toXml_declaration_without_value_witness :
  Node.toXml 1
    [mkNode {[ "type" := VStr "Script"; "varDecls" := VList [VNode 1%nat] ]} [];
     mkNode {[ "type" := VStr "Identifier" ]} []]
    0%nat true 0 "  "
  = Raise (AttributeError "value").
Proof.
  destruct (toXml_declaration_without_value
              [mkNode {[ "type" := VStr "Script"; "varDecls" := VList [VNode 1%nat] ]} [];
               mkNode {[ "type" := VStr "Identifier" ]} []]
              0%nat
              (mkNode {[ "type" := VStr "Script"; "varDecls" := VList [VNode 1%nat] ]} [])
              "varDecls" [] [] (VNode 1%nat)) as (_ & _ & Hleaf).
  - reflexivity.
  - by left.
  - vm_compute. reflexivity.
  - constructor.
  - vm_compute. reflexivity.
  - apply Hleaf. split; [|by split]. intros other [v Hv] Hne. cbn [attrs] in Hv.
    apply lookup_insert_Some in Hv as [[<- _] | [_ Hv]]; [reflexivity|].
    by apply lookup_singleton_Some in Hv as [<- _].
Defined.
